(** * Lifecycle synchronisation core of the ITAD front end

    A shallow embedding of the mock service layer of the repository
    ([booking.service.ts], [invoices.service.ts], [commission.service.ts],
    [sanitisation.service.ts], [grading.service.ts], [job-helpers.ts]) and
    the properties of its four status machines.

    Modelling conventions
    - The module-level arrays [mockBookings], [mockJobs], [mockCommissions],
      [mockInvoices], [mockSanitisationRecords] and [mockGradingRecords] are
      the fields of one [World]; a service method is a function from the
      world to an outcome, either a thrown [ApiError] or a returned value
      together with the world it leaves behind.
    - [Array.prototype.find] followed by assignments to the fields of the
      object found is a lookup of the first matching index followed by an
      update of the list at that index.
    - [await delay (..)] and the dynamic [import] only yield control; one
      call runs from start to end on the world it is given.
    - The readings of the clock and of [Math.random] taken by a call are its
      [Env] argument.
    - Counts and rounded amounts are integers ([Z]), money values that are
      never rounded are rationals ([Q]) standing for the binary64 value they
      equal, and [Math.round] is rounding half up.  The commission amount
      and the grading table are evaluated in binary64 ([Binary64.mul],
      [Binary64.div]): each product and quotient is rounded to the nearest
      double before [Math.round] sees it.  The unit price and the tax of an
      invoice are computed on the exact quotient and product (on the worked
      examples and on small whole amounts the results are the same in
      binary64, see [binary64_agrees_on_whole_amounts]).  [NaN] is [None]
      where a result can be [NaN] (the resale value); [Infinity] has no
      counterpart, so statements about a quotient assume a non-zero
      divisor.
    - An object literal used as a table ([baseResaleValues], [byPeriod])
      inherits from [Object.prototype]: a key that is not an own property
      reads as the inherited member when it is one of [JS.prototypeKeys]
      and as [undefined] otherwise. *)

From Stdlib Require Import ZArith QArith Qround Lia.
From stdpp Require Import base option list gmap sets strings pretty.

Local Close Scope Q_scope.
Local Open Scope string_scope.
Local Open Scope Z_scope.

(** ** JavaScript primitives used by the services *)

Module JS.

(** Truthiness of an optional string property ([undefined] and the empty
    string are falsy). *)
Definition truthy (s : option string) : bool :=
  match s with
  | Some s => negb (String.eqb s "")
  | None => false
  end.

(** [a || b] on optional strings. *)
Definition or_else (s : option string) (d : string) : string :=
  if truthy s then default d s else d.

(** [Math.round]: the nearest integer, halves towards plus infinity. *)
Definition Math_round (x : Q) : Z := Qfloor (x + (1 # 2))%Q.

(** [String(n)] for an integer [n]. *)
Definition String_of (n : Z) : string := pretty n.

(** [s.padStart (n, '0')]. *)
Definition padStart0 (n : nat) (s : string) : string :=
  String.concat "" (replicate (n - String.length s)%nat "0") +:+ s.

Definition msPerDay : Z := 24 * 60 * 60 * 1000.

(** The UTC calendar day (days since 1970-01-01) of a time value. *)
Definition utcDay (t : Z) : Z := t / msPerDay.

(** Year, month and day of month of a day number (proleptic Gregorian
    calendar, as [Date] uses). *)
Definition civil (day : Z) : Z * Z * Z :=
  let z := day + 719468 in
  let era := z / 146097 in
  let doe := z - era * 146097 in
  let yoe := (doe - doe / 1460 + doe / 36524 - doe / 146096) / 365 in
  let doy := doe - (365 * yoe + yoe / 4 - yoe / 100) in
  let mp := (5 * doy + 2) / 153 in
  let d := doy - (153 * mp + 2) / 5 + 1 in
  let m := if mp <? 10 then mp + 3 else mp - 9 in
  let y := yoe + era * 400 + (if m <=? 2 then 1 else 0) in
  (y, m, d).

Definition pad (n : nat) (x : Z) : string := padStart0 n (String_of x).

(** [new Date (t).toISOString ().split ('T')[0]], for years 0 to 9999. *)
Definition isoDate (day : Z) : string :=
  let '(y, m, d) := civil day in
  pad 4 y +:+ "-" +:+ pad 2 m +:+ "-" +:+ pad 2 d.

(** [new Date (t).toISOString ().slice (0, 7)], for years 0 to 9999. *)
Definition isoMonth (day : Z) : string :=
  let '(y, m, _) := civil day in
  pad 4 y +:+ "-" +:+ pad 2 m.

(** [new Date (t).toISOString ()], for years 0 to 9999. *)
Definition toISOString (t : Z) : string :=
  let ms := t mod msPerDay in
  isoDate (utcDay t) +:+ "T" +:+ pad 2 (ms / 3600000) +:+ ":"
    +:+ pad 2 (ms / 60000 mod 60) +:+ ":" +:+ pad 2 (ms / 1000 mod 60)
    +:+ "." +:+ pad 3 (ms mod 1000) +:+ "Z".

(** [arr.join (', ')]. *)
Definition join (l : list string) : string := String.concat ", " l.

(** The property names of [Object.prototype], which every object literal
    inherits: eleven functions and the accessor [__proto__]. *)
Definition prototypeKeys : list string :=
  ["constructor"; "hasOwnProperty"; "isPrototypeOf"; "propertyIsEnumerable";
   "toLocaleString"; "toString"; "valueOf"; "__proto__";
   "__defineGetter__"; "__defineSetter__"; "__lookupGetter__";
   "__lookupSetter__"].

(** Whether [({})[k]] is an inherited member. *)
Definition inherited (k : string) : bool := bool_decide (k ∈ prototypeKeys).

(** What [table[k]] reads in an object literal: an own property, a member
    inherited from [Object.prototype] (an object: truthy, and [NaN] as a
    number), or [undefined]. *)
Inductive Member (A : Type) : Type :=
  | Own (a : A)
  | Inherited
  | Missing.

Arguments Own {A} a.
Arguments Inherited {A}.
Arguments Missing {A}.

(** A number (an integer here) or a string: what [(x || 0) + n] can leave in
    a table of amounts. *)
Inductive NumOrStr : Type :=
  | Num (n : Z)
  | Str (s : string).

End JS.

(** ** Binary64 arithmetic

    The grading service multiplies two constants of its own tables and the
    booking service multiplies the estimated buyback by [10 / 100]; each
    quotient and product is rounded to the nearest binary64 value before
    [Math.round] sees it, and near a half this decides the result.  [fl]
    rounds a rational to 53 significant bits, ties to even (the normal
    range is enough for the values at hand). *)

Module Binary64.

(** The exponent [e] with [2^e <= |x| < 2^(e+1)], for [x <> 0]. *)
Definition exponent (x : Q) : Z :=
  let p := Z.abs (Qnum x) in
  let q := Zpos (Qden x) in
  let e := Z.log2 p - Z.log2 q in
  if p * 2 ^ Z.max 0 (- e) <? q * 2 ^ Z.max 0 e then e - 1 else e.

(** Nearest integer to [p / q], ties to even, for [0 <= p] and [0 < q]. *)
Definition nearest_even (p q : Z) : Z :=
  let n := p / q in
  let r := 2 * (p mod q) in
  if r <? q then n
  else if q <? r then n + 1
  else if Z.even n then n else n + 1.

Definition fl (x : Q) : Q :=
  if Qnum x =? 0 then 0%Q
  else
    let s := exponent x - 52 in
    let p := Z.abs (Qnum x) * 2 ^ Z.max 0 (- s) in
    let q := Zpos (Qden x) * 2 ^ Z.max 0 s in
    let m := nearest_even p q in
    let v := (inject_Z m * (inject_Z (2 ^ Z.max 0 s) / inject_Z (2 ^ Z.max 0 (- s))))%Q in
    Qred (if Qnum x <? 0 then - v else v)%Q.

(** [a * b] on binary64 values. *)
Definition mul (a b : Q) : Q := fl (a * b)%Q.

(** [a / b] on binary64 values. *)
Definition div (a b : Q) : Q := fl (a / b)%Q.

(** A decimal literal of the source text. *)
Definition literal (x : Q) : Q := fl x.

End Binary64.

(** ** Data model *)

(** [Booking['status']]. *)
Inductive BookingStatus : Type :=
  | BCreated | BScheduled | BCollected | BSanitised | BGraded | BCompleted
  | BCancelled.

(** [WorkflowStatus] of [types/jobs.ts]. *)
Inductive WorkflowStatus : Type :=
  | JBooked | JRouted | JEnRoute | JArrived | JCollected | JWarehouse
  | JSanitised | JGraded | JFinalised.

(** [Commission['status']]. *)
Inductive CommissionStatus : Type := CPending | CApproved | CPaid.

(** [Invoice['status']]. *)
Inductive InvoiceStatus : Type := IDraft | ISent | IPaid | IOverdue | ICancelled.

(** [GradingRecord['grade']]. *)
Inductive Grade : Type := GradeA | GradeB | GradeC | GradeD | GradeRecycled.

(** [UserRole] of [types/auth.ts]. *)
Inductive UserRole : Type := Admin | Client | Reseller | DriverRole.

Inductive VehicleType : Type := Van | Truck | Car.

#[global] Instance BookingStatus_eq_dec : EqDecision BookingStatus.
Proof. solve_decision. Defined.
#[global] Instance WorkflowStatus_eq_dec : EqDecision WorkflowStatus.
Proof. solve_decision. Defined.
#[global] Instance CommissionStatus_eq_dec : EqDecision CommissionStatus.
Proof. solve_decision. Defined.
#[global] Instance InvoiceStatus_eq_dec : EqDecision InvoiceStatus.
Proof. solve_decision. Defined.
#[global] Instance Grade_eq_dec : EqDecision Grade.
Proof. solve_decision. Defined.
#[global] Instance UserRole_eq_dec : EqDecision UserRole.
Proof. solve_decision. Defined.

(** The string each status literal stands for (used in error messages). *)
Definition BookingStatus_str (s : BookingStatus) : string :=
  match s with
  | BCreated => "created" | BScheduled => "scheduled"
  | BCollected => "collected" | BSanitised => "sanitised"
  | BGraded => "graded" | BCompleted => "completed"
  | BCancelled => "cancelled"
  end.

Definition CommissionStatus_str (s : CommissionStatus) : string :=
  match s with
  | CPending => "pending" | CApproved => "approved" | CPaid => "paid"
  end.

Definition InvoiceStatus_str (s : InvoiceStatus) : string :=
  match s with
  | IDraft => "draft" | ISent => "sent" | IPaid => "paid"
  | IOverdue => "overdue" | ICancelled => "cancelled"
  end.

Definition Grade_str (g : Grade) : string :=
  match g with
  | GradeA => "A" | GradeB => "B" | GradeC => "C" | GradeD => "D"
  | GradeRecycled => "Recycled"
  end.

Module BookingAsset.

(** A line item of a booking. *)
Record t : Type := mk {
  categoryId : string;
  categoryName : string;
  quantity : Z
}.

End BookingAsset.

Module Booking.

(** [Booking] of the mock entities, with the fields the services read or
    write. *)
Record t : Type := mk {
  id : string;
  bookingNumber : string;
  clientId : string;
  clientName : string;
  resellerId : option string;
  resellerName : option string;
  siteName : string;
  siteAddress : string;
  scheduledDate : string;
  status : BookingStatus;
  assets : list BookingAsset.t;
  estimatedCO2e : Q;
  estimatedBuyback : Q;
  charityPercent : Q;
  jobId : option string;
  driverId : option string;
  driverName : option string;
  scheduledBy : option string;
  scheduledAt : option string;
  sanitisedAt : option string;
  gradedAt : option string;
  completedAt : option string
}.

Definition set_status (v : BookingStatus) (x : t) : t :=
  {| id := id x; bookingNumber := bookingNumber x; clientId := clientId x;
     clientName := clientName x; resellerId := resellerId x;
     resellerName := resellerName x; siteName := siteName x;
     siteAddress := siteAddress x; scheduledDate := scheduledDate x;
     status := v; assets := assets x; estimatedCO2e := estimatedCO2e x;
     estimatedBuyback := estimatedBuyback x;
     charityPercent := charityPercent x; jobId := jobId x;
     driverId := driverId x; driverName := driverName x;
     scheduledBy := scheduledBy x; scheduledAt := scheduledAt x;
     sanitisedAt := sanitisedAt x; gradedAt := gradedAt x;
     completedAt := completedAt x |}.

Definition set_jobId (v : option string) (x : t) : t :=
  {| id := id x; bookingNumber := bookingNumber x; clientId := clientId x;
     clientName := clientName x; resellerId := resellerId x;
     resellerName := resellerName x; siteName := siteName x;
     siteAddress := siteAddress x; scheduledDate := scheduledDate x;
     status := status x; assets := assets x;
     estimatedCO2e := estimatedCO2e x;
     estimatedBuyback := estimatedBuyback x;
     charityPercent := charityPercent x; jobId := v; driverId := driverId x;
     driverName := driverName x; scheduledBy := scheduledBy x;
     scheduledAt := scheduledAt x; sanitisedAt := sanitisedAt x;
     gradedAt := gradedAt x; completedAt := completedAt x |}.

Definition set_driverId (v : option string) (x : t) : t :=
  {| id := id x; bookingNumber := bookingNumber x; clientId := clientId x;
     clientName := clientName x; resellerId := resellerId x;
     resellerName := resellerName x; siteName := siteName x;
     siteAddress := siteAddress x; scheduledDate := scheduledDate x;
     status := status x; assets := assets x;
     estimatedCO2e := estimatedCO2e x;
     estimatedBuyback := estimatedBuyback x;
     charityPercent := charityPercent x; jobId := jobId x; driverId := v;
     driverName := driverName x; scheduledBy := scheduledBy x;
     scheduledAt := scheduledAt x; sanitisedAt := sanitisedAt x;
     gradedAt := gradedAt x; completedAt := completedAt x |}.

Definition set_driverName (v : option string) (x : t) : t :=
  {| id := id x; bookingNumber := bookingNumber x; clientId := clientId x;
     clientName := clientName x; resellerId := resellerId x;
     resellerName := resellerName x; siteName := siteName x;
     siteAddress := siteAddress x; scheduledDate := scheduledDate x;
     status := status x; assets := assets x;
     estimatedCO2e := estimatedCO2e x;
     estimatedBuyback := estimatedBuyback x;
     charityPercent := charityPercent x; jobId := jobId x;
     driverId := driverId x; driverName := v; scheduledBy := scheduledBy x;
     scheduledAt := scheduledAt x; sanitisedAt := sanitisedAt x;
     gradedAt := gradedAt x; completedAt := completedAt x |}.

Definition set_scheduledBy (v : option string) (x : t) : t :=
  {| id := id x; bookingNumber := bookingNumber x; clientId := clientId x;
     clientName := clientName x; resellerId := resellerId x;
     resellerName := resellerName x; siteName := siteName x;
     siteAddress := siteAddress x; scheduledDate := scheduledDate x;
     status := status x; assets := assets x;
     estimatedCO2e := estimatedCO2e x;
     estimatedBuyback := estimatedBuyback x;
     charityPercent := charityPercent x; jobId := jobId x;
     driverId := driverId x; driverName := driverName x; scheduledBy := v;
     scheduledAt := scheduledAt x; sanitisedAt := sanitisedAt x;
     gradedAt := gradedAt x; completedAt := completedAt x |}.

Definition set_scheduledAt (v : option string) (x : t) : t :=
  {| id := id x; bookingNumber := bookingNumber x; clientId := clientId x;
     clientName := clientName x; resellerId := resellerId x;
     resellerName := resellerName x; siteName := siteName x;
     siteAddress := siteAddress x; scheduledDate := scheduledDate x;
     status := status x; assets := assets x;
     estimatedCO2e := estimatedCO2e x;
     estimatedBuyback := estimatedBuyback x;
     charityPercent := charityPercent x; jobId := jobId x;
     driverId := driverId x; driverName := driverName x;
     scheduledBy := scheduledBy x; scheduledAt := v;
     sanitisedAt := sanitisedAt x; gradedAt := gradedAt x;
     completedAt := completedAt x |}.

Definition set_sanitisedAt (v : option string) (x : t) : t :=
  {| id := id x; bookingNumber := bookingNumber x; clientId := clientId x;
     clientName := clientName x; resellerId := resellerId x;
     resellerName := resellerName x; siteName := siteName x;
     siteAddress := siteAddress x; scheduledDate := scheduledDate x;
     status := status x; assets := assets x;
     estimatedCO2e := estimatedCO2e x;
     estimatedBuyback := estimatedBuyback x;
     charityPercent := charityPercent x; jobId := jobId x;
     driverId := driverId x; driverName := driverName x;
     scheduledBy := scheduledBy x; scheduledAt := scheduledAt x;
     sanitisedAt := v; gradedAt := gradedAt x;
     completedAt := completedAt x |}.

Definition set_gradedAt (v : option string) (x : t) : t :=
  {| id := id x; bookingNumber := bookingNumber x; clientId := clientId x;
     clientName := clientName x; resellerId := resellerId x;
     resellerName := resellerName x; siteName := siteName x;
     siteAddress := siteAddress x; scheduledDate := scheduledDate x;
     status := status x; assets := assets x;
     estimatedCO2e := estimatedCO2e x;
     estimatedBuyback := estimatedBuyback x;
     charityPercent := charityPercent x; jobId := jobId x;
     driverId := driverId x; driverName := driverName x;
     scheduledBy := scheduledBy x; scheduledAt := scheduledAt x;
     sanitisedAt := sanitisedAt x; gradedAt := v;
     completedAt := completedAt x |}.

Definition set_completedAt (v : option string) (x : t) : t :=
  {| id := id x; bookingNumber := bookingNumber x; clientId := clientId x;
     clientName := clientName x; resellerId := resellerId x;
     resellerName := resellerName x; siteName := siteName x;
     siteAddress := siteAddress x; scheduledDate := scheduledDate x;
     status := status x; assets := assets x;
     estimatedCO2e := estimatedCO2e x;
     estimatedBuyback := estimatedBuyback x;
     charityPercent := charityPercent x; jobId := jobId x;
     driverId := driverId x; driverName := driverName x;
     scheduledBy := scheduledBy x; scheduledAt := scheduledAt x;
     sanitisedAt := sanitisedAt x; gradedAt := gradedAt x;
     completedAt := v |}.

End Booking.

Module Asset.

(** [Asset] of [types/jobs.ts]; the optional enrichment fields are never
    written by the services modelled here. *)
Record t : Type := mk {
  id : string;
  category : string;
  quantity : Z
}.

End Asset.

Module Driver.

(** [Driver] of [types/jobs.ts]. *)
Record t : Type := mk {
  id : option string;
  name : string;
  vehicleReg : string;
  vehicleType : VehicleType;
  phone : string
}.

End Driver.

Module Job.

(** [Job] of [types/jobs.ts]; evidence and certificates are opaque lists. *)
Record t : Type := mk {
  id : string;
  erpJobNumber : string;
  bookingId : option string;
  clientName : string;
  siteName : string;
  siteAddress : string;
  status : WorkflowStatus;
  scheduledDate : string;
  completedDate : option string;
  assets : list Asset.t;
  driver : option Driver.t;
  co2eSaved : Q;
  travelEmissions : Q;
  buybackValue : Q;
  charityPercent : Q;
  evidence : option (list string);
  certificates : list string
}.

Definition set_status (v : WorkflowStatus) (x : t) : t :=
  {| id := id x; erpJobNumber := erpJobNumber x; bookingId := bookingId x;
     clientName := clientName x; siteName := siteName x;
     siteAddress := siteAddress x; status := v;
     scheduledDate := scheduledDate x; completedDate := completedDate x;
     assets := assets x; driver := driver x; co2eSaved := co2eSaved x;
     travelEmissions := travelEmissions x; buybackValue := buybackValue x;
     charityPercent := charityPercent x; evidence := evidence x;
     certificates := certificates x |}.

Definition set_completedDate (v : option string) (x : t) : t :=
  {| id := id x; erpJobNumber := erpJobNumber x; bookingId := bookingId x;
     clientName := clientName x; siteName := siteName x;
     siteAddress := siteAddress x; status := status x;
     scheduledDate := scheduledDate x; completedDate := v;
     assets := assets x; driver := driver x; co2eSaved := co2eSaved x;
     travelEmissions := travelEmissions x; buybackValue := buybackValue x;
     charityPercent := charityPercent x; evidence := evidence x;
     certificates := certificates x |}.

End Job.

Module Commission.

(** [Commission] of the mock entities. *)
Record t : Type := mk {
  id : string;
  resellerId : string;
  resellerName : string;
  clientId : string;
  clientName : string;
  jobId : string;
  jobNumber : string;
  bookingId : string;
  bookingNumber : string;
  commissionPercent : Z;
  jobValue : Q;
  commissionAmount : Z;
  status : CommissionStatus;
  period : string;
  createdAt : string;
  paidDate : option string
}.

Definition set_status (v : CommissionStatus) (x : t) : t :=
  {| id := id x; resellerId := resellerId x; resellerName := resellerName x;
     clientId := clientId x; clientName := clientName x; jobId := jobId x;
     jobNumber := jobNumber x; bookingId := bookingId x;
     bookingNumber := bookingNumber x;
     commissionPercent := commissionPercent x; jobValue := jobValue x;
     commissionAmount := commissionAmount x; status := v; period := period x;
     createdAt := createdAt x; paidDate := paidDate x |}.

Definition set_paidDate (v : option string) (x : t) : t :=
  {| id := id x; resellerId := resellerId x; resellerName := resellerName x;
     clientId := clientId x; clientName := clientName x; jobId := jobId x;
     jobNumber := jobNumber x; bookingId := bookingId x;
     bookingNumber := bookingNumber x;
     commissionPercent := commissionPercent x; jobValue := jobValue x;
     commissionAmount := commissionAmount x; status := status x;
     period := period x; createdAt := createdAt x; paidDate := v |}.

End Commission.

Module InvoiceItem.

(** A line of an invoice. *)
Record t : Type := mk {
  description : string;
  quantity : Z;
  unitPrice : Z;
  total : Z
}.

End InvoiceItem.

Module Invoice.

(** [Invoice] of the mock entities. *)
Record t : Type := mk {
  id : string;
  invoiceNumber : string;
  clientId : string;
  clientName : string;
  jobId : string;
  jobNumber : string;
  issueDate : string;
  dueDate : string;
  amount : Z;
  status : InvoiceStatus;
  items : list InvoiceItem.t;
  subtotal : Z;
  tax : Z;
  total : Z;
  downloadUrl : string
}.

Definition set_status (v : InvoiceStatus) (x : t) : t :=
  {| id := id x; invoiceNumber := invoiceNumber x; clientId := clientId x;
     clientName := clientName x; jobId := jobId x; jobNumber := jobNumber x;
     issueDate := issueDate x; dueDate := dueDate x; amount := amount x;
     status := v; items := items x; subtotal := subtotal x; tax := tax x;
     total := total x; downloadUrl := downloadUrl x |}.

End Invoice.

Module SanitisationRecord.

(** [SanitisationRecord] of the mock entities. *)
Record t : Type := mk {
  id : string;
  bookingId : string;
  assetId : string;
  method : string;
  methodDetails : option string;
  timestamp : string;
  performedBy : string;
  certificateId : string;
  certificateUrl : string;
  verified : bool;
  notes : option string
}.

End SanitisationRecord.

Module GradingRecord.

(** [GradingRecord] of the mock entities; a [resaleValue] of [None] is
    [NaN]. *)
Record t : Type := mk {
  id : string;
  bookingId : string;
  assetId : string;
  assetCategory : string;
  grade : Grade;
  resaleValue : option Z;
  gradedAt : string;
  gradedBy : string;
  condition : option string;
  notes : option string
}.

End GradingRecord.

Module User.

(** [User] of [types/auth.ts], with the fields the services read. *)
Record t : Type := mk {
  id : string;
  role : UserRole;
  tenantId : string
}.

End User.

(** ** Errors, environment and the shared store *)

(** [ApiErrorType] of [api-error.ts] (the members the services name). *)
Inductive ApiErrorType : Type :=
  | VALIDATION_ERROR | NOT_FOUND | SERVER_ERROR | NETWORK_ERROR
  | UNAUTHORIZED | FORBIDDEN | RATE_LIMIT | TIMEOUT.

#[global] Instance ApiErrorType_eq_dec : EqDecision ApiErrorType.
Proof. solve_decision. Defined.

(** [new ApiError (type, message, statusCode, details)]; the details object
    is a list of key/value pairs. *)
Record ApiError : Type := mkApiError {
  etype : ApiErrorType;
  message : string;
  statusCode : Z;
  details : list (string * string)
}.

(** What a call reads from outside the store: the clock ([Date.now ()], one
    reading per call), the local calendar year ([getFullYear ()]), the
    value of [Math.floor (Math.random () * 100000)], the error simulation
    switch of [api-error.ts] ([errorSim name] is [None] when
    [shouldSimulateError (name)] is false and [Some c] when it is true with
    [config.errorType = c]), and the text the engine gives the built-in
    functions of [Object.prototype] ([nativeText name] is
    [String (Object.prototype[name])], which the language leaves to the
    implementation). *)
Record Env : Type := mkEnv {
  now : Z;
  fullYear : Z;
  random : Z;
  errorSim : string -> option (option ApiErrorType);
  nativeText : string -> string
}.

(** The module-level arrays. *)
Record World : Type := mkWorld {
  mockBookings : list Booking.t;
  mockJobs : list Job.t;
  mockCommissions : list Commission.t;
  mockInvoices : list Invoice.t;
  mockSanitisationRecords : list SanitisationRecord.t;
  mockGradingRecords : list GradingRecord.t
}.

Definition set_mockBookings (v : list Booking.t) (w : World) : World :=
  {| mockBookings := v; mockJobs := mockJobs w;
     mockCommissions := mockCommissions w; mockInvoices := mockInvoices w;
     mockSanitisationRecords := mockSanitisationRecords w;
     mockGradingRecords := mockGradingRecords w |}.

Definition set_mockJobs (v : list Job.t) (w : World) : World :=
  {| mockBookings := mockBookings w; mockJobs := v;
     mockCommissions := mockCommissions w; mockInvoices := mockInvoices w;
     mockSanitisationRecords := mockSanitisationRecords w;
     mockGradingRecords := mockGradingRecords w |}.

Definition set_mockCommissions (v : list Commission.t) (w : World) : World :=
  {| mockBookings := mockBookings w; mockJobs := mockJobs w;
     mockCommissions := v; mockInvoices := mockInvoices w;
     mockSanitisationRecords := mockSanitisationRecords w;
     mockGradingRecords := mockGradingRecords w |}.

Definition set_mockInvoices (v : list Invoice.t) (w : World) : World :=
  {| mockBookings := mockBookings w; mockJobs := mockJobs w;
     mockCommissions := mockCommissions w; mockInvoices := v;
     mockSanitisationRecords := mockSanitisationRecords w;
     mockGradingRecords := mockGradingRecords w |}.

Definition set_mockSanitisationRecords
  (v : list SanitisationRecord.t) (w : World) : World :=
  {| mockBookings := mockBookings w; mockJobs := mockJobs w;
     mockCommissions := mockCommissions w; mockInvoices := mockInvoices w;
     mockSanitisationRecords := v;
     mockGradingRecords := mockGradingRecords w |}.

Definition set_mockGradingRecords
  (v : list GradingRecord.t) (w : World) : World :=
  {| mockBookings := mockBookings w; mockJobs := mockJobs w;
     mockCommissions := mockCommissions w; mockInvoices := mockInvoices w;
     mockSanitisationRecords := mockSanitisationRecords w;
     mockGradingRecords := v |}.

(** How a call ends: it returns a value or throws, and leaves a store. *)
Inductive outcome (A : Type) : Type :=
  | Returned (a : A) (w : World)
  | Thrown (e : ApiError) (w : World).
Arguments Returned {A} a w.
Arguments Thrown {A} e w.

Definition final_world {A} (o : outcome A) : World :=
  match o with Returned _ w => w | Thrown _ w => w end.

Definition dq : string := String (Ascii.ascii_of_nat 34) EmptyString.

(** [`"${s}"`]. *)
Definition quoted (s : string) : string := dq +:+ s +:+ dq.

(** The error thrown under [if (shouldSimulateError (SERVICE_NAME))]. *)
Definition simulated (env : Env) (service : string) (fallback : ApiErrorType)
    (msg : string) : option ApiError :=
  match errorSim env service with
  | None => None
  | Some c =>
      Some {| etype := default fallback c;
              message := msg;
              statusCode := if decide (c = Some NETWORK_ERROR) then 0 else 500;
              details := [] |}
  end.

(** [arr.find (x => key (x) === k)]: the first match and its index. *)
Definition find_by {A} (key : A -> string) (k : string) (l : list A)
    : option (nat * A) :=
  list_find (fun x => key x = k) l.

(** [arr.includes (s)] on a list of status literals. *)
Definition includes {A} `{EqDecision A} (l : list A) (s : A) : bool :=
  bool_decide (s ∈ l).

(** ** Commission service ([commission.service.ts]) *)

Module CommissionService.

Definition SERVICE_NAME : string := "commission".

(** The [filter] argument of [getCommissions]. *)
Record Filter : Type := mkFilter {
  status : option string;
  period : option string
}.

Definition getCommissionsMock (env : Env) (w : World) (user : option User.t)
    (flt : option Filter) : outcome (list Commission.t) :=
  match simulated env SERVICE_NAME NETWORK_ERROR
          "Failed to fetch commission records. Please try again." with
  | Some e => Thrown e w
  | None =>
      let commissions := mockCommissions w in
      (* Filter by user role *)
      let commissions :=
        match user with
        | Some u =>
            match User.role u with
            | Admin => commissions
            | Reseller =>
                filter (fun c => Commission.resellerId c = User.tenantId u)
                       commissions
            | _ => []
            end
        | None => commissions
        end in
      (* Apply filters *)
      let commissions :=
        match flt with
        | Some f =>
            let commissions :=
              if JS.truthy (status f) then
                filter (fun c => Some (CommissionStatus_str (Commission.status c))
                                 = status f) commissions
              else commissions in
            if JS.truthy (period f) then
              filter (fun c => Some (Commission.period c) = period f) commissions
            else commissions
        | None => commissions
        end in
      Returned commissions w
  end.

(** The object [getCommissionSummary] resolves to. *)
Record Summary : Type := mkSummary {
  totalPending : Z;
  totalApproved : Z;
  totalPaid : Z;
  totalAmount : Z;
  byPeriod : gmap string JS.NumOrStr
}.

(** [l.reduce ((sum, c) => sum + c.commissionAmount, 0)]. *)
Definition sumAmounts (l : list Commission.t) : Z :=
  foldl (fun sum c => sum + Commission.commissionAmount c) 0 l.

(** [summary.byPeriod[p]]: [summary.byPeriod] starts as [{}], so a period
    that is not yet an own property reads as the member inherited from
    [Object.prototype] when there is one. *)
Definition periodEntry (m : gmap string JS.NumOrStr) (p : string)
    : JS.Member JS.NumOrStr :=
  match m !! p with
  | Some v => JS.Own v
  | None => if JS.inherited p then JS.Inherited else JS.Missing
  end.

(** One step of the [forEach] that groups by period,
    [summary.byPeriod[c.period] = (summary.byPeriod[c.period] || 0)
    + c.commissionAmount]: a number is added to; [undefined] counts as 0; a
    non-empty string and an inherited function are truthy, and [+] appends
    the digits of the amount to their text.  The assignment makes the
    period an own property, except for [__proto__], whose setter ignores a
    value that is not an object. *)
Definition addToPeriod (env : Env) (m : gmap string JS.NumOrStr)
    (c : Commission.t) : gmap string JS.NumOrStr :=
  let p := Commission.period c in
  let amount := Commission.commissionAmount c in
  let v :=
    match periodEntry m p with
    | JS.Own (JS.Num n) => JS.Num (n + amount)
    | JS.Own (JS.Str s) =>
        if String.eqb s "" then JS.Num (0 + amount)
        else JS.Str (s +:+ JS.String_of amount)
    | JS.Inherited => JS.Str (nativeText env p +:+ JS.String_of amount)
    | JS.Missing => JS.Num (0 + amount)
    end in
  if String.eqb p "__proto__" then m else <[p := v]> m.


Definition getCommissionSummaryMock (env : Env) (w : World)
    (user : option User.t) : outcome Summary :=
  match getCommissionsMock env w user None with
  | Thrown e w' => Thrown e w'
  | Returned commissions w' =>
      let summary :=
        {| totalPending :=
             sumAmounts (filter (fun c => Commission.status c = CPending) commissions);
           totalApproved :=
             sumAmounts (filter (fun c => Commission.status c = CApproved) commissions);
           totalPaid :=
             sumAmounts (filter (fun c => Commission.status c = CPaid) commissions);
           totalAmount := sumAmounts commissions;
           byPeriod := foldl (addToPeriod env) ∅ commissions |} in
      Returned summary w'
  end.

(** The [validTransitions] table of [updateCommissionStatusMock]. *)
Definition validTransitions (s : CommissionStatus) : list CommissionStatus :=
  match s with
  | CPending => [CApproved]
  | CApproved => [CPaid]
  | CPaid => [] (* Paid is final status *)
  end.

Definition updateCommissionStatusMock (env : Env) (w : World)
    (commissionId : string) (status : CommissionStatus)
    : outcome Commission.t :=
  match simulated env SERVICE_NAME SERVER_ERROR
          "Failed to update commission status. Please try again." with
  | Some e => Thrown e w
  | None =>
      match find_by Commission.id commissionId (mockCommissions w) with
      | None =>
          Thrown {| etype := NOT_FOUND;
                    message := "Commission with ID " +:+ quoted commissionId
                               +:+ " was not found.";
                    statusCode := 404;
                    details := [] |} w
      | Some (i, commission) =>
          let currentStatus := Commission.status commission in
          let allowedNextStatuses := validTransitions currentStatus in
          if bool_decide (status ≠ currentStatus)
             && (0 <? length allowedNextStatuses)%nat
             && negb (includes allowedNextStatuses status)
          then
            Thrown {| etype := VALIDATION_ERROR;
                      message :=
                        "Invalid status transition from "
                        +:+ quoted (CommissionStatus_str currentStatus)
                        +:+ " to " +:+ quoted (CommissionStatus_str status)
                        +:+ ". Allowed next status: "
                        +:+ JS.join (CommissionStatus_str <$> allowedNextStatuses);
                      statusCode := 400;
                      details := [] |} w
          else
            let commission := Commission.set_status status commission in
            (* Set paid date if moving to paid *)
            let commission :=
              if bool_decide (status = CPaid)
                 && negb (JS.truthy (Commission.paidDate commission))
              then Commission.set_paidDate
                     (Some (JS.toISOString (now env))) commission
              else commission in
            Returned commission
              (set_mockCommissions (<[i := commission]> (mockCommissions w)) w)
      end
  end.

End CommissionService.

(** ** Invoices service ([invoices.service.ts]) *)

Module InvoicesService.

Definition SERVICE_NAME : string := "invoices".

(** The [validTransitions] table of [updateInvoiceStatusMock]. *)
Definition validTransitions (s : InvoiceStatus) : list InvoiceStatus :=
  match s with
  | IDraft => [ISent; ICancelled]
  | ISent => [IPaid; IOverdue; ICancelled]
  | IPaid => [ICancelled] (* Can cancel even if paid (for refunds, etc.) *)
  | IOverdue => [IPaid; ICancelled]
  | ICancelled => [] (* Cancelled is terminal *)
  end.

Definition updateInvoiceStatusMock (env : Env) (w : World)
    (invoiceId : string) (status : InvoiceStatus) : outcome Invoice.t :=
  match simulated env SERVICE_NAME SERVER_ERROR
          "Failed to update invoice status. Please try again." with
  | Some e => Thrown e w
  | None =>
      match find_by Invoice.id invoiceId (mockInvoices w) with
      | None =>
          Thrown {| etype := NOT_FOUND;
                    message := "Invoice with ID " +:+ quoted invoiceId
                               +:+ " was not found.";
                    statusCode := 404;
                    details := [("invoiceId", invoiceId)] |} w
      | Some (i, invoice) =>
          let currentStatus := Invoice.status invoice in
          let allowedNextStatuses := validTransitions currentStatus in
          (* Allow cancelling from any status *)
          if bool_decide (status = ICancelled) then
            let invoice := Invoice.set_status ICancelled invoice in
            Returned invoice
              (set_mockInvoices (<[i := invoice]> (mockInvoices w)) w)
          else if bool_decide (status ≠ currentStatus)
                  && (0 <? length allowedNextStatuses)%nat
                  && negb (includes allowedNextStatuses status)
          then
            Thrown {| etype := VALIDATION_ERROR;
                      message :=
                        "Invalid status transition from "
                        +:+ quoted (InvoiceStatus_str currentStatus)
                        +:+ " to " +:+ quoted (InvoiceStatus_str status)
                        +:+ ". Allowed next statuses: "
                        +:+ JS.join (InvoiceStatus_str <$> allowedNextStatuses)
                        +:+ ", or cancelled";
                      statusCode := 400;
                      details := [("invoiceId", invoiceId);
                                  ("currentStatus", InvoiceStatus_str currentStatus);
                                  ("requestedStatus", InvoiceStatus_str status)] |} w
          else
            let invoice := Invoice.set_status status invoice in
            Returned invoice
              (set_mockInvoices (<[i := invoice]> (mockInvoices w)) w)
      end
  end.

(** Send invoice (draft → sent). *)
Definition sendInvoice (env : Env) (w : World) (invoiceId : string) :=
  updateInvoiceStatusMock env w invoiceId ISent.

(** Mark invoice as paid (sent/overdue → paid). *)
Definition markAsPaid (env : Env) (w : World) (invoiceId : string) :=
  updateInvoiceStatusMock env w invoiceId IPaid.

(** Cancel invoice (any status → cancelled). *)
Definition cancelInvoice (env : Env) (w : World) (invoiceId : string) :=
  updateInvoiceStatusMock env w invoiceId ICancelled.

End InvoicesService.

(** ** Booking service ([booking.service.ts]) *)

Module BookingService.

Definition SERVICE_NAME : string := "booking".

Definition notFound (w : World) (bookingId : string) : outcome Booking.t :=
  Thrown {| etype := NOT_FOUND;
            message := "Booking with ID " +:+ quoted bookingId
                       +:+ " was not found.";
            statusCode := 404;
            details := [("bookingId", bookingId)] |} w.

(** The driver used when no job carries the requested driver id. *)
Definition defaultDriver (driverId : string) : Driver.t :=
  {| Driver.id := Some driverId;
     Driver.name := "Driver Name";
     Driver.vehicleReg := "XX00 XXX";
     Driver.vehicleType := Van;
     Driver.phone := "+44 7700 900000" |}.

(** [mockJobs.find (j => j.driver?.id === driverId)?.driver || {...}]. *)
Definition lookupDriver (w : World) (driverId : string) : Driver.t :=
  match list_find (fun j => (Job.driver j ≫= Driver.id) = Some driverId)
                  (mockJobs w) with
  | Some (_, j) => default (defaultDriver driverId) (Job.driver j)
  | None => defaultDriver driverId
  end.

(** [booking.assets.map ((asset, idx) => ({ id: `asset-${jobId}-${idx}`,
    category: asset.categoryId, quantity: asset.quantity }))]. *)
Definition jobAssets (jobId : string) (assets : list BookingAsset.t)
    : list Asset.t :=
  imap (fun idx asset =>
          {| Asset.id := "asset-" +:+ jobId +:+ "-" +:+ pretty idx;
             Asset.category := BookingAsset.categoryId asset;
             Asset.quantity := BookingAsset.quantity asset |}) assets.

Definition assignDriverMock (env : Env) (w : World)
    (bookingId driverId scheduledBy : string) : outcome Booking.t :=
  match simulated env SERVICE_NAME SERVER_ERROR
          "Failed to assign driver. Please try again." with
  | Some e => Thrown e w
  | None =>
  match find_by Booking.id bookingId (mockBookings w) with
  | None => notFound w bookingId
  | Some (i, booking) =>
  if bool_decide (Booking.status booking ≠ BCreated) then
    Thrown {| etype := VALIDATION_ERROR;
              message :=
                "Cannot assign driver to booking in "
                +:+ quoted (BookingStatus_str (Booking.status booking))
                +:+ " status. Only " +:+ quoted "created"
                +:+ " bookings can be assigned.";
              statusCode := 400;
              details :=
                [("bookingId", bookingId);
                 ("currentStatus", BookingStatus_str (Booking.status booking))] |} w
  else
    let driver := lookupDriver w driverId in
    let booking := Booking.set_status BScheduled booking in
    let booking := Booking.set_driverId (Some driverId) booking in
    let booking := Booking.set_driverName (Some (Driver.name driver)) booking in
    let booking := Booking.set_scheduledBy (Some scheduledBy) booking in
    let booking :=
      Booking.set_scheduledAt (Some (JS.toISOString (now env))) booking in
    (* Create a job for this booking (if not already created) *)
    if negb (JS.truthy (Booking.jobId booking)) then
      let jobId := "job-" +:+ JS.String_of (now env) in
      let erpJobNumber :=
        "ERP-" +:+ JS.String_of (fullYear env) +:+ "-"
        +:+ JS.padStart0 5 (JS.String_of (random env)) in
      let newJob :=
        {| Job.id := jobId;
           Job.erpJobNumber := erpJobNumber;
           Job.bookingId := Some (Booking.id booking);
           Job.clientName := Booking.clientName booking;
           Job.siteName := Booking.siteName booking;
           Job.siteAddress := Booking.siteAddress booking;
           Job.status := JRouted;
           Job.scheduledDate := Booking.scheduledDate booking;
           Job.completedDate := None;
           Job.assets := jobAssets jobId (Booking.assets booking);
           Job.driver :=
             Some {| Driver.id := None;
                     Driver.name := Driver.name driver;
                     Driver.vehicleReg := Driver.vehicleReg driver;
                     Driver.vehicleType := Driver.vehicleType driver;
                     Driver.phone := Driver.phone driver |};
           Job.co2eSaved := Booking.estimatedCO2e booking;
           Job.travelEmissions := 0%Q;
           Job.buybackValue := Booking.estimatedBuyback booking;
           Job.charityPercent := Booking.charityPercent booking;
           Job.evidence := None;
           Job.certificates := [] |} in
      let booking := Booking.set_jobId (Some jobId) booking in
      Returned booking
        (set_mockJobs (mockJobs w ++ [newJob])
           (set_mockBookings (<[i := booking]> (mockBookings w)) w))
    else
      Returned booking (set_mockBookings (<[i := booking]> (mockBookings w)) w)
  end
  end.

(** [booking.assets.reduce ((sum, a) => sum + a.quantity, 0)]. *)
Definition totalQuantity (assets : list BookingAsset.t) : Z :=
  foldl (fun sum a => sum + BookingAsset.quantity a) 0 assets.

(** [Math.round (booking.estimatedBuyback / totalQuantity)]. *)
Definition unitPriceOf (booking : Booking.t) : Z :=
  JS.Math_round
    (Booking.estimatedBuyback booking
     / inject_Z (totalQuantity (Booking.assets booking)))%Q.

(** The invoice lines: one per element of [booking.assets]. *)
Definition invoiceItems (booking : Booking.t) : list InvoiceItem.t :=
  (fun asset =>
     let unitPrice := unitPriceOf booking in
     {| InvoiceItem.description :=
          BookingAsset.categoryName asset +:+ " Collection & Processing ("
          +:+ JS.String_of (BookingAsset.quantity asset) +:+ " units)";
        InvoiceItem.quantity := BookingAsset.quantity asset;
        InvoiceItem.unitPrice := unitPrice;
        InvoiceItem.total := unitPrice * BookingAsset.quantity asset |})
  <$> Booking.assets booking.

(** [items.reduce ((sum, item) => sum + item.total, 0)]. *)
Definition sumTotals (items : list InvoiceItem.t) : Z :=
  foldl (fun sum item => sum + InvoiceItem.total item) 0 items.

(** Default commission percentage (would come from reseller config). *)
Definition commissionPercent : Z := 10.

(** The record pushed under [// Auto-create commission if reseller exists]. *)
Definition newCommission (env : Env) (booking : Booking.t) : Commission.t :=
  {| Commission.id := "comm-" +:+ JS.String_of (now env);
     Commission.resellerId := default "" (Booking.resellerId booking);
     Commission.resellerName := default "" (Booking.resellerName booking);
     Commission.clientId := Booking.clientId booking;
     Commission.clientName := Booking.clientName booking;
     Commission.jobId := JS.or_else (Booking.jobId booking) "";
     Commission.jobNumber :=
       if JS.truthy (Booking.jobId booking)
       then "ERP-" +:+ default "" (Booking.jobId booking) else "";
     Commission.bookingId := Booking.id booking;
     Commission.bookingNumber := Booking.bookingNumber booking;
     Commission.commissionPercent := commissionPercent;
     Commission.jobValue := Booking.estimatedBuyback booking;
     Commission.commissionAmount :=
       JS.Math_round
         (Binary64.mul (Booking.estimatedBuyback booking)
            (Binary64.div (inject_Z commissionPercent) 100));
     Commission.status := CPending;
     Commission.period := JS.isoMonth (JS.utcDay (now env));
     Commission.createdAt := JS.toISOString (now env);
     Commission.paidDate := None |}.

(** The record pushed under [// Auto-create invoice]; [n] is
    [mockInvoices.length] at that moment. *)
Definition newInvoice (env : Env) (n : nat) (booking : Booking.t) : Invoice.t :=
  let invoiceNumber :=
    "INV-" +:+ JS.String_of (fullYear env) +:+ "-"
    +:+ JS.padStart0 5 (JS.String_of (Z.of_nat n + 1)) in
  let issueDate := JS.isoDate (JS.utcDay (now env)) in
  let dueDate :=
    JS.isoDate (JS.utcDay (now env + 30 * 24 * 60 * 60 * 1000)) in
  let items := invoiceItems booking in
  let subtotal := sumTotals items in
  let tax := JS.Math_round (inject_Z subtotal * (2 # 10))%Q in (* 20% VAT *)
  let total := subtotal + tax in
  {| Invoice.id := "inv-" +:+ JS.String_of (now env);
     Invoice.invoiceNumber := invoiceNumber;
     Invoice.clientId := Booking.clientId booking;
     Invoice.clientName := Booking.clientName booking;
     Invoice.jobId := JS.or_else (Booking.jobId booking) "";
     Invoice.jobNumber :=
       if JS.truthy (Booking.jobId booking)
       then "ERP-" +:+ default "" (Booking.jobId booking) else "";
     Invoice.issueDate := issueDate;
     Invoice.dueDate := dueDate;
     Invoice.amount := subtotal;
     Invoice.status := IDraft;
     Invoice.items := items;
     Invoice.subtotal := subtotal;
     Invoice.tax := tax;
     Invoice.total := total;
     Invoice.downloadUrl := "#" |}.

(** [const job = mockJobs.find (j => j.id === booking.jobId)] under
    [if (booking.jobId)]. *)
Definition linkedJob (w : World) (booking : Booking.t) : option (nat * Job.t) :=
  if JS.truthy (Booking.jobId booking)
  then find_by Job.id (default "" (Booking.jobId booking)) (mockJobs w)
  else None.

Definition completeBookingMock (env : Env) (w : World)
    (bookingId completedBy : string) : outcome Booking.t :=
  match simulated env SERVICE_NAME SERVER_ERROR
          "Failed to complete booking. Please try again." with
  | Some e => Thrown e w
  | None =>
  match find_by Booking.id bookingId (mockBookings w) with
  | None => notFound w bookingId
  | Some (i, booking) =>
  if bool_decide (Booking.status booking ≠ BGraded) then
    Thrown {| etype := VALIDATION_ERROR;
              message :=
                "Cannot complete booking in "
                +:+ quoted (BookingStatus_str (Booking.status booking))
                +:+ " status. Only " +:+ quoted "graded"
                +:+ " bookings can be completed.";
              statusCode := 400;
              details :=
                [("bookingId", bookingId);
                 ("currentStatus", BookingStatus_str (Booking.status booking))] |} w
  else
    let booking := Booking.set_status BCompleted booking in
    let booking :=
      Booking.set_completedAt (Some (JS.toISOString (now env))) booking in
    let w := set_mockBookings (<[i := booking]> (mockBookings w)) w in
    (* Update linked job status to 'finalised' *)
    let w :=
      match linkedJob w booking with
      | Some (k, job) =>
          if bool_decide (Job.status job = JGraded) then
            let job := Job.set_status JFinalised job in
            let job :=
              Job.set_completedDate (Some (JS.toISOString (now env))) job in
            set_mockJobs (<[k := job]> (mockJobs w)) w
          else w
      | None => w
      end in
    (* Auto-create commission if reseller exists *)
    let w :=
      if JS.truthy (Booking.resellerId booking)
         && JS.truthy (Booking.resellerName booking)
      then set_mockCommissions
             (mockCommissions w ++ [newCommission env booking]) w
      else w in
    (* Auto-create invoice *)
    let w :=
      set_mockInvoices
        (mockInvoices w
         ++ [newInvoice env (length (mockInvoices w)) booking]) w in
    Returned booking w
  end
  end.

(** The [validTransitions] table of [updateBookingStatusMock]; it has no
    entry for [completed] and [cancelled]. *)
Definition validTransitions (s : BookingStatus) : option (list BookingStatus) :=
  match s with
  | BCreated => Some [BScheduled]
  | BScheduled => Some [BCollected]
  | BCollected => Some [BSanitised]
  | BSanitised => Some [BGraded]
  | BGraded => Some [BCompleted]
  | BCompleted | BCancelled => None
  end.

(** The [// Set timestamps] chain. *)
Definition stampMilestone (env : Env) (status : BookingStatus)
    (booking : Booking.t) : Booking.t :=
  if bool_decide (status = BSanitised)
     && negb (JS.truthy (Booking.sanitisedAt booking))
  then Booking.set_sanitisedAt (Some (JS.toISOString (now env))) booking
  else if bool_decide (status = BGraded)
          && negb (JS.truthy (Booking.gradedAt booking))
  then Booking.set_gradedAt (Some (JS.toISOString (now env))) booking
  else if bool_decide (status = BCompleted)
          && negb (JS.truthy (Booking.completedAt booking))
  then Booking.set_completedAt (Some (JS.toISOString (now env))) booking
  else booking.

(** The [// Sync job status when booking status changes] chain, on the job
    found. *)
Definition syncJob (env : Env) (status : BookingStatus) (job : Job.t) : Job.t :=
  if bool_decide (status = BSanitised)
     && bool_decide (Job.status job = JWarehouse)
  then Job.set_status JSanitised job
  else if bool_decide (status = BGraded)
          && bool_decide (Job.status job = JSanitised)
  then Job.set_status JGraded job
  else if bool_decide (status = BCompleted)
          && bool_decide (Job.status job = JGraded)
  then Job.set_completedDate (Some (JS.toISOString (now env)))
         (Job.set_status JFinalised job)
  else job.

Definition updateBookingStatusMock (env : Env) (w : World)
    (bookingId : string) (status : BookingStatus) : outcome Booking.t :=
  match simulated env SERVICE_NAME SERVER_ERROR
          "Failed to update booking status. Please try again." with
  | Some e => Thrown e w
  | None =>
  match find_by Booking.id bookingId (mockBookings w) with
  | None => notFound w bookingId
  | Some (i, booking) =>
  (* Validate status transition *)
  let currentStatus := Booking.status booking in
  let allowedNextStatuses := default [] (validTransitions currentStatus) in
  if bool_decide (status ≠ currentStatus)
     && (0 <? length allowedNextStatuses)%nat
     && negb (includes allowedNextStatuses status)
  then
    Thrown {| etype := VALIDATION_ERROR;
              message :=
                "Invalid status transition from "
                +:+ quoted (BookingStatus_str currentStatus)
                +:+ " to " +:+ quoted (BookingStatus_str status)
                +:+ ". Allowed next statuses: "
                +:+ JS.join (BookingStatus_str <$> allowedNextStatuses);
              statusCode := 400;
              details :=
                [("bookingId", bookingId);
                 ("currentStatus", BookingStatus_str currentStatus);
                 ("requestedStatus", BookingStatus_str status)] |} w
  else
    let booking := Booking.set_status status booking in
    let booking := stampMilestone env status booking in
    let w := set_mockBookings (<[i := booking]> (mockBookings w)) w in
    let w :=
      match linkedJob w booking with
      | Some (k, job) =>
          set_mockJobs (<[k := syncJob env status job]> (mockJobs w)) w
      | None => w
      end in
    Returned booking w
  end
  end.

End BookingService.

(** ** Sanitisation service ([sanitisation.service.ts]) *)

Module SanitisationService.

Definition SERVICE_NAME : string := "sanitisation".

(** [booking.assets.every (asset => sanitisedAssetIds.has (asset.categoryId))]
    where [sanitisedAssetIds] is the [Set] of the [assetId]s of the records
    of the booking. *)
Definition allAssetsSanitised (w : World) (bookingId : string)
    (booking : Booking.t) : bool :=
  let bookingRecords :=
    filter (fun r => SanitisationRecord.bookingId r = bookingId)
           (mockSanitisationRecords w) in
  let sanitisedAssetIds : gset string :=
    list_to_set (SanitisationRecord.assetId <$> bookingRecords) in
  forallb (fun asset =>
             bool_decide (BookingAsset.categoryId asset ∈ sanitisedAssetIds))
          (Booking.assets booking).

Definition createSanitisationRecordMock (env : Env) (w : World)
    (bookingId assetId method performedBy : string)
    (methodDetails notes : option string) : outcome SanitisationRecord.t :=
  match simulated env SERVICE_NAME SERVER_ERROR
          "Failed to create sanitisation record. Please try again." with
  | Some e => Thrown e w
  | None =>
  let newRecord :=
    {| SanitisationRecord.id := "sanit-" +:+ JS.String_of (now env);
       SanitisationRecord.bookingId := bookingId;
       SanitisationRecord.assetId := assetId;
       SanitisationRecord.method := method;
       SanitisationRecord.methodDetails := methodDetails;
       SanitisationRecord.timestamp := JS.toISOString (now env);
       SanitisationRecord.performedBy := performedBy;
       SanitisationRecord.certificateId :=
         "CERT-SANIT-" +:+ JS.String_of (fullYear env) +:+ "-"
         +:+ JS.padStart0 3
               (JS.String_of
                  (Z.of_nat (length (mockSanitisationRecords w)) + 1));
       SanitisationRecord.certificateUrl := "#";
       SanitisationRecord.verified := false;
       SanitisationRecord.notes := notes |} in
  let w :=
    set_mockSanitisationRecords (mockSanitisationRecords w ++ [newRecord]) w in
  (* Check if all assets are sanitised and auto-update booking status *)
  let w :=
    match find_by Booking.id bookingId (mockBookings w) with
    | Some (i, booking) =>
        if allAssetsSanitised w bookingId booking
           && bool_decide (Booking.status booking = BCollected)
        then
          let booking := Booking.set_status BSanitised booking in
          let booking :=
            Booking.set_sanitisedAt
              (Some (JS.toISOString (now env))) booking in
          let w := set_mockBookings (<[i := booking]> (mockBookings w)) w in
          (* Also update job status if linked *)
          match BookingService.linkedJob w booking with
          | Some (k, job) =>
              if bool_decide (Job.status job = JWarehouse)
              then set_mockJobs
                     (<[k := Job.set_status JSanitised job]> (mockJobs w)) w
              else w
          | None => w
          end
        else w
    | None => w
    end in
  Returned newRecord w
  end.

End SanitisationService.

(** ** Grading service ([grading.service.ts]) *)

Module GradingService.

Definition SERVICE_NAME : string := "grading".

(** Grade-based resale value multipliers (per unit), as binary64 literals. *)
Definition gradeMultipliers (g : Grade) : Q :=
  match g with
  | GradeA => Binary64.literal 1
  | GradeB => Binary64.literal (7 # 10)
  | GradeC => Binary64.literal (4 # 10)
  | GradeD => Binary64.literal (2 # 10)
  | GradeRecycled => Binary64.literal 0
  end.

(** Base resale values by category (per unit): what
    [baseResaleValues[category]] reads.  The table is an object literal
    with eight own entries; any other name reads as the member inherited
    from [Object.prototype], if there is one, and as [undefined]
    otherwise. *)
Definition baseResaleValues (category : string) : JS.Member Q :=
  if String.eqb category "laptop" then JS.Own 85%Q
  else if String.eqb category "desktop" then JS.Own 45%Q
  else if String.eqb category "monitor" then JS.Own 25%Q
  else if String.eqb category "server" then JS.Own 250%Q
  else if String.eqb category "phone" then JS.Own 40%Q
  else if String.eqb category "tablet" then JS.Own 55%Q
  else if String.eqb category "printer" then JS.Own 15%Q
  else if String.eqb category "network" then JS.Own 35%Q
  else if JS.inherited category then JS.Inherited
  else JS.Missing.

(** [baseResaleValues[category] || 0] as a factor of a product: an own
    value (none is 0) is itself, [undefined] gives 0, and an inherited
    member is truthy and converts to [NaN] ([None]). *)
Definition baseValueOf (category : string) : option Q :=
  match baseResaleValues category with
  | JS.Own v => Some v
  | JS.Inherited => None
  | JS.Missing => Some 0%Q
  end.

(** [Math.round (baseValue * multiplier)]; [None] is [NaN]. *)
Definition resaleValueOf (assetCategory : string) (grade : Grade)
    : option Z :=
  let multiplier := gradeMultipliers grade in
  (fun baseValue => JS.Math_round (Binary64.mul baseValue multiplier))
  <$> baseValueOf assetCategory.

Definition allAssetsGraded (w : World) (bookingId : string)
    (booking : Booking.t) : bool :=
  let bookingRecords :=
    filter (fun r => GradingRecord.bookingId r = bookingId)
           (mockGradingRecords w) in
  let gradedAssetIds : gset string :=
    list_to_set (GradingRecord.assetId <$> bookingRecords) in
  forallb (fun asset =>
             bool_decide (BookingAsset.categoryId asset ∈ gradedAssetIds))
          (Booking.assets booking).

Definition createGradingRecordMock (env : Env) (w : World)
    (bookingId assetId assetCategory : string) (grade : Grade)
    (gradedBy : string) (condition notes : option string)
    : outcome GradingRecord.t :=
  match simulated env SERVICE_NAME SERVER_ERROR
          "Failed to create grading record. Please try again." with
  | Some e => Thrown e w
  | None =>
  let newRecord :=
    {| GradingRecord.id := "grade-" +:+ JS.String_of (now env);
       GradingRecord.bookingId := bookingId;
       GradingRecord.assetId := assetId;
       GradingRecord.assetCategory := assetCategory;
       GradingRecord.grade := grade;
       GradingRecord.resaleValue := resaleValueOf assetCategory grade;
       GradingRecord.gradedAt := JS.toISOString (now env);
       GradingRecord.gradedBy := gradedBy;
       GradingRecord.condition := condition;
       GradingRecord.notes := notes |} in
  let w := set_mockGradingRecords (mockGradingRecords w ++ [newRecord]) w in
  (* Check if all assets are graded and auto-update booking status *)
  let w :=
    match find_by Booking.id bookingId (mockBookings w) with
    | Some (i, booking) =>
        if allAssetsGraded w bookingId booking
           && bool_decide (Booking.status booking = BSanitised)
        then
          let booking := Booking.set_status BGraded booking in
          let booking :=
            Booking.set_gradedAt (Some (JS.toISOString (now env))) booking in
          let w := set_mockBookings (<[i := booking]> (mockBookings w)) w in
          (* Also update job status if linked *)
          match BookingService.linkedJob w booking with
          | Some (k, job) =>
              if bool_decide (Job.status job = JSanitised)
              then set_mockJobs
                     (<[k := Job.set_status JGraded job]> (mockJobs w)) w
              else w
          | None => w
          end
        else w
    | None => w
    end in
  Returned newRecord w
  end.

End GradingService.


(** ** Job helpers ([job-helpers.ts]) *)

Module JobHelpers.

Definition WorkflowStatus_str (s : WorkflowStatus) : string :=
  match s with
  | JBooked => "booked" | JRouted => "routed" | JEnRoute => "en-route"
  | JArrived => "arrived" | JCollected => "collected"
  | JWarehouse => "warehouse" | JSanitised => "sanitised"
  | JGraded => "graded" | JFinalised => "finalised"
  end.

(** Normalize status for comparison (handle both en-route and en_route). *)
Definition normalizeStatusForCheck (status : string) : string :=
  if String.eqb status "en-route" || String.eqb status "en_route"
  then "en-route" else status.

(** Check if a driver can access a job (for driver view). *)
Definition canDriverAccessJob (job : option Job.t) : bool :=
  match job with
  | None => false
  | Some job =>
      let normalizedStatus :=
        normalizeStatusForCheck (WorkflowStatus_str (Job.status job)) in
      let accessibleStatuses :=
        ["booked"; "routed"; "en-route"; "arrived"; "collected"; "warehouse";
         "sanitised"; "graded"; "completed"] in
      includes accessibleStatuses normalizedStatus
  end.

(** Check if a driver can edit a job (submit evidence, update status).
    Note: 'booked' is not editable - job must be routed first. *)
Definition canDriverEditJob (job : option Job.t) : bool :=
  match job with
  | None => false
  | Some job =>
      let normalizedStatus :=
        normalizeStatusForCheck (WorkflowStatus_str (Job.status job)) in
      let editableStatuses := ["routed"; "en-route"; "arrived"; "collected"] in
      includes editableStatuses normalizedStatus
  end.

End JobHelpers.

(** ** Job lifecycle service *)

Module JobLifecycle.

(** Modelled from the spec: the job service ([jobs.service.ts]) with its
    transition check is not among the sources.  The spec gives the states
    [booked → routed → en-route → arrived → collected → warehouse →
    sanitised → graded → finalised], the driver-initiated transitions
    [routed → en-route → arrived → collected → warehouse], each performed
    individually, and the direct [booked → en-route] shortcut, accepted as
    an alternative to stepping through [routed]; [sanitised], [graded] and
    [finalised] are not settable by a driver. *)
Definition driverTransitions (s : WorkflowStatus) : list WorkflowStatus :=
  match s with
  | JBooked => [JRouted; JEnRoute]
  | JRouted => [JEnRoute]
  | JEnRoute => [JArrived]
  | JArrived => [JCollected]
  | JCollected => [JWarehouse]
  | JWarehouse | JSanitised | JGraded | JFinalised => []
  end.

(** Modelled from the spec: the legal-transition check of the job service,
    absent from the sources; a driver transition is legal when the table
    lists it. *)
Definition isLegalDriverTransition (current next : WorkflowStatus) : bool :=
  includes (driverTransitions current) next.

End JobLifecycle.

(** ** Sample data

    A small store in the shape of the mock data, used to run the services
    on concrete inputs. *)

Module Sample.

Definition env : Env :=
  {| now := 1733929200123;
     fullYear := 2024;
     random := 4711;
     errorSim := fun _ => None;
     nativeText :=
       fun name =>
         "function "
         +:+ (if String.eqb name "constructor" then "Object" else name)
         +:+ "() { [native code] }" |}.

Definition laptops : BookingAsset.t :=
  {| BookingAsset.categoryId := "laptop";
     BookingAsset.categoryName := "Laptop";
     BookingAsset.quantity := 2 |}.

Definition monitors : BookingAsset.t :=
  {| BookingAsset.categoryId := "monitor";
     BookingAsset.categoryName := "Monitor";
     BookingAsset.quantity := 3 |}.

(** A freshly created booking of a reseller's client. *)
Definition booking : Booking.t :=
  {| Booking.id := "booking-001";
     Booking.bookingNumber := "BK-2024-00001";
     Booking.clientId := "tenant-2";
     Booking.clientName := "TechCorp Industries";
     Booking.resellerId := Some "r1";
     Booking.resellerName := Some "Partner Solutions";
     Booking.siteName := "London HQ";
     Booking.siteAddress := "1 Example Street, London";
     Booking.scheduledDate := "2024-12-20";
     Booking.status := BCreated;
     Booking.assets := [laptops; monitors];
     Booking.estimatedCO2e := 1250%Q;
     Booking.estimatedBuyback := 500%Q;
     Booking.charityPercent := 0%Q;
     Booking.jobId := None;
     Booking.driverId := None;
     Booking.driverName := None;
     Booking.scheduledBy := None;
     Booking.scheduledAt := None;
     Booking.sanitisedAt := None;
     Booking.gradedAt := None;
     Booking.completedAt := None |}.

(** The same booking at a later status, linked to [job]. *)
Definition bookingAt (s : BookingStatus) : Booking.t :=
  Booking.set_jobId (Some "job-001") (Booking.set_status s booking).

(** The same booking without a reseller. *)
Definition directBookingAt (s : BookingStatus) : Booking.t :=
  {| Booking.id := "booking-001";
     Booking.bookingNumber := "BK-2024-00001";
     Booking.clientId := "tenant-2";
     Booking.clientName := "TechCorp Industries";
     Booking.resellerId := None;
     Booking.resellerName := None;
     Booking.siteName := "London HQ";
     Booking.siteAddress := "1 Example Street, London";
     Booking.scheduledDate := "2024-12-20";
     Booking.status := s;
     Booking.assets := [laptops; monitors];
     Booking.estimatedCO2e := 1250%Q;
     Booking.estimatedBuyback := 500%Q;
     Booking.charityPercent := 0%Q;
     Booking.jobId := Some "job-001";
     Booking.driverId := None;
     Booking.driverName := None;
     Booking.scheduledBy := None;
     Booking.scheduledAt := None;
     Booking.sanitisedAt := None;
     Booking.gradedAt := None;
     Booking.completedAt := None |}.

Definition jobAt (s : WorkflowStatus) : Job.t :=
  {| Job.id := "job-001";
     Job.erpJobNumber := "ERP-2024-00142";
     Job.bookingId := Some "booking-001";
     Job.clientName := "TechCorp Industries";
     Job.siteName := "London HQ";
     Job.siteAddress := "1 Example Street, London";
     Job.status := s;
     Job.scheduledDate := "2024-12-20";
     Job.completedDate := None;
     Job.assets :=
       [{| Asset.id := "asset-job-001-0"; Asset.category := "laptop";
           Asset.quantity := 2 |};
        {| Asset.id := "asset-job-001-1"; Asset.category := "monitor";
           Asset.quantity := 3 |}];
     Job.driver := None;
     Job.co2eSaved := 1250%Q;
     Job.travelEmissions := 0%Q;
     Job.buybackValue := 500%Q;
     Job.charityPercent := 0%Q;
     Job.evidence := None;
     Job.certificates := [] |}.

Definition commissionAt (s : CommissionStatus) (paid : option string)
    : Commission.t :=
  {| Commission.id := "comm-001";
     Commission.resellerId := "r1";
     Commission.resellerName := "Partner Solutions";
     Commission.clientId := "tenant-2";
     Commission.clientName := "TechCorp Industries";
     Commission.jobId := "job-001";
     Commission.jobNumber := "ERP-job-001";
     Commission.bookingId := "booking-001";
     Commission.bookingNumber := "BK-2024-00001";
     Commission.commissionPercent := 10;
     Commission.jobValue := 500%Q;
     Commission.commissionAmount := 50;
     Commission.status := s;
     Commission.period := "2024-12";
     Commission.createdAt := "2024-12-01T09:00:00.000Z";
     Commission.paidDate := paid |}.

Definition invoiceAt (s : InvoiceStatus) : Invoice.t :=
  {| Invoice.id := "inv-001";
     Invoice.invoiceNumber := "INV-2024-00001";
     Invoice.clientId := "tenant-2";
     Invoice.clientName := "TechCorp Industries";
     Invoice.jobId := "job-001";
     Invoice.jobNumber := "ERP-job-001";
     Invoice.issueDate := "2024-12-01";
     Invoice.dueDate := "2024-12-31";
     Invoice.amount := 500;
     Invoice.status := s;
     Invoice.items := [];
     Invoice.subtotal := 500;
     Invoice.tax := 100;
     Invoice.total := 600;
     Invoice.downloadUrl := "#" |}.

Definition sanitised (assetId : string) : SanitisationRecord.t :=
  {| SanitisationRecord.id := "sanit-" +:+ assetId;
     SanitisationRecord.bookingId := "booking-001";
     SanitisationRecord.assetId := assetId;
     SanitisationRecord.method := "blancco";
     SanitisationRecord.methodDetails := None;
     SanitisationRecord.timestamp := "2024-12-11T15:00:00Z";
     SanitisationRecord.performedBy := "user-1";
     SanitisationRecord.certificateId := "CERT-SANIT-2024-001";
     SanitisationRecord.certificateUrl := "#";
     SanitisationRecord.verified := true;
     SanitisationRecord.notes := None |}.

Definition graded (assetId : string) : GradingRecord.t :=
  {| GradingRecord.id := "grade-" +:+ assetId;
     GradingRecord.bookingId := "booking-001";
     GradingRecord.assetId := assetId;
     GradingRecord.assetCategory := assetId;
     GradingRecord.grade := GradeA;
     GradingRecord.resaleValue := Some 85;
     GradingRecord.gradedAt := "2024-12-12T10:00:00Z";
     GradingRecord.gradedBy := "user-1";
     GradingRecord.condition := None;
     GradingRecord.notes := None |}.

Definition empty : World :=
  {| mockBookings := []; mockJobs := []; mockCommissions := [];
     mockInvoices := []; mockSanitisationRecords := [];
     mockGradingRecords := [] |}.

(** A store holding one booking and its job. *)
Definition world (b : Booking.t) (j : Job.t) : World :=
  set_mockJobs [j] (set_mockBookings [b] empty).

Definition admin : User.t :=
  {| User.id := "user-1"; User.role := Admin; User.tenantId := "tenant-1" |}.

(** The job [job-001] as the job of another booking. *)
Definition jobOf (bookingId : string) (s : WorkflowStatus) : Job.t :=
  {| Job.id := "job-001";
     Job.erpJobNumber := "ERP-2024-00142";
     Job.bookingId := Some bookingId;
     Job.clientName := "TechCorp Industries";
     Job.siteName := "London HQ";
     Job.siteAddress := "1 Example Street, London";
     Job.status := s;
     Job.scheduledDate := "2024-12-20";
     Job.completedDate := None;
     Job.assets := [];
     Job.driver := None;
     Job.co2eSaved := 1250%Q;
     Job.travelEmissions := 0%Q;
     Job.buybackValue := 500%Q;
     Job.charityPercent := 0%Q;
     Job.evidence := None;
     Job.certificates := [] |}.


(** A commission of the sample reseller for another period. *)
Definition commissionIn (period : string) (amount : Z) : Commission.t :=
  {| Commission.id := "comm-002";
     Commission.resellerId := "r1";
     Commission.resellerName := "Partner Solutions";
     Commission.clientId := "tenant-2";
     Commission.clientName := "TechCorp Industries";
     Commission.jobId := "job-001";
     Commission.jobNumber := "ERP-job-001";
     Commission.bookingId := "booking-001";
     Commission.bookingNumber := "BK-2024-00001";
     Commission.commissionPercent := 10;
     Commission.jobValue := inject_Z (10 * amount);
     Commission.commissionAmount := amount;
     Commission.status := CPending;
     Commission.period := period;
     Commission.createdAt := "2024-12-01T09:00:00.000Z";
     Commission.paidDate := None |}.

End Sample.

(** ** The completeness predicate

    The set of distinct category identifiers of the line items is included
    in the set of distinct identifiers the records cover. *)

Definition covered (lineItems : list BookingAsset.t) (recorded : list string)
    : Prop :=
  (list_to_set (BookingAsset.categoryId <$> lineItems) : gset string)
  ⊆ list_to_set recorded.

(** The identifiers covered by the sanitisation records of a booking. *)
Definition sanitisedIds (w : World) (bookingId : string) : list string :=
  SanitisationRecord.assetId
  <$> filter (fun r => SanitisationRecord.bookingId r = bookingId)
             (mockSanitisationRecords w).

(** The identifiers covered by the grading records of a booking. *)
Definition gradedIds (w : World) (bookingId : string) : list string :=
  GradingRecord.assetId
  <$> filter (fun r => GradingRecord.bookingId r = bookingId)
             (mockGradingRecords w).


(** ** Sums

    The sum of a list of integers, to state totals. *)



(** ** Read operations and the remaining mutations of the services *)

(** Whether a call returned. *)
Definition returned {A} (o : outcome A) : bool :=
  match o with Returned _ _ => true | Thrown _ _ => false end.

(** The error thrown under [shouldSimulateError] by the single-entity reads:
    a configured [NOT_FOUND] becomes the 404 of the entity, anything else
    the generic fetch failure. *)
Definition simulatedFetch (env : Env) (service : string) (notFoundMsg : string)
    (notFoundDetails : list (string * string)) (msg : string)
    : option ApiError :=
  match errorSim env service with
  | None => None
  | Some c =>
      if decide (c = Some NOT_FOUND) then
        Some {| etype := NOT_FOUND; message := notFoundMsg;
                statusCode := 404; details := notFoundDetails |}
      else
        Some {| etype := default NETWORK_ERROR c;
                message := msg;
                statusCode := if decide (c = Some NETWORK_ERROR) then 0 else 500;
                details := [] |}
  end.

Module BookingReads.

(** The [filter] argument of [getBookings]. *)
Record Filter : Type := mkFilter {
  status : option string;
  clientId : option string
}.

Definition getBookingsMock (env : Env) (w : World) (user : option User.t)
    (flt : option Filter) : outcome (list Booking.t) :=
  match simulated env BookingService.SERVICE_NAME NETWORK_ERROR
          "Failed to fetch bookings. Please try again." with
  | Some e => Thrown e w
  | None =>
      let bookings := mockBookings w in
      (* Filter by user role *)
      let bookings :=
        match user with
        | Some u =>
            match User.role u with
            | Admin => bookings
            | Client =>
                filter (fun b => Booking.clientId b = User.tenantId u) bookings
            | Reseller =>
                filter (fun b => Booking.resellerId b = Some (User.tenantId u))
                       bookings
            | DriverRole => bookings
            end
        | None => bookings
        end in
      (* Apply filters *)
      let bookings :=
        match flt with
        | Some f =>
            let bookings :=
              if JS.truthy (status f) then
                filter (fun b => Some (BookingStatus_str (Booking.status b))
                                 = status f) bookings
              else bookings in
            if JS.truthy (clientId f) then
              filter (fun b => Some (Booking.clientId b) = clientId f) bookings
            else bookings
        | None => bookings
        end in
      Returned bookings w
  end.

(** [return mockBookings.find (b => b.id === id) || null]. *)
Definition getBookingByIdMock (env : Env) (w : World) (id : string)
    : outcome (option Booking.t) :=
  match simulatedFetch env BookingService.SERVICE_NAME
          ("Booking with ID " +:+ quoted id +:+ " was not found.")
          [("bookingId", id)]
          "Failed to fetch booking. Please try again." with
  | Some e => Thrown e w
  | None => Returned (snd <$> find_by Booking.id id (mockBookings w)) w
  end.

End BookingReads.

Module Client.

(** [Client] of the mock entities, with the fields the invoices service
    reads. *)
Record t : Type := mk {
  tenantId : string;
  resellerId : option string
}.

End Client.

Module InvoiceReads.

(** [getInvoicesMock]; [mockClients] is the array of that name of the mock
    entities, which no service changes, and [status] is [filter?.status]. *)
Definition getInvoicesMock (env : Env) (w : World) (mockClients : list Client.t)
    (user : option User.t) (status : option string)
    : outcome (list Invoice.t) :=
  match simulated env InvoicesService.SERVICE_NAME NETWORK_ERROR
          "Failed to fetch invoices. Please try again." with
  | Some e => Thrown e w
  | None =>
      let invoices := mockInvoices w in
      (* Filter by user role *)
      let invoices :=
        match user with
        | Some u =>
            match User.role u with
            | Admin => invoices
            | Client =>
                filter (fun i => Invoice.clientId i = User.tenantId u) invoices
            | Reseller =>
                let resellerClients :=
                  filter (fun c => Client.resellerId c = Some (User.tenantId u))
                         mockClients in
                let clientIds := Client.tenantId <$> resellerClients in
                filter (fun i => Invoice.clientId i ∈ clientIds) invoices
            | DriverRole => invoices
            end
        | None => invoices
        end in
      (* Apply filters *)
      let invoices :=
        if JS.truthy status then
          filter (fun i => Some (InvoiceStatus_str (Invoice.status i)) = status)
                 invoices
        else invoices in
      Returned invoices w
  end.

(** [return mockInvoices.find (i => i.id === id) || null]. *)
Definition getInvoiceMock (env : Env) (w : World) (id : string)
    : outcome (option Invoice.t) :=
  match simulatedFetch env InvoicesService.SERVICE_NAME
          ("Invoice with ID " +:+ quoted id +:+ " was not found.")
          [("invoiceId", id)]
          "Failed to fetch invoice. Please try again." with
  | Some e => Thrown e w
  | None => Returned (snd <$> find_by Invoice.id id (mockInvoices w)) w
  end.

End InvoiceReads.

Module SanitisationReads.

Definition getSanitisationRecordsMock (env : Env) (w : World)
    (bookingId : option string) : outcome (list SanitisationRecord.t) :=
  match simulated env SanitisationService.SERVICE_NAME NETWORK_ERROR
          "Failed to fetch sanitisation records. Please try again." with
  | Some e => Thrown e w
  | None =>
      let records := mockSanitisationRecords w in
      let records :=
        if JS.truthy bookingId then
          filter (fun r => Some (SanitisationRecord.bookingId r) = bookingId)
                 records
        else records in
      Returned records w
  end.

(** [record.verified = true]. *)
Definition set_verified (r : SanitisationRecord.t) : SanitisationRecord.t :=
  {| SanitisationRecord.id := SanitisationRecord.id r;
     SanitisationRecord.bookingId := SanitisationRecord.bookingId r;
     SanitisationRecord.assetId := SanitisationRecord.assetId r;
     SanitisationRecord.method := SanitisationRecord.method r;
     SanitisationRecord.methodDetails := SanitisationRecord.methodDetails r;
     SanitisationRecord.timestamp := SanitisationRecord.timestamp r;
     SanitisationRecord.performedBy := SanitisationRecord.performedBy r;
     SanitisationRecord.certificateId := SanitisationRecord.certificateId r;
     SanitisationRecord.certificateUrl := SanitisationRecord.certificateUrl r;
     SanitisationRecord.verified := true;
     SanitisationRecord.notes := SanitisationRecord.notes r |}.

Definition verifySanitisationMock (env : Env) (w : World) (recordId : string)
    : outcome SanitisationRecord.t :=
  match simulated env SanitisationService.SERVICE_NAME SERVER_ERROR
          "Failed to verify sanitisation. Please try again." with
  | Some e => Thrown e w
  | None =>
      match find_by SanitisationRecord.id recordId
              (mockSanitisationRecords w) with
      | None =>
          Thrown {| etype := NOT_FOUND;
                    message := "Sanitisation record with ID "
                               +:+ quoted recordId +:+ " was not found.";
                    statusCode := 404;
                    details := [("recordId", recordId)] |} w
      | Some (i, record) =>
          let record := set_verified record in
          Returned record
            (set_mockSanitisationRecords
               (<[i := record]> (mockSanitisationRecords w)) w)
      end
  end.

End SanitisationReads.

Module GradingReads.

Definition getGradingRecordsMock (env : Env) (w : World)
    (bookingId : option string) : outcome (list GradingRecord.t) :=
  match simulated env GradingService.SERVICE_NAME NETWORK_ERROR
          "Failed to fetch grading records. Please try again." with
  | Some e => Thrown e w
  | None =>
      let records := mockGradingRecords w in
      let records :=
        if JS.truthy bookingId then
          filter (fun r => Some (GradingRecord.bookingId r) = bookingId) records
        else records in
      Returned records w
  end.

(** [Math.round (baseValue * multiplier * quantity)], for a whole
    quantity; [None] is [NaN]. *)
Definition calculateResaleValueMock (category : string) (grade : Grade)
    (quantity : Z) : option Z :=
  let multiplier := GradingService.gradeMultipliers grade in
  (fun baseValue =>
     JS.Math_round
       (Binary64.mul (Binary64.mul baseValue multiplier) (inject_Z quantity)))
  <$> GradingService.baseValueOf category.

End GradingReads.


(** ** Statement helpers for the further properties *)

(** The jobs after syncing the job linked to [b], if any, for [status]. *)
Definition jobsAfterSync (env : Env) (status : BookingStatus) (w : World)
    (b : Booking.t) : list Job.t :=
  match BookingService.linkedJob w b with
  | Some (k, j) => <[k := BookingService.syncJob env status j]> (mockJobs w)
  | None => mockJobs w
  end.


(** [j], at index [k], is the job the booking's [jobId] designates: the
    first job of the store whose id is that (defined, non-empty) [jobId]. *)
Definition is_linked_job (jobs : list Job.t) (b : Booking.t) (k : nat)
    (j : Job.t) : Prop :=
  exists jid,
    Booking.jobId b = Some jid /\ jid <> "" /\
    jobs !! k = Some j /\ Job.id j = jid /\
    forall k' j', (k' < k)%nat -> jobs !! k' = Some j' -> Job.id j' <> jid.

(** The booking's [jobId] designates no job: it is undefined or empty, or no
    job of the store carries it. *)
Definition no_linked_job (jobs : list Job.t) (b : Booking.t) : Prop :=
  JS.truthy (Booking.jobId b) = false \/
  forall j, j ∈ jobs -> Some (Job.id j) <> Booking.jobId b.

(** The bidirectional link between a booking and a job. *)
Definition linked_both_ways (b : Booking.t) (j : Job.t) : Prop :=
  Booking.jobId b = Some (Job.id j) /\ Job.bookingId j = Some (Booking.id b).

(** The environment of a call made [ms] milliseconds after one made in
    [env]. *)
Definition later (ms : Z) (env : Env) : Env :=
  {| now := now env + ms; fullYear := fullYear env;
     random := random env; errorSim := errorSim env;
     nativeText := nativeText env |}.

(** What the five operations on bookings keep of the store: the bookings
    keep their identifiers and their order, and jobs, commissions and
    invoices are only ever appended (jobs may change in place, under their
    identifier). *)
Definition keeps_identities (w w' : World) : Prop :=
  Booking.id <$> mockBookings w' = Booking.id <$> mockBookings w /\
  (Job.id <$> mockJobs w) `prefix_of` (Job.id <$> mockJobs w') /\
  mockCommissions w `prefix_of` mockCommissions w' /\
  mockInvoices w `prefix_of` mockInvoices w' /\
  mockSanitisationRecords w `prefix_of` mockSanitisationRecords w' /\
  mockGradingRecords w `prefix_of` mockGradingRecords w'.


(** Two commissions that differ at most in what a status update writes
    (status and paid date). *)
Definition same_but_status (c c' : Commission.t) : Prop :=
  Commission.set_paidDate None (Commission.set_status CPending c')
  = Commission.set_paidDate None (Commission.set_status CPending c).


(** A call that threw the simulated error of its service before reading or
    touching the store: [fallback] is the type the operation falls back to
    when the configuration names none. *)
Definition threw_simulated {A} (o : outcome A) (w : World)
    (fallback : ApiErrorType) (c : option ApiErrorType) (msg : string)
    : Prop :=
  o = Thrown {| etype := default fallback c;
                message := msg;
                statusCode := if decide (c = Some NETWORK_ERROR) then 0
                              else 500;
                details := [] |} w.


(** * Properties *)

(** ** Sanity checks of the primitives on concrete values *)

Example toISOString_sample :
  JS.toISOString 1733929200123 = "2024-12-11T15:00:00.123Z".
Proof. vm_compute. reflexivity. Qed.

Example Math_round_samples :
  JS.Math_round (5 # 2) = 3 /\ JS.Math_round (-5 # 2) = -2 /\
  JS.Math_round (7 # 3) = 2 /\ JS.Math_round (-1 # 2) = 0.
Proof. vm_compute. repeat split. Qed.

Example binary64_samples :
  JS.Math_round (Binary64.mul 85 (Binary64.literal (7 # 10))) = 59 /\
  JS.Math_round (Binary64.mul 45 (Binary64.literal (7 # 10))) = 31 /\
  JS.Math_round (Binary64.mul 25 (Binary64.literal (7 # 10))) = 18 /\
  Binary64.literal (1 # 10) = (3602879701896397 # 36028797018963968)%Q /\
  Binary64.mul (Binary64.literal (1 # 10)) 3 = (1351079888211149 # 4503599627370496)%Q.
Proof. vm_compute. repeat split. Qed.

(** The worked examples of the commission and invoice amounts, evaluated
    with binary64 rounding of every operation. *)
Example worked_examples_binary64 :
  JS.Math_round (Binary64.div 500 5) = 100 /\
  JS.Math_round (Binary64.mul 500 (Binary64.literal (2 # 10))) = 100 /\
  JS.Math_round (Binary64.mul 1000 (Binary64.div 10 100)) = 100 /\
  JS.Math_round (Binary64.mul 500 (Binary64.div 10 100)) = 50.
Proof. vm_compute. repeat split. Qed.


Example resaleValue_samples :
  GradingService.resaleValueOf "laptop" GradeA = Some 85 /\
  GradingService.resaleValueOf "laptop" GradeB = Some 59 /\
  GradingService.resaleValueOf "monitor" GradeB = Some 18 /\
  GradingService.resaleValueOf "printer" GradeC = Some 6 /\
  GradingService.resaleValueOf "server" GradeRecycled = Some 0 /\
  GradingService.resaleValueOf "fridge" GradeA = Some 0 /\
  GradingService.resaleValueOf "constructor" GradeA = None /\
  GradingService.resaleValueOf "toString" GradeRecycled = None.
Proof. vm_compute. repeat split. Qed.

(** ** Lookups in the store *)

Lemma find_by_Some {A} (key : A -> string) (k : string) (l : list A)
    (i : nat) (x : A) :
  find_by key k l = Some (i, x) -> l !! i = Some x /\ key x = k.
Proof.
  unfold find_by. intros H. apply list_find_Some in H.
  destruct H as (H1 & H2 & _). auto.
Qed.

Lemma find_by_insert_id {A} (key : A -> string) (k : string) (l : list A)
    (i : nat) (x : A) :
  find_by key k l = Some (i, x) -> <[i := x]> l = l.
Proof. intros H. apply list_insert_id. eapply find_by_Some, H. Qed.

Lemma set_status_same (b : Booking.t) :
  Booking.set_status (Booking.status b) b = b.
Proof. destruct b. reflexivity. Qed.

(** ** Booking status machine *)


(** In [completed] and [cancelled] no request is validated: every target
    is accepted and becomes the status of the booking. *)
Lemma booking_terminal_accepts (env : Env) (w : World) (bookingId : string)
    (target : BookingStatus) (i : nat) (booking : Booking.t) :
  errorSim env BookingService.SERVICE_NAME = None ->
  find_by Booking.id bookingId (mockBookings w) = Some (i, booking) ->
  BookingService.validTransitions (Booking.status booking) = None ->
  exists b' w',
    BookingService.updateBookingStatusMock env w bookingId target
    = Returned b' w' /\
    Booking.status b' = target.
Proof.
  intros Hsim Hfind Hnone.
  unfold BookingService.updateBookingStatusMock, simulated.
  rewrite Hsim, Hfind, Hnone. cbn [default length Nat.ltb Nat.leb andb].
  rewrite andb_false_r. eexists _, _. split; [reflexivity|].
  unfold BookingService.stampMilestone.
  repeat match goal with
         | |- context [if ?c then _ else _] => destruct c
         end; by destruct booking.
Qed.



(** [updateBookingStatus] never touches the commissions or the invoices,
    whatever the request. *)
Lemma update_status_creates_nothing (env : Env) (w : World)
    (bookingId : string) (status : BookingStatus) :
  let w' :=
    final_world (BookingService.updateBookingStatusMock env w bookingId status) in
  mockCommissions w' = mockCommissions w /\ mockInvoices w' = mockInvoices w.
Proof.
  unfold BookingService.updateBookingStatusMock, BookingService.notFound.
  destruct (simulated _ _ _ _); [by split|].
  destruct (find_by _ _ _) as [[i b]|]; [|by split].
  match goal with |- context [if ?c then _ else _] => destruct c end;
    [by split|].
  cbn [final_world].
  match goal with |- context [BookingService.linkedJob ?x ?y] =>
    destruct (BookingService.linkedJob x y) as [[k j]|] end; by split.
Qed.

(** C2. Completion through [updateBookingStatus]: the graded booking of a
    reseller's client becomes [completed] (and its graded job [finalised]),
    but no commission and no invoice is created, while [completeBooking] on
    the same store creates one of each. *)
Theorem C2_update_to_completed_creates_nothing :
  (exists b w',
     BookingService.updateBookingStatusMock Sample.env
       (Sample.world (Sample.bookingAt BGraded) (Sample.jobAt JGraded))
       "booking-001" BCompleted = Returned b w' /\
     Booking.status b = BCompleted /\
     Job.status <$> mockJobs w' = [JFinalised] /\
     mockCommissions w' = [] /\ mockInvoices w' = []) /\
  (exists b w',
     BookingService.completeBookingMock Sample.env
       (Sample.world (Sample.bookingAt BGraded) (Sample.jobAt JGraded))
       "booking-001" "admin-1" = Returned b w' /\
     Booking.status b = BCompleted /\
     Job.status <$> mockJobs w' = [JFinalised] /\
     length (mockCommissions w') = 1%nat /\ length (mockInvoices w') = 1%nat).
Proof.
  split; eexists _, _; (split; [vm_compute; reflexivity|]);
    repeat split; reflexivity.
Qed.

(** ** Invoice status machine *)

Lemma invoice_set_status_same (inv : Invoice.t) :
  Invoice.set_status (Invoice.status inv) inv = inv.
Proof. destruct inv. reflexivity. Qed.

(** C3 (as stated, refuted). An invoice that is already [cancelled] can be
    cancelled again: the request is accepted, not rejected. *)
Lemma C3_cancelled_again_accepted :
  InvoicesService.updateInvoiceStatusMock Sample.env
    (set_mockInvoices [Sample.invoiceAt ICancelled] Sample.empty)
    "inv-001" ICancelled
  = Returned (Sample.invoiceAt ICancelled)
      (set_mockInvoices [Sample.invoiceAt ICancelled] Sample.empty).
Proof. vm_compute. reflexivity. Qed.

(** C3 (amended). With error simulation off and the invoice found: a
    request for [cancelled] succeeds from every status; for an invoice in
    [draft], [sent], [paid] or [overdue], a request for its current status
    succeeds and changes nothing, a request for a status the table lists
    succeeds and sets it, and any other request throws a validation error
    whose message lists the allowed next statuses followed by
    ", or cancelled", leaving the store as it was. *)
Theorem C3_invoice_status_rules (env : Env) (w : World) (invoiceId : string)
    (target : InvoiceStatus) (i : nat) (inv : Invoice.t) :
  errorSim env InvoicesService.SERVICE_NAME = None ->
  find_by Invoice.id invoiceId (mockInvoices w) = Some (i, inv) ->
  let result :=
    InvoicesService.updateInvoiceStatusMock env w invoiceId target in
  let current := Invoice.status inv in
  (target = ICancelled ->
   result = Returned (Invoice.set_status ICancelled inv)
              (set_mockInvoices
                 (<[i := Invoice.set_status ICancelled inv]> (mockInvoices w))
                 w)) /\
  (current <> ICancelled -> target <> ICancelled ->
   (target = current -> result = Returned inv w) /\
   (target ∈ InvoicesService.validTransitions current ->
    result = Returned (Invoice.set_status target inv)
               (set_mockInvoices
                  (<[i := Invoice.set_status target inv]> (mockInvoices w))
                  w)) /\
   (target <> current ->
    target ∉ InvoicesService.validTransitions current ->
    exists e,
      result = Thrown e w /\ etype e = VALIDATION_ERROR /\
      message e
      = "Invalid status transition from "
        +:+ quoted (InvoiceStatus_str current) +:+ " to "
        +:+ quoted (InvoiceStatus_str target)
        +:+ ". Allowed next statuses: "
        +:+ JS.join (InvoiceStatus_str
                       <$> InvoicesService.validTransitions current)
        +:+ ", or cancelled")).
Proof.
  intros Hsim Hfind result current. subst result current.
  unfold InvoicesService.updateInvoiceStatusMock, simulated.
  rewrite Hsim, Hfind.
  pose proof (find_by_insert_id _ _ _ _ _ Hfind) as Hid.
  split.
  - intros ->. reflexivity.
  - intros Hcur Htgt. split; [|split].
    + intros ->. rewrite bool_decide_eq_false_2 by exact Htgt.
      rewrite (bool_decide_eq_false_2 (_ ≠ _)) by tauto. simpl.
      rewrite invoice_set_status_same, Hid. by destruct w.
    + intros Hin. rewrite bool_decide_eq_false_2 by exact Htgt.
      unfold includes. rewrite (bool_decide_eq_true_2 _ Hin).
      rewrite andb_false_r. reflexivity.
    + intros Hne Hnot. rewrite bool_decide_eq_false_2 by exact Htgt.
      unfold includes.
      rewrite (bool_decide_eq_true_2 _ Hne), (bool_decide_eq_false_2 _ Hnot).
      destruct (Invoice.status inv) eqn:E; try congruence; simpl; eauto.
Qed.

(** Beyond C3: a cancelled invoice is not terminal in the code either, a
    request for another status is accepted (the table's "Cancelled is
    terminal" notwithstanding). *)
Lemma invoice_cancelled_to_sent_accepted :
  InvoicesService.updateInvoiceStatusMock Sample.env
    (set_mockInvoices [Sample.invoiceAt ICancelled] Sample.empty)
    "inv-001" ISent
  = Returned (Sample.invoiceAt ISent)
      (set_mockInvoices [Sample.invoiceAt ISent] Sample.empty).
Proof. vm_compute. reflexivity. Qed.

(** The rules at work on the sample store: a [paid] invoice asked to become
    [sent]. *)
Lemma C3_invoice_status_rules_witness :
  errorSim Sample.env InvoicesService.SERVICE_NAME = None /\
  find_by Invoice.id "inv-001"
    (mockInvoices (set_mockInvoices [Sample.invoiceAt IPaid] Sample.empty))
  = Some (0%nat, Sample.invoiceAt IPaid) /\
  exists e,
    InvoicesService.updateInvoiceStatusMock Sample.env
      (set_mockInvoices [Sample.invoiceAt IPaid] Sample.empty) "inv-001" ISent
    = Thrown e (set_mockInvoices [Sample.invoiceAt IPaid] Sample.empty) /\
    etype e = VALIDATION_ERROR /\
    message e
    = "Invalid status transition from " +:+ quoted "paid" +:+ " to "
      +:+ quoted "sent" +:+ ". Allowed next statuses: cancelled, or cancelled".
Proof.
  split; [reflexivity|]. split; [vm_compute; reflexivity|].
  refine (proj2 (proj2 (proj2 (C3_invoice_status_rules Sample.env
            (set_mockInvoices [Sample.invoiceAt IPaid] Sample.empty)
            "inv-001" ISent 0%nat (Sample.invoiceAt IPaid) _ _) _ _)) _ _).
  - reflexivity.
  - vm_compute; reflexivity.
  - vm_compute; congruence.
  - vm_compute; congruence.
  - vm_compute; congruence.
  - vm_compute. intros H. apply list_elem_of_In in H. simpl in H. intuition congruence.
Defined.

(** ** Commission status machine *)

(** From [pending] and [approved] the table is enforced: the current status
    and the listed next status are accepted, anything else is a validation
    error that leaves the store as it was. *)
Lemma commission_update_open (env : Env) (w : World) (commissionId : string)
    (target : CommissionStatus) (i : nat) (c : Commission.t) :
  errorSim env CommissionService.SERVICE_NAME = None ->
  find_by Commission.id commissionId (mockCommissions w) = Some (i, c) ->
  Commission.status c <> CPaid ->
  let result :=
    CommissionService.updateCommissionStatusMock env w commissionId target in
  (target = Commission.status c -> result = Returned c w) /\
  (target ∈ CommissionService.validTransitions (Commission.status c) ->
   exists c' w', result = Returned c' w' /\ Commission.status c' = target) /\
  (target <> Commission.status c ->
   target ∉ CommissionService.validTransitions (Commission.status c) ->
   exists e, result = Thrown e w /\ etype e = VALIDATION_ERROR).
Proof.
  intros Hsim Hfind Hopen result. subst result.
  unfold CommissionService.updateCommissionStatusMock, simulated.
  rewrite Hsim, Hfind.
  pose proof (find_by_insert_id _ _ _ _ _ Hfind) as Hid.
  destruct c as [a1 a2 a3 a4 a5 a6 a7 a8 a9 a10 a11 a12 st a14 a15 pd].
  simpl in *. split; [|split].
  - intros ->. destruct st; try congruence; simpl;
      unfold Commission.set_status; simpl; rewrite Hid; by destruct w.
  - intros Hin. apply list_elem_of_In in Hin.
    destruct st, target; simpl in Hin;
      try (by exfalso; intuition congruence);
      simpl; destruct (JS.truthy pd); simpl; eauto.
  - intros Hne Hnot. destruct st, target; try congruence; simpl; eauto;
      exfalso; apply Hnot; simpl; set_solver.
Qed.

(** Reaching [paid] stamps the paid date, and asking for [paid] again keeps
    the stamp. *)
Lemma commission_paid_stamp (env : Env) (w : World) (commissionId : string)
    (i : nat) (c : Commission.t) :
  errorSim env CommissionService.SERVICE_NAME = None ->
  find_by Commission.id commissionId (mockCommissions w) = Some (i, c) ->
  (Commission.status c = CApproved -> Commission.paidDate c = None ->
   exists c' w',
     CommissionService.updateCommissionStatusMock env w commissionId CPaid
     = Returned c' w' /\
     Commission.status c' = CPaid /\
     Commission.paidDate c' = Some (JS.toISOString (now env))) /\
  (Commission.status c = CPaid -> JS.truthy (Commission.paidDate c) = true ->
   CommissionService.updateCommissionStatusMock env w commissionId CPaid
   = Returned c w).
Proof.
  intros Hsim Hfind.
  unfold CommissionService.updateCommissionStatusMock, simulated.
  rewrite Hsim, Hfind.
  pose proof (find_by_insert_id _ _ _ _ _ Hfind) as Hid.
  destruct c as [a1 a2 a3 a4 a5 a6 a7 a8 a9 a10 a11 a12 st a14 a15 pd].
  simpl in *. split.
  - intros -> ->. simpl. eauto.
  - intros -> Hpd. simpl. rewrite Hpd. simpl.
    unfold Commission.set_status; simpl. rewrite Hid. by destruct w.
Qed.

(** C4. A commission that is [paid] is not final in the code: a request to
    move it back to [pending] is accepted, where the claim (and the comment
    "Paid is final status" on the table) asks for a validation error. *)
Theorem C4_paid_to_pending_accepted :
  CommissionService.updateCommissionStatusMock Sample.env
    (set_mockCommissions
       [Sample.commissionAt CPaid (Some "2024-12-05T10:00:00.000Z")]
       Sample.empty)
    "comm-001" CPending
  = Returned
      (Sample.commissionAt CPending (Some "2024-12-05T10:00:00.000Z"))
      (set_mockCommissions
         [Sample.commissionAt CPending (Some "2024-12-05T10:00:00.000Z")]
         Sample.empty).
Proof. vm_compute. reflexivity. Qed.

(** ** Completeness-triggered cascades *)

Lemma every_covered (lineItems : list BookingAsset.t) (recorded : list string) :
  forallb (fun asset =>
             bool_decide (BookingAsset.categoryId asset
                          ∈ (list_to_set recorded : gset string)))
          lineItems = true
  <-> covered lineItems recorded.
Proof.
  unfold covered. rewrite forallb_forall. split.
  - intros H x Hx. apply elem_of_list_to_set in Hx.
    apply list_elem_of_fmap in Hx as (a & -> & Ha).
    apply list_elem_of_In in Ha. apply H in Ha.
    by apply bool_decide_eq_true in Ha.
  - intros H a Ha. apply bool_decide_eq_true, H, elem_of_list_to_set.
    apply list_elem_of_fmap. exists a. split; [reflexivity|].
    by apply list_elem_of_In.
Qed.

Lemma allAssetsSanitised_covered (w : World) (bookingId : string)
    (b : Booking.t) :
  SanitisationService.allAssetsSanitised w bookingId b = true
  <-> covered (Booking.assets b) (sanitisedIds w bookingId).
Proof. apply every_covered. Qed.

Lemma allAssetsGraded_covered (w : World) (bookingId : string)
    (b : Booking.t) :
  GradingService.allAssetsGraded w bookingId b = true
  <-> covered (Booking.assets b) (gradedIds w bookingId).
Proof. apply every_covered. Qed.

Lemma linkedJob_Some (w : World) (b : Booking.t) (k : nat) (j : Job.t) :
  BookingService.linkedJob w b = Some (k, j) -> mockJobs w !! k = Some j.
Proof.
  unfold BookingService.linkedJob. destruct (JS.truthy _); [|discriminate].
  intros H. eapply find_by_Some, H.
Qed.

(** The job a booking is linked to depends on the jobs and on [jobId] only. *)
Lemma linkedJob_ext (w w' : World) (b b' : Booking.t) :
  mockJobs w' = mockJobs w -> Booking.jobId b' = Booking.jobId b ->
  BookingService.linkedJob w' b' = BookingService.linkedJob w b.
Proof. unfold BookingService.linkedJob. by intros -> ->. Qed.

Ltac simpl_world :=
  cbn [mockBookings mockJobs mockCommissions mockInvoices
       mockSanitisationRecords mockGradingRecords
       set_mockBookings set_mockJobs set_mockCommissions set_mockInvoices
       set_mockSanitisationRecords set_mockGradingRecords] in *.

Lemma syncJob_sanitised (env : Env) (j : Job.t) :
  BookingService.syncJob env BSanitised j
  = if bool_decide (Job.status j = JWarehouse)
    then Job.set_status JSanitised j else j.
Proof. reflexivity. Qed.

Lemma syncJob_graded (env : Env) (j : Job.t) :
  BookingService.syncJob env BGraded j
  = if bool_decide (Job.status j = JSanitised)
    then Job.set_status JGraded j else j.
Proof. reflexivity. Qed.

Lemma sanitisation_cascade (env : Env) (w : World)
    (bookingId assetId method performedBy : string)
    (methodDetails notes : option string) :
  errorSim env SanitisationService.SERVICE_NAME = None ->
  exists r w',
    SanitisationService.createSanitisationRecordMock env w bookingId assetId
      method performedBy methodDetails notes = Returned r w' /\
    mockSanitisationRecords w' = (mockSanitisationRecords w ++ [r])%list /\
    SanitisationRecord.bookingId r = bookingId /\
    SanitisationRecord.assetId r = assetId /\
    (forall i b,
       find_by Booking.id bookingId (mockBookings w) = Some (i, b) ->
       covered (Booking.assets b) (sanitisedIds w' bookingId) ->
       Booking.status b = BCollected ->
       mockBookings w'
       = <[i := Booking.set_sanitisedAt (Some (JS.toISOString (now env)))
                  (Booking.set_status BSanitised b)]> (mockBookings w) /\
       (forall k j, BookingService.linkedJob w b = Some (k, j) ->
                    mockJobs w'
                    = <[k := BookingService.syncJob env BSanitised j]>
                        (mockJobs w)) /\
       (BookingService.linkedJob w b = None -> mockJobs w' = mockJobs w)) /\
    ((forall i b,
        find_by Booking.id bookingId (mockBookings w) = Some (i, b) ->
        ~ (covered (Booking.assets b) (sanitisedIds w' bookingId) /\
           Booking.status b = BCollected)) ->
     mockBookings w' = mockBookings w /\ mockJobs w' = mockJobs w).
Proof.
  intros Hsim.
  unfold SanitisationService.createSanitisationRecordMock, simulated.
  rewrite Hsim. cbv zeta.
  set (r := SanitisationRecord.mk _ _ _ _ _ _ _ _ _ _ _).
  set (w1 := set_mockSanitisationRecords _ w).
  change (mockBookings w1) with (mockBookings w).
  eexists r, _. split; [reflexivity|].
  pose proof (allAssetsSanitised_covered w1 bookingId) as Hcov.
  unfold sanitisedIds in *.
  destruct (find_by Booking.id bookingId (mockBookings w))
    as [[i b]|] eqn:Hfind.
  2: { split_and!; try reflexivity; [intros ? ? [=]|]. done. }
  destruct (SanitisationService.allAssetsSanitised w1 bookingId b) eqn:Hall.
  2: { cbn [andb]. split_and!; try reflexivity.
       - intros i' b' Heq Hc _; simplify_eq. apply Hcov in Hc. congruence.
       - done. }
  destruct (decide (Booking.status b = BCollected)) as [Hst|Hst].
  2: { rewrite (bool_decide_eq_false_2 _ Hst). cbn [andb].
       split_and!; try reflexivity.
       - intros i' b' Heq _ Hst'; simplify_eq.
       - done. }
  rewrite (bool_decide_eq_true_2 _ Hst). cbn [andb].
  erewrite linkedJob_ext with (w := w) (b := b); [|reflexivity|by destruct b].
  assert (Hno : (forall i0 b0, Some (i, b) = Some (i0, b0) ->
                   ~ (covered (Booking.assets b0)
                        (SanitisationRecord.assetId
                         <$> filter (fun r0 => SanitisationRecord.bookingId r0
                                               = bookingId)
                               (mockSanitisationRecords w1))
                      /\ Booking.status b0 = BCollected)) -> False).
  { intros H. eapply H; [reflexivity|]. split; [by apply Hcov|exact Hst]. }
  destruct (BookingService.linkedJob w b) as [[k j]|] eqn:Hjob.
  - pose proof (linkedJob_Some _ _ _ _ Hjob) as Hk.
    destruct (decide (Job.status j = JWarehouse)) as [Hj|Hj].
    + rewrite (bool_decide_eq_true_2 _ Hj). simpl_world.
      split_and!; try reflexivity.
      * intros i' b' Heq _ _; simplify_eq. split_and!; try reflexivity.
        -- intros k' j' Heq; simplify_eq. rewrite syncJob_sanitised.
           rewrite (bool_decide_eq_true_2 _ Hj). reflexivity.
        -- intros Hn. congruence.
      * intros H. destruct (Hno H).
    + rewrite (bool_decide_eq_false_2 _ Hj). simpl_world.
      split_and!; try reflexivity.
      * intros i' b' Heq _ _; simplify_eq. split_and!; try reflexivity.
        intros k' j' Heq; simplify_eq. rewrite syncJob_sanitised.
        rewrite (bool_decide_eq_false_2 _ Hj).
        symmetry. by apply list_insert_id.
      * intros H. destruct (Hno H).
  - simpl_world. split_and!; try reflexivity.
    + intros i' b' Heq _ _; simplify_eq. split_and!; try reflexivity.
      intros k' j' Heq. congruence.
    + intros H. destruct (Hno H).
Qed.

Lemma grading_cascade (env : Env) (w : World)
    (bookingId assetId assetCategory : string) (grade : Grade)
    (gradedBy : string) (condition notes : option string) :
  errorSim env GradingService.SERVICE_NAME = None ->
  exists r w',
    GradingService.createGradingRecordMock env w bookingId assetId
      assetCategory grade gradedBy condition notes = Returned r w' /\
    mockGradingRecords w' = (mockGradingRecords w ++ [r])%list /\
    GradingRecord.bookingId r = bookingId /\
    GradingRecord.assetId r = assetId /\
    (forall i b,
       find_by Booking.id bookingId (mockBookings w) = Some (i, b) ->
       covered (Booking.assets b) (gradedIds w' bookingId) ->
       Booking.status b = BSanitised ->
       mockBookings w'
       = <[i := Booking.set_gradedAt (Some (JS.toISOString (now env)))
                  (Booking.set_status BGraded b)]> (mockBookings w) /\
       (forall k j, BookingService.linkedJob w b = Some (k, j) ->
                    mockJobs w'
                    = <[k := BookingService.syncJob env BGraded j]>
                        (mockJobs w)) /\
       (BookingService.linkedJob w b = None -> mockJobs w' = mockJobs w)) /\
    ((forall i b,
        find_by Booking.id bookingId (mockBookings w) = Some (i, b) ->
        ~ (covered (Booking.assets b) (gradedIds w' bookingId) /\
           Booking.status b = BSanitised)) ->
     mockBookings w' = mockBookings w /\ mockJobs w' = mockJobs w).
Proof.
  intros Hsim.
  unfold GradingService.createGradingRecordMock, simulated.
  rewrite Hsim. cbv zeta.
  set (r := GradingRecord.mk _ _ _ _ _ _ _ _ _ _).
  set (w1 := set_mockGradingRecords _ w).
  change (mockBookings w1) with (mockBookings w).
  eexists r, _. split; [reflexivity|].
  pose proof (allAssetsGraded_covered w1 bookingId) as Hcov.
  unfold gradedIds in *.
  destruct (find_by Booking.id bookingId (mockBookings w))
    as [[i b]|] eqn:Hfind.
  2: { split_and!; try reflexivity; [intros ? ? [=]|]. done. }
  destruct (GradingService.allAssetsGraded w1 bookingId b) eqn:Hall.
  2: { cbn [andb]. split_and!; try reflexivity.
       - intros i' b' Heq Hc _; simplify_eq. apply Hcov in Hc. congruence.
       - done. }
  destruct (decide (Booking.status b = BSanitised)) as [Hst|Hst].
  2: { rewrite (bool_decide_eq_false_2 _ Hst). cbn [andb].
       split_and!; try reflexivity.
       - intros i' b' Heq _ Hst'; simplify_eq.
       - done. }
  rewrite (bool_decide_eq_true_2 _ Hst). cbn [andb].
  erewrite linkedJob_ext with (w := w) (b := b); [|reflexivity|by destruct b].
  assert (Hno : (forall i0 b0, Some (i, b) = Some (i0, b0) ->
                   ~ (covered (Booking.assets b0)
                        (GradingRecord.assetId
                         <$> filter (fun r0 => GradingRecord.bookingId r0
                                               = bookingId)
                               (mockGradingRecords w1))
                      /\ Booking.status b0 = BSanitised)) -> False).
  { intros H. eapply H; [reflexivity|]. split; [by apply Hcov|exact Hst]. }
  destruct (BookingService.linkedJob w b) as [[k j]|] eqn:Hjob.
  - pose proof (linkedJob_Some _ _ _ _ Hjob) as Hk.
    destruct (decide (Job.status j = JSanitised)) as [Hj|Hj].
    + rewrite (bool_decide_eq_true_2 _ Hj). simpl_world.
      split_and!; try reflexivity.
      * intros i' b' Heq _ _; simplify_eq. split_and!; try reflexivity.
        -- intros k' j' Heq; simplify_eq. rewrite syncJob_graded.
           rewrite (bool_decide_eq_true_2 _ Hj). reflexivity.
        -- intros Hn. congruence.
      * intros H. destruct (Hno H).
    + rewrite (bool_decide_eq_false_2 _ Hj). simpl_world.
      split_and!; try reflexivity.
      * intros i' b' Heq _ _; simplify_eq. split_and!; try reflexivity.
        intros k' j' Heq; simplify_eq. rewrite syncJob_graded.
        rewrite (bool_decide_eq_false_2 _ Hj).
        symmetry. by apply list_insert_id.
      * intros H. destruct (Hno H).
  - simpl_world. split_and!; try reflexivity.
    + intros i' b' Heq _ _; simplify_eq. split_and!; try reflexivity.
      intros k' j' Heq. congruence.
    + intros H. destruct (Hno H).
Qed.

(** The job found under [if (booking.jobId)] by [mockJobs.find] is the
    job the booking's [jobId] designates. *)
Lemma linkedJob_is_linked (w : World) (b : Booking.t) (k : nat) (j : Job.t) :
  BookingService.linkedJob w b = Some (k, j)
  <-> is_linked_job (mockJobs w) b k j.
Proof.
  unfold BookingService.linkedJob, is_linked_job, find_by.
  destruct (Booking.jobId b) as [jid|]; cbn [JS.truthy default].
  2: { split; [discriminate|]. by intros (? & ? & _). }
  destruct (String.eqb_spec jid "") as [->|Hne]; cbn [negb].
  { split; [discriminate|]. intros (? & [= <-] & H & _). by destruct H. }
  rewrite list_find_Some. split.
  - intros (Hk & Hid & Hfirst). exists jid. split_and!; try done.
    intros k' j' Hlt Hk'. by eapply Hfirst.
  - intros (jid' & [= <-] & _ & Hk & Hid & Hfirst). split_and!; try done.
    intros k' j' Hk' Hlt. by eapply Hfirst.
Qed.

Lemma linkedJob_none (w : World) (b : Booking.t) :
  no_linked_job (mockJobs w) b -> BookingService.linkedJob w b = None.
Proof.
  unfold BookingService.linkedJob, no_linked_job, find_by.
  intros [->|Hno]; [reflexivity|].
  destruct (Booking.jobId b) as [jid|]; [|reflexivity].
  destruct (JS.truthy (Some jid)); [|reflexivity]. cbn [default].
  apply list_find_None, Forall_forall. intros j Hj Hid.
  apply (Hno j Hj). by rewrite Hid.
Qed.

(** C5. With error simulation off, creating a sanitisation (resp. grading)
    record always appends the record to its array and returns it.  If the
    booking is found, the categories of its line items are all covered by
    the records now held for it, and it is in [collected] (resp.
    [sanitised]), the booking advances to [sanitised] (resp. [graded]) with
    [sanitisedAt] (resp. [gradedAt]) stamped, and the job its [jobId]
    designates moves from [warehouse] to [sanitised] (resp. from
    [sanitised] to [graded]), every other job and a designated job in
    another status staying as they were; if for the booking found the
    predicate fails or the status is another one (or no booking is found),
    bookings and jobs are left as they were. *)
Theorem C5_completeness_cascade (env : Env) (w : World)
    (bookingId assetId method performedBy assetCategory gradedBy : string)
    (grade : Grade) (methodDetails condition notes : option string) :
  errorSim env SanitisationService.SERVICE_NAME = None ->
  errorSim env GradingService.SERVICE_NAME = None ->
  (exists r w',
    SanitisationService.createSanitisationRecordMock env w bookingId assetId
      method performedBy methodDetails notes = Returned r w' /\
    mockSanitisationRecords w' = (mockSanitisationRecords w ++ [r])%list /\
    SanitisationRecord.bookingId r = bookingId /\
    SanitisationRecord.assetId r = assetId /\
    (forall i b,
       find_by Booking.id bookingId (mockBookings w) = Some (i, b) ->
       covered (Booking.assets b) (sanitisedIds w' bookingId) ->
       Booking.status b = BCollected ->
       mockBookings w'
       = <[i := Booking.set_sanitisedAt (Some (JS.toISOString (now env)))
                  (Booking.set_status BSanitised b)]> (mockBookings w) /\
       (forall k j,
          is_linked_job (mockJobs w) b k j ->
          (Job.status j = JWarehouse ->
           mockJobs w' = <[k := Job.set_status JSanitised j]> (mockJobs w)) /\
          (Job.status j <> JWarehouse -> mockJobs w' = mockJobs w)) /\
       (no_linked_job (mockJobs w) b -> mockJobs w' = mockJobs w)) /\
    ((forall i b,
        find_by Booking.id bookingId (mockBookings w) = Some (i, b) ->
        ~ (covered (Booking.assets b) (sanitisedIds w' bookingId) /\
           Booking.status b = BCollected)) ->
     mockBookings w' = mockBookings w /\ mockJobs w' = mockJobs w)) /\
  (exists r w',
    GradingService.createGradingRecordMock env w bookingId assetId
      assetCategory grade gradedBy condition notes = Returned r w' /\
    mockGradingRecords w' = (mockGradingRecords w ++ [r])%list /\
    GradingRecord.bookingId r = bookingId /\
    GradingRecord.assetId r = assetId /\
    (forall i b,
       find_by Booking.id bookingId (mockBookings w) = Some (i, b) ->
       covered (Booking.assets b) (gradedIds w' bookingId) ->
       Booking.status b = BSanitised ->
       mockBookings w'
       = <[i := Booking.set_gradedAt (Some (JS.toISOString (now env)))
                  (Booking.set_status BGraded b)]> (mockBookings w) /\
       (forall k j,
          is_linked_job (mockJobs w) b k j ->
          (Job.status j = JSanitised ->
           mockJobs w' = <[k := Job.set_status JGraded j]> (mockJobs w)) /\
          (Job.status j <> JSanitised -> mockJobs w' = mockJobs w)) /\
       (no_linked_job (mockJobs w) b -> mockJobs w' = mockJobs w)) /\
    ((forall i b,
        find_by Booking.id bookingId (mockBookings w) = Some (i, b) ->
        ~ (covered (Booking.assets b) (gradedIds w' bookingId) /\
           Booking.status b = BSanitised)) ->
     mockBookings w' = mockBookings w /\ mockJobs w' = mockJobs w)).
Proof.
  intros Hs Hg. split.
  - destruct (sanitisation_cascade env w bookingId assetId method performedBy
                methodDetails notes Hs)
      as (r & w' & H1 & H2 & H3 & H4 & Hyes & Hno).
    exists r, w'. split_and!; try done.
    intros i b Hf Hc Hst.
    destruct (Hyes i b Hf Hc Hst) as (Hb & Hj & Hnj).
    split_and!; [exact Hb| |].
    + intros k j Hl. apply linkedJob_is_linked in Hl.
      rewrite (Hj k j Hl), syncJob_sanitised. split.
      * intros Hw. by rewrite (bool_decide_eq_true_2 _ Hw).
      * intros Hw. rewrite (bool_decide_eq_false_2 _ Hw).
        apply list_insert_id. eapply linkedJob_Some, Hl.
    + intros Hl. by apply Hnj, linkedJob_none.
  - destruct (grading_cascade env w bookingId assetId assetCategory grade
                gradedBy condition notes Hg)
      as (r & w' & H1 & H2 & H3 & H4 & Hyes & Hno).
    exists r, w'. split_and!; try done.
    intros i b Hf Hc Hst.
    destruct (Hyes i b Hf Hc Hst) as (Hb & Hj & Hnj).
    split_and!; [exact Hb| |].
    + intros k j Hl. apply linkedJob_is_linked in Hl.
      rewrite (Hj k j Hl), syncJob_graded. split.
      * intros Hw. by rewrite (bool_decide_eq_true_2 _ Hw).
      * intros Hw. rewrite (bool_decide_eq_false_2 _ Hw).
        apply list_insert_id. eapply linkedJob_Some, Hl.
    + intros Hl. by apply Hnj, linkedJob_none.
Qed.

(** The scenario of the completeness predicate: with line items [laptop]
    and [monitor] and the booking in [collected], the first record leaves
    the booking alone and the second advances booking and job; in another
    status the second record changes neither. *)
Example completeness_scenario :
  let w0 := Sample.world (Sample.bookingAt BCollected) (Sample.jobAt JWarehouse) in
  let w1 :=
    final_world (SanitisationService.createSanitisationRecordMock Sample.env
                   w0 "booking-001" "laptop" "blancco" "user-1" None None) in
  let w2 :=
    final_world (SanitisationService.createSanitisationRecordMock Sample.env
                   w1 "booking-001" "monitor" "blancco" "user-1" None None) in
  let v0 := Sample.world (Sample.bookingAt BScheduled) (Sample.jobAt JWarehouse) in
  let v1 :=
    final_world (SanitisationService.createSanitisationRecordMock Sample.env
                   (set_mockSanitisationRecords [Sample.sanitised "laptop"] v0)
                   "booking-001" "monitor" "blancco" "user-1" None None) in
  Booking.status <$> mockBookings w1 = [BCollected] /\
  Job.status <$> mockJobs w1 = [JWarehouse] /\
  Booking.status <$> mockBookings w2 = [BSanitised] /\
  Booking.sanitisedAt <$> mockBookings w2 = [Some "2024-12-11T15:00:00.123Z"] /\
  Job.status <$> mockJobs w2 = [JSanitised] /\
  length (mockSanitisationRecords w2) = 2%nat /\
  mockBookings v1 = mockBookings v0 /\ mockJobs v1 = mockJobs v0 /\
  length (mockSanitisationRecords v1) = 2%nat.
Proof. vm_compute. repeat split. Qed.

(** The last missing record on the sample store, for each of the two
    services: the booking advances and its job follows. *)
Lemma C5_completeness_cascade_witness :
  errorSim Sample.env SanitisationService.SERVICE_NAME = None /\
  errorSim Sample.env GradingService.SERVICE_NAME = None /\
  (exists r w',
     SanitisationService.createSanitisationRecordMock Sample.env
       (set_mockSanitisationRecords [Sample.sanitised "monitor"]
          (Sample.world (Sample.bookingAt BCollected)
             (Sample.jobAt JWarehouse)))
       "booking-001" "laptop" "blancco" "user-1" None None = Returned r w' /\
     mockSanitisationRecords w' = [Sample.sanitised "monitor"; r] /\
     mockBookings w'
     = [Booking.set_sanitisedAt (Some (JS.toISOString (now Sample.env)))
          (Booking.set_status BSanitised (Sample.bookingAt BCollected))] /\
     mockJobs w' = [Sample.jobAt JSanitised]) /\
  (exists r w',
     GradingService.createGradingRecordMock Sample.env
       (set_mockGradingRecords [Sample.graded "monitor"]
          (Sample.world (Sample.bookingAt BSanitised)
             (Sample.jobAt JSanitised)))
       "booking-001" "laptop" "laptop" GradeB "user-1" None None
     = Returned r w' /\
     mockGradingRecords w' = [Sample.graded "monitor"; r] /\
     mockBookings w'
     = [Booking.set_gradedAt (Some (JS.toISOString (now Sample.env)))
          (Booking.set_status BGraded (Sample.bookingAt BSanitised))] /\
     mockJobs w' = [Sample.jobAt JGraded]).
Proof.
  split; [reflexivity|]. split; [reflexivity|]. split.
  - destruct (proj1 (C5_completeness_cascade Sample.env
                       (set_mockSanitisationRecords
                          [Sample.sanitised "monitor"]
                          (Sample.world (Sample.bookingAt BCollected)
                             (Sample.jobAt JWarehouse)))
                       "booking-001" "laptop" "blancco" "user-1" "laptop"
                       "user-1" GradeB None None None eq_refl eq_refl))
      as (r & w' & H1 & H2 & H3 & H4 & Hyes & _).
    assert (Hc : covered (Booking.assets (Sample.bookingAt BCollected))
                   (sanitisedIds w' "booking-001")).
    { apply every_covered. unfold sanitisedIds. rewrite H2.
      rewrite filter_app, filter_cons_True by exact H3.
      rewrite fmap_app, fmap_cons, H4. vm_compute. reflexivity. }
    destruct (Hyes 0%nat (Sample.bookingAt BCollected)
                ltac:(vm_compute; reflexivity) Hc eq_refl) as (Hb & Hj & _).
    exists r, w'. split_and!; [exact H1|exact H2|exact Hb|].
    apply (Hj 0%nat (Sample.jobAt JWarehouse)); [|reflexivity].
    exists "job-001". split_and!; try done. intros k' j' Hlt. lia.
  - destruct (proj2 (C5_completeness_cascade Sample.env
                       (set_mockGradingRecords [Sample.graded "monitor"]
                          (Sample.world (Sample.bookingAt BSanitised)
                             (Sample.jobAt JSanitised)))
                       "booking-001" "laptop" "blancco" "user-1" "laptop"
                       "user-1" GradeB None None None eq_refl eq_refl))
      as (r & w' & H1 & H2 & H3 & H4 & Hyes & _).
    assert (Hc : covered (Booking.assets (Sample.bookingAt BSanitised))
                   (gradedIds w' "booking-001")).
    { apply every_covered. unfold gradedIds. rewrite H2.
      rewrite filter_app, filter_cons_True by exact H3.
      rewrite fmap_app, fmap_cons, H4. vm_compute. reflexivity. }
    destruct (Hyes 0%nat (Sample.bookingAt BSanitised)
                ltac:(vm_compute; reflexivity) Hc eq_refl) as (Hb & Hj & _).
    exists r, w'. split_and!; [exact H1|exact H2|exact Hb|].
    apply (Hj 0%nat (Sample.jobAt JSanitised)); [|reflexivity].
    exists "job-001". split_and!; try done. intros k' j' Hlt. lia.
Defined.

(** ** Driver assignment *)

Lemma jobAssets_categories (jobId : string) (assets : list BookingAsset.t) :
  Asset.category <$> BookingService.jobAssets jobId assets
  = BookingAsset.categoryId <$> assets.
Proof.
  unfold BookingService.jobAssets. rewrite fmap_imap.
  rewrite <- (imap_const BookingAsset.categoryId). by apply imap_ext.
Qed.

Lemma jobAssets_quantities (jobId : string) (assets : list BookingAsset.t) :
  Asset.quantity <$> BookingService.jobAssets jobId assets
  = BookingAsset.quantity <$> assets.
Proof.
  unfold BookingService.jobAssets. rewrite fmap_imap.
  rewrite <- (imap_const BookingAsset.quantity). by apply imap_ext.
Qed.

(** A job pushed under an identifier no earlier job has is the one a lookup
    by that identifier finds. *)
Lemma find_by_pushed (jobs : list Job.t) (job : Job.t) :
  find_by Job.id (Job.id job) jobs = None ->
  find_by Job.id (Job.id job) (jobs ++ [job]) = Some (length jobs, job).
Proof.
  unfold find_by. intros Hnone. apply list_find_app_Some. right.
  split; [lia|]. split; [exact Hnone|].
  rewrite Nat.sub_diag. apply list_find_Some. split_and!; [done|done|].
  intros k y Hk Hlt. lia.
Qed.

(** C6 (as stated, refuted), at two concrete stores.  A [created] booking
    whose [jobId] names the job of another booking is scheduled, the call
    returns, no job is created or changed, and the link does not hold
    both ways afterwards: the job's [bookingId] is the other booking's.
    And a [created] booking whose [jobId] names no job is scheduled with
    no job in the store at all. *)
Lemma C6_counterexample :
  (exists b' w',
     BookingService.assignDriverMock Sample.env
       (Sample.world (Sample.bookingAt BCreated)
          (Sample.jobOf "booking-002" JRouted))
       "booking-001" "driver-7" "admin-1" = Returned b' w' /\
     Booking.status b' = BScheduled /\
     Booking.jobId b' = Some "job-001" /\
     mockJobs w' = [Sample.jobOf "booking-002" JRouted] /\
     Job.bookingId (Sample.jobOf "booking-002" JRouted)
     <> Some (Booking.id b')) /\
  (exists b' w',
     BookingService.assignDriverMock Sample.env
       (set_mockBookings [Sample.bookingAt BCreated] Sample.empty)
       "booking-001" "driver-7" "admin-1" = Returned b' w' /\
     Booking.status b' = BScheduled /\
     Booking.jobId b' = Some "job-001" /\
     mockJobs w' = []).
Proof.
  split; eexists _, _; (split; [vm_compute; reflexivity|]);
    split_and!; try reflexivity.
  vm_compute. discriminate.
Qed.

(** C6. With error simulation off, [assignDriver] throws [NOT_FOUND] when
    the booking id does not resolve and a validation error when the booking
    is in any status other than [created], leaving the store as it was; on
    a [created] booking it returns the booking set to [scheduled] with the
    driver id and name, the scheduling actor and the scheduling time
    recorded.  If the booking carried no job id, exactly one job is pushed:
    its status is [routed], its assets copy the categories and quantities of
    the booking's line items, its valuation fields copy the booking's, and
    the booking and the job are linked both ways (the job is also the one
    the booking's [jobId] designates when no earlier job had that id).  If
    the booking carried a job id already, no job is created or changed and
    the booking keeps its [jobId], so that it is linked both ways with a job
    afterwards exactly when it was before. *)
Theorem C6_assign_driver (env : Env) (w : World)
    (bookingId driverId actorId : string) :
  errorSim env BookingService.SERVICE_NAME = None ->
  let result :=
    BookingService.assignDriverMock env w bookingId driverId actorId in
  (find_by Booking.id bookingId (mockBookings w) = None ->
   exists e, result = Thrown e w /\ etype e = NOT_FOUND) /\
  (forall i b,
     find_by Booking.id bookingId (mockBookings w) = Some (i, b) ->
     (Booking.status b <> BCreated ->
      exists e, result = Thrown e w /\ etype e = VALIDATION_ERROR) /\
     (Booking.status b = BCreated ->
      exists b' w',
        result = Returned b' w' /\
        mockBookings w' = <[i := b']> (mockBookings w) /\
        Booking.id b' = Booking.id b /\
        Booking.status b' = BScheduled /\
        Booking.driverId b' = Some driverId /\
        Booking.driverName b'
        = Some (Driver.name (BookingService.lookupDriver w driverId)) /\
        Booking.scheduledBy b' = Some actorId /\
        Booking.scheduledAt b' = Some (JS.toISOString (now env)) /\
        (JS.truthy (Booking.jobId b) = false ->
         exists job,
           mockJobs w' = (mockJobs w ++ [job])%list /\
           Job.status job = JRouted /\
           Asset.category <$> Job.assets job
           = BookingAsset.categoryId <$> Booking.assets b /\
           Asset.quantity <$> Job.assets job
           = BookingAsset.quantity <$> Booking.assets b /\
           Job.co2eSaved job = Booking.estimatedCO2e b /\
           Job.buybackValue job = Booking.estimatedBuyback b /\
           Job.charityPercent job = Booking.charityPercent b /\
           Booking.jobId b' = Some (Job.id job) /\
           Job.bookingId job = Some (Booking.id b') /\
           linked_both_ways b' job /\
           ((forall j, j ∈ mockJobs w -> Job.id j <> Job.id job) ->
            is_linked_job (mockJobs w') b' (length (mockJobs w)) job)) /\
        (JS.truthy (Booking.jobId b) = true ->
         mockJobs w' = mockJobs w /\ Booking.jobId b' = Booking.jobId b /\
         (forall j, linked_both_ways b' j <-> linked_both_ways b j)))).
Proof.
  intros Hsim result. subst result.
  unfold BookingService.assignDriverMock, simulated. rewrite Hsim.
  split.
  - intros ->. unfold BookingService.notFound. eauto.
  - intros i b ->. split.
    + intros Hst. rewrite (bool_decide_eq_true_2 _ Hst). eauto.
    + intros Hst. rewrite (bool_decide_eq_false_2 (_ ≠ _)) by tauto.
      cbv zeta.
      assert (Hj : Booking.jobId
                     (Booking.set_scheduledAt (Some (JS.toISOString (now env)))
                        (Booking.set_scheduledBy (Some actorId)
                           (Booking.set_driverName
                              (Some (Driver.name
                                       (BookingService.lookupDriver w driverId)))
                              (Booking.set_driverId (Some driverId)
                                 (Booking.set_status BScheduled b)))))
                   = Booking.jobId b) by (by destruct b).
      rewrite Hj.
      destruct (JS.truthy (Booking.jobId b)) eqn:Ht; cbn [negb].
      * eexists _, _. split; [reflexivity|]. simpl_world.
        split_and!; try (by destruct b); discriminate.
      * eexists _, _. split; [reflexivity|]. simpl_world.
        split_and!; try (by destruct b); try discriminate.
        intros _. eexists. split; [reflexivity|].
        unfold linked_both_ways.
        cbn [Job.status Job.assets Job.co2eSaved Job.buybackValue
             Job.charityPercent Job.bookingId Job.id].
        split_and!; try (by destruct b).
        -- apply jobAssets_categories.
        -- apply jobAssets_quantities.
        -- intros Hfresh.
           eexists. split_and!; [by destruct b| | | |].
           ++ discriminate.
           ++ by apply list_lookup_middle.
           ++ reflexivity.
           ++ intros k' j' Hlt Hk'.
              rewrite lookup_app_l in Hk' by exact Hlt.
              apply Hfresh. eapply list_elem_of_lookup_2, Hk'.
Qed.

(** The assignment of a driver to the sample booking, which has no job. *)
Lemma C6_assign_driver_witness :
  errorSim Sample.env BookingService.SERVICE_NAME = None /\
  exists b' w',
    BookingService.assignDriverMock Sample.env
      (set_mockBookings [Sample.booking] Sample.empty)
      "booking-001" "driver-7" "admin-1" = Returned b' w' /\
    Booking.status b' = BScheduled /\
    Booking.driverId b' = Some "driver-7" /\
    Booking.scheduledBy b' = Some "admin-1" /\
    exists job,
      mockJobs w' = [job] /\ Job.status job = JRouted /\
      linked_both_ways b' job.
Proof.
  split; [reflexivity|].
  destruct (proj2 (C6_assign_driver Sample.env
                     (set_mockBookings [Sample.booking] Sample.empty)
                     "booking-001" "driver-7" "admin-1" eq_refl)
              0%nat Sample.booking ltac:(vm_compute; reflexivity))
    as [_ H].
  destruct (H eq_refl)
    as (b' & w' & H1 & _ & _ & H4 & H5 & _ & H7 & _ & Hnew & _).
  destruct (Hnew eq_refl)
    as (job & J1 & J2 & _ & _ & _ & _ & _ & _ & _ & J10 & _).
  exists b', w'. split_and!; try assumption.
  exists job. split_and!; assumption.
Defined.

(** ** Reactive creation on completion *)






(** What a successful [completeBooking] leaves in the store. *)
Lemma completeBooking_graded (env : Env) (w : World)
    (bookingId actorId : string) (i : nat) (b : Booking.t) :
  errorSim env BookingService.SERVICE_NAME = None ->
  find_by Booking.id bookingId (mockBookings w) = Some (i, b) ->
  Booking.status b = BGraded ->
  let b' :=
    Booking.set_completedAt (Some (JS.toISOString (now env)))
      (Booking.set_status BCompleted b) in
  exists w',
    BookingService.completeBookingMock env w bookingId actorId
    = Returned b' w' /\
    mockBookings w' = <[i := b']> (mockBookings w) /\
    mockInvoices w'
    = (mockInvoices w
       ++ [BookingService.newInvoice env (length (mockInvoices w)) b'])%list /\
    mockCommissions w'
    = if JS.truthy (Booking.resellerId b) && JS.truthy (Booking.resellerName b)
      then (mockCommissions w ++ [BookingService.newCommission env b'])%list
      else mockCommissions w.
Proof.
  intros Hsim Hfind Hst b'.
  unfold BookingService.completeBookingMock, simulated.
  rewrite Hsim, Hfind, Hst.
  rewrite (bool_decide_eq_false_2 (_ ≠ _)) by tauto. cbv zeta.
  fold b'.
  replace (Booking.resellerId b') with (Booking.resellerId b)
    by (by destruct b).
  replace (Booking.resellerName b') with (Booking.resellerName b)
    by (by destruct b).
  eexists. split; [reflexivity|].
  destruct (BookingService.linkedJob _ b') as [[k j]|];
    [destruct (bool_decide (Job.status j = JGraded))|];
    destruct (JS.truthy (Booking.resellerId b)
              && JS.truthy (Booking.resellerName b));
    simpl_world; split_and!; reflexivity.
Qed.







(** Completing a booking that has no reseller creates no commission. *)
Example completion_without_reseller :
  mockCommissions
    (final_world
       (BookingService.completeBookingMock Sample.env
          (Sample.world (Sample.directBookingAt BGraded) (Sample.jobAt JGraded))
          "booking-001" "admin-1")) = [].
Proof. vm_compute. reflexivity. Qed.

(** ** Job transitions *)

(** C9. For every job in status [booked], the legal-transition check
    accepts the direct driver transition to [en-route]; stepping through
    [routed] ([booked] to [routed], then [routed] to [en-route]) is legal
    as well. *)
Theorem C9_booked_to_en_route_legal (job : Job.t) :
  Job.status job = JBooked ->
  JobLifecycle.isLegalDriverTransition (Job.status job) JEnRoute = true /\
  JobLifecycle.isLegalDriverTransition (Job.status job) JRouted = true /\
  JobLifecycle.isLegalDriverTransition JRouted JEnRoute = true.
Proof. intros ->. vm_compute. repeat split. Qed.

(** The shortcut on the sample job. *)
Lemma C9_booked_to_en_route_legal_witness :
  Job.status (Sample.jobAt JBooked) = JBooked /\
  JobLifecycle.isLegalDriverTransition
    (Job.status (Sample.jobAt JBooked)) JEnRoute = true.
Proof.
  split; [reflexivity|].
  exact (proj1 (C9_booked_to_en_route_legal (Sample.jobAt JBooked) eq_refl)).
Defined.

(** The edit gate of [job-helpers.ts] is a different check: it does not let
    a driver edit a job that is still [booked]. *)
Example canDriverEditJob_booked :
  JobHelpers.canDriverEditJob (Some (Sample.jobAt JBooked)) = false /\
  JobHelpers.canDriverEditJob (Some (Sample.jobAt JRouted)) = true /\
  JobHelpers.canDriverAccessJob (Some (Sample.jobAt JBooked)) = true /\
  JobHelpers.canDriverAccessJob (Some (Sample.jobAt JFinalised)) = false.
Proof. vm_compute. repeat split. Qed.

(** ** Commission summary *)

Lemma sumAmounts_acc (l : list Commission.t) (a : Z) :
  foldl (fun sum c => sum + Commission.commissionAmount c) a l
  = a + CommissionService.sumAmounts l.
Proof.
  unfold CommissionService.sumAmounts.
  revert a. induction l as [|c l IH]; intros a; simpl; [lia|].
  rewrite (IH (a + _)), (IH (0 + _)). lia.
Qed.

Lemma sumAmounts_cons (c : Commission.t) (l : list Commission.t) :
  CommissionService.sumAmounts (c :: l)
  = Commission.commissionAmount c + CommissionService.sumAmounts l.
Proof.
  unfold CommissionService.sumAmounts at 1. simpl.
  rewrite sumAmounts_acc. lia.
Qed.




Lemma not_inherited_proto (p : string) :
  JS.inherited p = false -> String.eqb p "__proto__" = false.
Proof.
  intros H. apply String.eqb_neq. intros ->. discriminate H.
Qed.








(** * Further properties of the services *)

(** ** Tools *)

Lemma simulated_None (env : Env) (service : string) (fallback : ApiErrorType)
    (msg : string) :
  simulated env service fallback msg = None <-> errorSim env service = None.
Proof. unfold simulated. destruct (errorSim env service); split; done. Qed.

(** Replacing the element found by one with the same key keeps it the
    element found. *)
Lemma find_by_insert_same {A} (key : A -> string) (k : string) (l : list A)
    (i : nat) (x x' : A) :
  find_by key k l = Some (i, x) -> key x' = k ->
  find_by key k (<[i := x']> l) = Some (i, x').
Proof.
  unfold find_by. intros H Hk. apply list_find_Some in H as (Hi & _ & Hlt).
  apply list_find_Some. split_and!.
  - apply list_lookup_insert_eq. by eapply lookup_lt_Some.
  - exact Hk.
  - intros j y Hj Hji. rewrite list_lookup_insert_ne in Hj by lia. eauto.
Qed.

Lemma booking_id_set_status (s : BookingStatus) (b : Booking.t) :
  Booking.id (Booking.set_status s b) = Booking.id b.
Proof. reflexivity. Qed.

(** ** Completing a booking *)

(** X1. With error simulation off, [completeBooking] throws [NOT_FOUND]
    (404) when the booking id does not resolve, and for a booking found in
    any status other than [graded] it throws a validation error (400) whose
    message names that status; in both cases the store is left as it
    was. *)
Theorem X1_complete_requires_graded (env : Env) (w : World)
    (bookingId actorId : string) :
  errorSim env BookingService.SERVICE_NAME = None ->
  let result := BookingService.completeBookingMock env w bookingId actorId in
  (find_by Booking.id bookingId (mockBookings w) = None ->
   exists e,
     result = Thrown e w /\ etype e = NOT_FOUND /\ statusCode e = 404 /\
     message e
     = "Booking with ID " +:+ quoted bookingId +:+ " was not found.") /\
  (forall i b,
     find_by Booking.id bookingId (mockBookings w) = Some (i, b) ->
     Booking.status b <> BGraded ->
     exists e,
       result = Thrown e w /\ etype e = VALIDATION_ERROR /\
       statusCode e = 400 /\
       message e
       = "Cannot complete booking in "
         +:+ quoted (BookingStatus_str (Booking.status b))
         +:+ " status. Only " +:+ quoted "graded"
         +:+ " bookings can be completed.").
Proof.
  intros Hsim result. subst result.
  unfold BookingService.completeBookingMock, simulated. rewrite Hsim. split.
  - intros ->. unfold BookingService.notFound. eexists. split_and!; reflexivity.
  - intros i b -> Hst. rewrite (bool_decide_eq_true_2 _ Hst).
    eexists. split_and!; reflexivity.
Qed.

(** An ungraded booking of the sample store is refused. *)
Lemma X1_complete_requires_graded_witness :
  errorSim Sample.env BookingService.SERVICE_NAME = None /\
  exists e,
    BookingService.completeBookingMock Sample.env
      (Sample.world (Sample.bookingAt BCollected) (Sample.jobAt JWarehouse))
      "booking-001" "admin-1"
    = Thrown e
        (Sample.world (Sample.bookingAt BCollected) (Sample.jobAt JWarehouse)) /\
    etype e = VALIDATION_ERROR.
Proof.
  split; [reflexivity|].
  destruct (proj2 (X1_complete_requires_graded Sample.env
                     (Sample.world (Sample.bookingAt BCollected)
                        (Sample.jobAt JWarehouse))
                     "booking-001" "admin-1" eq_refl)
              0%nat (Sample.bookingAt BCollected)
              ltac:(vm_compute; reflexivity) ltac:(vm_compute; congruence))
    as (e & H1 & H2 & _).
  exists e. split; assumption.
Defined.

Lemma syncJob_completed (env : Env) (j : Job.t) :
  BookingService.syncJob env BCompleted j
  = if bool_decide (Job.status j = JGraded)
    then Job.set_completedDate (Some (JS.toISOString (now env)))
           (Job.set_status JFinalised j)
    else j.
Proof. reflexivity. Qed.

Lemma stampMilestone_keeps (env : Env) (s : BookingStatus) (b : Booking.t) :
  Booking.id (BookingService.stampMilestone env s b) = Booking.id b /\
  Booking.status (BookingService.stampMilestone env s b) = Booking.status b /\
  Booking.jobId (BookingService.stampMilestone env s b) = Booking.jobId b.
Proof.
  unfold BookingService.stampMilestone.
  repeat match goal with
         | |- context [if ?c then _ else _] => destruct c
         end; by destruct b.
Qed.

(** What a status update that is accepted leaves in the store. *)
Lemma updateBookingStatus_returned (env : Env) (w w' : World)
    (bookingId : string) (status : BookingStatus) (b' : Booking.t) :
  BookingService.updateBookingStatusMock env w bookingId status
  = Returned b' w' ->
  exists i b,
    errorSim env BookingService.SERVICE_NAME = None /\
    find_by Booking.id bookingId (mockBookings w) = Some (i, b) /\
    b' = BookingService.stampMilestone env status
           (Booking.set_status status b) /\
    w' = set_mockJobs (jobsAfterSync env status w b)
           (set_mockBookings (<[i := b']> (mockBookings w)) w).
Proof.
  unfold BookingService.updateBookingStatusMock, BookingService.notFound.
  destruct (simulated env _ _ _) eqn:Hs; [discriminate|].
  apply simulated_None in Hs.
  destruct (find_by _ _ _) as [[i b]|] eqn:Hfind; [|discriminate].
  match goal with |- context [if ?c then _ else _] => destruct c end;
    [discriminate|].
  cbv zeta. intros H. injection H as <- <-. exists i, b.
  split_and!; try done.
  unfold jobsAfterSync.
  set (b' := BookingService.stampMilestone env status _).
  rewrite (linkedJob_ext w _ b b'); [| reflexivity |].
  2: { subst b'. destruct (stampMilestone_keeps env status
                            (Booking.set_status status b)) as (_ & _ & ->).
       by destruct b. }
  destruct (BookingService.linkedJob w b) as [[k j]|]; [reflexivity|].
  by destruct w.
Qed.

(** The jobs a successful [completeBooking] leaves. *)
Lemma completeBooking_graded_jobs (env : Env) (w : World)
    (bookingId actorId : string) (i : nat) (b : Booking.t) :
  errorSim env BookingService.SERVICE_NAME = None ->
  find_by Booking.id bookingId (mockBookings w) = Some (i, b) ->
  Booking.status b = BGraded ->
  mockJobs
    (final_world
       (BookingService.completeBookingMock env w bookingId actorId))
  = jobsAfterSync env BCompleted w b.
Proof.
  intros Hsim Hfind Hst.
  unfold BookingService.completeBookingMock, simulated.
  rewrite Hsim, Hfind, Hst.
  rewrite (bool_decide_eq_false_2 (_ ≠ _)) by tauto. cbv zeta.
  set (bc := Booking.set_completedAt _ (Booking.set_status BCompleted b)).
  rewrite (linkedJob_ext w _ b bc); [|reflexivity|by destruct b].
  unfold jobsAfterSync.
  destruct (JS.truthy (Booking.resellerId bc)
            && JS.truthy (Booking.resellerName bc));
    (destruct (BookingService.linkedJob w b) as [[k j]|] eqn:Hjob;
     [|reflexivity]);
    rewrite syncJob_completed;
    (destruct (bool_decide (Job.status j = JGraded)); [reflexivity|]);
    cbn [final_world]; simpl_world; symmetry; apply list_insert_id;
    eapply linkedJob_Some, Hjob.
Qed.

(** X3. On a [graded] booking, with error simulation off, [completeBooking]
    and [updateBookingStatus (.., 'completed')] both return the booking as
    [completed] and leave the same jobs (a linked job in [graded] becomes
    [finalised] with its completion date).  They differ on [completedAt]:
    [completeBooking] always sets it to the time of the call, the status
    update keeps a value already present; when none is present the two
    calls return the same booking and leave the same bookings. *)
Theorem X3_completion_paths_agree (env : Env) (w : World)
    (bookingId actorId : string) (i : nat) (b : Booking.t) :
  errorSim env BookingService.SERVICE_NAME = None ->
  find_by Booking.id bookingId (mockBookings w) = Some (i, b) ->
  Booking.status b = BGraded ->
  exists b1 w1 b2 w2,
    BookingService.completeBookingMock env w bookingId actorId
    = Returned b1 w1 /\
    BookingService.updateBookingStatusMock env w bookingId BCompleted
    = Returned b2 w2 /\
    Booking.status b1 = BCompleted /\ Booking.status b2 = BCompleted /\
    mockJobs w1 = mockJobs w2 /\
    (forall k j, BookingService.linkedJob w b = Some (k, j) ->
                 Job.status j = JGraded ->
                 exists j', mockJobs w1 !! k = Some j' /\
                            Job.status j' = JFinalised /\
                            Job.completedDate j'
                            = Some (JS.toISOString (now env))) /\
    Booking.completedAt b1 = Some (JS.toISOString (now env)) /\
    (JS.truthy (Booking.completedAt b) = true ->
     Booking.completedAt b2 = Booking.completedAt b) /\
    (JS.truthy (Booking.completedAt b) = false ->
     b1 = b2 /\ mockBookings w1 = mockBookings w2).
Proof.
  intros Hsim Hfind Hst.
  destruct (completeBooking_graded env w bookingId actorId i b Hsim Hfind Hst)
    as (w1 & Hc & Hcb & _).
  pose proof (completeBooking_graded_jobs env w bookingId actorId i b
                Hsim Hfind Hst) as Hcj.
  rewrite Hc in Hcj. cbn [final_world] in Hcj.
  destruct (BookingService.updateBookingStatusMock env w bookingId BCompleted)
    as [b2 w2|e w2] eqn:Hu.
  2: { exfalso. revert Hu.
       unfold BookingService.updateBookingStatusMock, simulated.
       rewrite Hsim, Hfind, Hst.
       cbn [BookingService.validTransitions default length Nat.ltb Nat.leb].
       unfold includes.
       rewrite (bool_decide_eq_true_2 (BCompleted ∈ [BCompleted]))
         by (by apply list_elem_of_singleton).
       rewrite andb_false_r. discriminate. }
  destruct (updateBookingStatus_returned _ _ _ _ _ _ Hu)
    as (i' & b0 & _ & Hf' & Hb2 & Hw2).
  rewrite Hfind in Hf'. injection Hf' as <- <-.
  set (bc := Booking.set_completedAt _ _) in *.
  assert (Hat : (Booking.status b2 = BCompleted) /\
                (JS.truthy (Booking.completedAt b) = true ->
                 Booking.completedAt b2 = Booking.completedAt b) /\
                (JS.truthy (Booking.completedAt b) = false -> bc = b2)).
  { subst b2 bc. unfold BookingService.stampMilestone.
    rewrite (bool_decide_eq_false_2 (BCompleted = BSanitised)) by discriminate.
    rewrite (bool_decide_eq_false_2 (BCompleted = BGraded)) by discriminate.
    rewrite (bool_decide_eq_true_2 (BCompleted = BCompleted)) by done.
    cbn [andb].
    replace (Booking.completedAt (Booking.set_status BCompleted b))
      with (Booking.completedAt b) by (by destruct b).
    destruct (JS.truthy (Booking.completedAt b)); cbn [negb];
      split_and!; try discriminate; try reflexivity; by destruct b. }
  destruct Hat as (Hs2 & Hat1 & Hat2).
  exists bc, w1, b2, w2. split_and!; try done.
  - rewrite Hcj, Hw2. reflexivity.
  - intros k j Hjob Hj. rewrite Hcj. unfold jobsAfterSync. rewrite Hjob.
    rewrite syncJob_completed, (bool_decide_eq_true_2 _ Hj).
    eexists.
    split; [apply list_lookup_insert_eq;
            eapply lookup_lt_Some, linkedJob_Some, Hjob|].
    split; reflexivity.
  - intros Hf. specialize (Hat2 Hf). split; [exact Hat2|].
    rewrite Hcb, Hw2, Hat2. reflexivity.
Qed.

(** The two paths on the sample store. *)
Lemma X3_completion_paths_agree_witness :
  errorSim Sample.env BookingService.SERVICE_NAME = None /\
  find_by Booking.id "booking-001"
    (mockBookings
       (Sample.world (Sample.bookingAt BGraded) (Sample.jobAt JGraded)))
  = Some (0%nat, Sample.bookingAt BGraded) /\
  Booking.status (Sample.bookingAt BGraded) = BGraded /\
  exists b1 w1 b2 w2,
    BookingService.completeBookingMock Sample.env
      (Sample.world (Sample.bookingAt BGraded) (Sample.jobAt JGraded))
      "booking-001" "admin-1" = Returned b1 w1 /\
    BookingService.updateBookingStatusMock Sample.env
      (Sample.world (Sample.bookingAt BGraded) (Sample.jobAt JGraded))
      "booking-001" BCompleted = Returned b2 w2 /\
    mockJobs w1 = mockJobs w2 /\ b1 = b2.
Proof.
  split; [reflexivity|]. split; [vm_compute; reflexivity|].
  split; [reflexivity|].
  destruct (X3_completion_paths_agree Sample.env
              (Sample.world (Sample.bookingAt BGraded) (Sample.jobAt JGraded))
              "booking-001" "admin-1" 0%nat (Sample.bookingAt BGraded)
              eq_refl ltac:(vm_compute; reflexivity) eq_refl)
    as (b1 & w1 & b2 & w2 & H1 & H2 & _ & _ & H5 & _ & _ & _ & H9).
  exists b1, w1, b2, w2. split_and!; try assumption.
  exact (proj1 (H9 eq_refl)).
Defined.

(** What a completion that returns leaves among the bookings. *)
Lemma completeBooking_returned (env : Env) (w w' : World)
    (bookingId actorId : string) (b' : Booking.t) :
  BookingService.completeBookingMock env w bookingId actorId
  = Returned b' w' ->
  exists i b,
    errorSim env BookingService.SERVICE_NAME = None /\
    find_by Booking.id bookingId (mockBookings w) = Some (i, b) /\
    Booking.status b = BGraded /\
    b' = Booking.set_completedAt (Some (JS.toISOString (now env)))
           (Booking.set_status BCompleted b) /\
    mockBookings w' = <[i := b']> (mockBookings w).
Proof.
  intros Hfirst.
  assert (Hsim : errorSim env BookingService.SERVICE_NAME = None).
  { unfold BookingService.completeBookingMock in Hfirst.
    destruct (simulated env _ _ _) eqn:E; [discriminate|].
    eapply simulated_None, E. }
  destruct (find_by Booking.id bookingId (mockBookings w))
    as [[i b]|] eqn:Hfind.
  2: { unfold BookingService.completeBookingMock, simulated in Hfirst.
       rewrite Hsim, Hfind in Hfirst. discriminate. }
  destruct (decide (Booking.status b = BGraded)) as [Hst|Hst].
  2: { unfold BookingService.completeBookingMock, simulated in Hfirst.
       rewrite Hsim, Hfind, (bool_decide_eq_true_2 _ Hst) in Hfirst.
       discriminate. }
  destruct (completeBooking_graded env w bookingId actorId i b Hsim Hfind Hst)
    as (w'' & Hres & Hbook & _).
  rewrite Hres in Hfirst. injection Hfirst as <- <-.
  exists i, b. by split_and!.
Qed.

(** ** Completing a booking twice *)

(** X2. A second [completeBooking] on the store the first call left (error
    simulation off, any actor) throws a validation error and leaves that
    store as it was, so calling twice in a row creates no second invoice or
    commission.  The guard is the status alone: if the completed booking is
    moved back to [graded] by [updateBookingStatus], which is accepted
    because [completed] has no entry in the transition table,
    [completeBooking] returns again and a second invoice is pushed. *)
Theorem X2_complete_not_repeatable (env env2 env3 : Env) (w w' : World)
    (bookingId actorId actorId2 : string) (b' : Booking.t) :
  BookingService.completeBookingMock env w bookingId actorId
  = Returned b' w' ->
  errorSim env2 BookingService.SERVICE_NAME = None ->
  errorSim env3 BookingService.SERVICE_NAME = None ->
  (exists e,
     BookingService.completeBookingMock env2 w' bookingId actorId2
     = Thrown e w' /\
     etype e = VALIDATION_ERROR) /\
  (exists b2 w2 b3 w3,
     BookingService.updateBookingStatusMock env2 w' bookingId BGraded
     = Returned b2 w2 /\
     BookingService.completeBookingMock env3 w2 bookingId actorId2
     = Returned b3 w3 /\
     length (mockInvoices w') = S (length (mockInvoices w)) /\
     length (mockInvoices w3) = S (S (length (mockInvoices w)))).
Proof.
  intros Hfirst Hsim2 Hsim3.
  destruct (completeBooking_returned _ _ _ _ _ _ Hfirst)
    as (i & b & Hsim & Hfind & Hst & Hb' & Hbook).
  destruct (completeBooking_graded env w bookingId actorId i b Hsim Hfind Hst)
    as (w'' & Hres & _ & Hinv & _).
  rewrite Hres in Hfirst. injection Hfirst as _ <-.
  assert (Hid : Booking.id b' = bookingId).
  { rewrite Hb'. apply find_by_Some in Hfind as [_ Hid]. by destruct b. }
  assert (Hst' : Booking.status b' = BCompleted)
    by (rewrite Hb'; by destruct b).
  assert (Hfind2 : find_by Booking.id bookingId (mockBookings w'')
                   = Some (i, b')).
  { rewrite Hbook. by eapply find_by_insert_same. }
  split.
  - unfold BookingService.completeBookingMock, simulated.
    rewrite Hsim2, Hfind2, Hst'.
    rewrite (bool_decide_eq_true_2 (_ ≠ _)) by discriminate.
    eexists. split; reflexivity.
  - destruct (booking_terminal_accepts env2 w'' bookingId BGraded i b'
                Hsim2 Hfind2) as (b2 & w2 & Hu & Hst2).
    { by rewrite Hst'. }
    destruct (updateBookingStatus_returned _ _ _ _ _ _ Hu)
      as (i' & b0 & _ & Hf' & Hb2 & Hw2).
    rewrite Hfind2 in Hf'. injection Hf' as <- <-.
    assert (Hfind3 : find_by Booking.id bookingId (mockBookings w2)
                     = Some (i, b2)).
    { rewrite Hw2. simpl_world. eapply find_by_insert_same; [exact Hfind2|].
      rewrite Hb2.
      destruct (stampMilestone_keeps env2 BGraded
                  (Booking.set_status BGraded b')) as (-> & _).
      by rewrite booking_id_set_status. }
    destruct (completeBooking_graded env3 w2 bookingId actorId2 i b2
                Hsim3 Hfind3 Hst2) as (w3 & Hres3 & _ & Hinv3 & _).
    eexists b2, w2, _, w3. split_and!; [exact Hu|exact Hres3| |].
    + rewrite Hinv, length_app. cbn. lia.
    + rewrite Hinv3, length_app, Hw2. simpl_world.
      rewrite Hinv, length_app. cbn. lia.
Qed.

(** The sample booking is completed once; the second call in a row is
    refused, and after a move back to [graded] a third call returns. *)
Lemma X2_complete_not_repeatable_witness :
  exists b' w' e,
    BookingService.completeBookingMock Sample.env
      (Sample.world (Sample.bookingAt BGraded) (Sample.jobAt JGraded))
      "booking-001" "admin-1" = Returned b' w' /\
    errorSim Sample.env BookingService.SERVICE_NAME = None /\
    BookingService.completeBookingMock Sample.env w' "booking-001" "admin-2"
    = Thrown e w' /\
    etype e = VALIDATION_ERROR /\
    length (mockInvoices w') = 1%nat /\
    exists b2 w2 b3 w3,
      BookingService.updateBookingStatusMock Sample.env w' "booking-001"
        BGraded = Returned b2 w2 /\
      BookingService.completeBookingMock Sample.env w2 "booking-001"
        "admin-2" = Returned b3 w3 /\
      length (mockInvoices w3) = 2%nat.
Proof.
  eexists _, _.
  assert (H : BookingService.completeBookingMock Sample.env
                (Sample.world (Sample.bookingAt BGraded) (Sample.jobAt JGraded))
                "booking-001" "admin-1"
              = Returned _ _) by (vm_compute; reflexivity).
  destruct (X2_complete_not_repeatable Sample.env Sample.env Sample.env _ _
              "booking-001" "admin-1" "admin-2" _ H eq_refl eq_refl)
    as [(e & E1 & E2) (b2 & w2 & b3 & w3 & U1 & U2 & _ & U4)].
  exists e. split; [exact H|]. split; [reflexivity|].
  split; [exact E1|]. split; [exact E2|]. split; [reflexivity|].
  exists b2, w2, b3, w3. split_and!; [exact U1|exact U2|exact U4].
Defined.

(** ** Assigning a driver twice, repeating a status request *)

(** What an assignment that returns leaves in the store. *)
Lemma assignDriver_returned (env : Env) (w w' : World)
    (bookingId driverId scheduledBy : string) (b' : Booking.t) :
  BookingService.assignDriverMock env w bookingId driverId scheduledBy
  = Returned b' w' ->
  exists i b,
    errorSim env BookingService.SERVICE_NAME = None /\
    find_by Booking.id bookingId (mockBookings w) = Some (i, b) /\
    Booking.status b = BCreated /\
    Booking.status b' = BScheduled /\
    Booking.id b' = Booking.id b /\
    mockBookings w' = <[i := b']> (mockBookings w) /\
    (mockJobs w' = mockJobs w
     \/ (JS.truthy (Booking.jobId b) = false /\
         exists job, mockJobs w' = (mockJobs w ++ [job])%list)) /\
    mockCommissions w' = mockCommissions w /\
    mockInvoices w' = mockInvoices w /\
    mockSanitisationRecords w' = mockSanitisationRecords w /\
    mockGradingRecords w' = mockGradingRecords w.
Proof.
  unfold BookingService.assignDriverMock, BookingService.notFound.
  destruct (simulated env _ _ _) eqn:Hs; [discriminate|].
  apply simulated_None in Hs.
  destruct (find_by _ _ _) as [[i b]|] eqn:Hfind; [|discriminate].
  destruct (decide (Booking.status b = BCreated)) as [Hst|Hst].
  2: { rewrite (bool_decide_eq_true_2 _ Hst). discriminate. }
  rewrite (bool_decide_eq_false_2 (_ ≠ _)) by tauto. cbv zeta.
  match goal with |- context [if negb ?c then _ else _] =>
    replace c with (JS.truthy (Booking.jobId b)) by (by destruct b)
  end.
  destruct (JS.truthy (Booking.jobId b)) eqn:Ht; cbn [negb];
    intros H; injection H as <- <-; exists i, b; simpl_world;
    split_and!; try done; try (by destruct b).
  - by left.
  - right. split; [done|]. eexists. reflexivity.
Qed.

(** X4. A second [assignDriver] on the store the first call left (error
    simulation off), whatever the driver and the actor, throws a validation
    error (400) and leaves that store as it was: calling twice in a row
    assigns once and creates no second job.  (The guard is the status
    [created]; nothing is said here of a call made after other
    operations.) *)
Theorem X4_assign_not_repeatable (env env2 : Env) (w w' : World)
    (bookingId driverId actorId driverId2 actorId2 : string)
    (b' : Booking.t) :
  BookingService.assignDriverMock env w bookingId driverId actorId
  = Returned b' w' ->
  errorSim env2 BookingService.SERVICE_NAME = None ->
  exists e,
    BookingService.assignDriverMock env2 w' bookingId driverId2 actorId2
    = Thrown e w' /\
    etype e = VALIDATION_ERROR /\ statusCode e = 400.
Proof.
  intros Hfirst Hsim2.
  destruct (assignDriver_returned _ _ _ _ _ _ _ Hfirst)
    as (i & b & _ & Hfind & _ & Hst' & Hid & Hbook & _).
  assert (Hfind2 : find_by Booking.id bookingId (mockBookings w')
                   = Some (i, b')).
  { rewrite Hbook. eapply find_by_insert_same; [exact Hfind|].
    rewrite Hid. eapply find_by_Some, Hfind. }
  unfold BookingService.assignDriverMock, simulated.
  rewrite Hsim2, Hfind2, Hst'.
  rewrite (bool_decide_eq_true_2 (_ ≠ _)) by discriminate.
  eexists. split_and!; reflexivity.
Qed.

(** The sample booking is assigned once; the second assignment is
    refused. *)
Lemma X4_assign_not_repeatable_witness :
  exists b' w' e,
    BookingService.assignDriverMock Sample.env
      (set_mockBookings [Sample.booking] Sample.empty)
      "booking-001" "driver-7" "admin-1" = Returned b' w' /\
    errorSim Sample.env BookingService.SERVICE_NAME = None /\
    BookingService.assignDriverMock Sample.env w'
      "booking-001" "driver-8" "admin-1" = Thrown e w' /\
    etype e = VALIDATION_ERROR /\
    length (mockJobs w') = 1%nat.
Proof.
  eexists _, _.
  assert (H : BookingService.assignDriverMock Sample.env
                (set_mockBookings [Sample.booking] Sample.empty)
                "booking-001" "driver-7" "admin-1"
              = Returned _ _) by (vm_compute; reflexivity).
  destruct (X4_assign_not_repeatable Sample.env Sample.env _ _
              "booking-001" "driver-7" "admin-1" "driver-8" "admin-1" _
              H eq_refl) as (e & E1 & E2 & _).
  exists e. split; [exact H|]. split; [reflexivity|].
  split; [exact E1|]. split; [exact E2|reflexivity].
Defined.

Lemma append_nonempty (a b : string) : b <> "" -> a +:+ b <> "".
Proof. destruct a; [done|discriminate]. Qed.

(** An ISO time stamp is a non-empty string, hence truthy. *)
Lemma toISOString_truthy (t : Z) : JS.truthy (Some (JS.toISOString t)) = true.
Proof.
  unfold JS.truthy. apply negb_true_iff, String.eqb_neq.
  unfold JS.toISOString. apply append_nonempty. discriminate.
Qed.

(** Stamping is idempotent, whatever the clock of the second call. *)
Lemma stampMilestone_idem (env env2 : Env) (s : BookingStatus)
    (b : Booking.t) :
  BookingService.stampMilestone env2 s (BookingService.stampMilestone env s b)
  = BookingService.stampMilestone env s b.
Proof.
  pose proof (toISOString_truthy (now env)) as Ht.
  unfold BookingService.stampMilestone.
  revert Ht. generalize (JS.toISOString (now env)).
  generalize (JS.toISOString (now env2)). intros iso2 iso Ht.
  destruct b as [a1 a2 a3 a4 a5 a6 a7 a8 a9 st a11 a12 a13 a14 a15 a16 a17
                 a18 a19 sa ga ca].
  cbn [Booking.sanitisedAt Booking.gradedAt Booking.completedAt].
  destruct (JS.truthy sa) eqn:Hsa, (JS.truthy ga) eqn:Hga,
    (JS.truthy ca) eqn:Hca, s;
    repeat (case_bool_decide; try discriminate);
    cbn [andb negb Booking.sanitisedAt Booking.gradedAt Booking.completedAt
         Booking.set_sanitisedAt Booking.set_gradedAt
         Booking.set_completedAt];
    rewrite ?Hsa, ?Hga, ?Hca, ?Ht; cbn [andb negb]; try reflexivity;
    try congruence.
Qed.

(** Syncing a job twice for the same booking status is syncing it once. *)
Lemma syncJob_idem (env env2 : Env) (s : BookingStatus) (j : Job.t) :
  BookingService.syncJob env2 s (BookingService.syncJob env s j)
  = BookingService.syncJob env s j.
Proof.
  destruct j as [a1 a2 a3 a4 a5 a6 st a8 a9 a10 a11 a12 a13 a14 a15 a16 a17].
  destruct s, st; reflexivity.
Qed.

Lemma syncJob_id (env : Env) (s : BookingStatus) (j : Job.t) :
  Job.id (BookingService.syncJob env s j) = Job.id j.
Proof.
  destruct j as [a1 a2 a3 a4 a5 a6 st a8 a9 a10 a11 a12 a13 a14 a15 a16 a17].
  destruct s, st; reflexivity.
Qed.

(** A request for the status a booking already has is always accepted. *)
Lemma updateBookingStatus_same (env : Env) (w : World) (bookingId : string)
    (i : nat) (b : Booking.t) :
  errorSim env BookingService.SERVICE_NAME = None ->
  find_by Booking.id bookingId (mockBookings w) = Some (i, b) ->
  BookingService.updateBookingStatusMock env w bookingId (Booking.status b)
  = let b' := BookingService.stampMilestone env (Booking.status b) b in
    Returned b'
      (set_mockJobs (jobsAfterSync env (Booking.status b) w b)
         (set_mockBookings (<[i := b']> (mockBookings w)) w)).
Proof.
  intros Hsim Hfind.
  unfold BookingService.updateBookingStatusMock, simulated.
  rewrite Hsim, Hfind.
  rewrite (bool_decide_eq_false_2 (_ ≠ _)) by tauto.
  cbn [andb]. cbv zeta. rewrite set_status_same.
  set (b' := BookingService.stampMilestone env _ b).
  rewrite (linkedJob_ext w _ b b');
    [|reflexivity|by apply stampMilestone_keeps].
  unfold jobsAfterSync.
  destruct (BookingService.linkedJob w b) as [[k j]|]; [reflexivity|].
  by destruct w.
Qed.

(** Syncing the linked job a second time changes no job. *)
Lemma jobsAfterSync_idem (env env2 : Env) (s : BookingStatus) (w w' : World)
    (b b' : Booking.t) :
  mockJobs w' = jobsAfterSync env s w b ->
  Booking.jobId b' = Booking.jobId b ->
  jobsAfterSync env2 s w' b' = mockJobs w'.
Proof.
  intros Hjobs Hid. unfold jobsAfterSync in *.
  destruct (BookingService.linkedJob w b) as [[k j]|] eqn:Hjob.
  - assert (Hjob' : BookingService.linkedJob w' b'
                    = Some (k, BookingService.syncJob env s j)).
    { revert Hjob. unfold BookingService.linkedJob. rewrite Hid, Hjobs.
      destruct (JS.truthy _); [|discriminate]. intros Hf.
      eapply find_by_insert_same; [exact Hf|].
      rewrite syncJob_id. eapply find_by_Some, Hf. }
    rewrite Hjob', syncJob_idem, Hjobs. apply list_insert_insert_eq.
  - by rewrite (linkedJob_ext w w' b b'), Hjob.
Qed.

(** X5. A status request that was accepted can be repeated: the same
    request on the store the first call left (error simulation off, at any
    later time) is accepted again, returns the same booking and changes
    nothing: no field of the booking, no time stamp, no job. *)
Theorem X5_update_status_repeatable (env env2 : Env) (w w' : World)
    (bookingId : string) (status : BookingStatus) (b' : Booking.t) :
  BookingService.updateBookingStatusMock env w bookingId status
  = Returned b' w' ->
  errorSim env2 BookingService.SERVICE_NAME = None ->
  BookingService.updateBookingStatusMock env2 w' bookingId status
  = Returned b' w'.
Proof.
  intros Hfirst Hsim2.
  destruct (updateBookingStatus_returned _ _ _ _ _ _ Hfirst)
    as (i & b & _ & Hfind & Hb' & Hw').
  destruct (stampMilestone_keeps env status (Booking.set_status status b))
    as (Hid & Hst & Hjid).
  rewrite <- Hb' in Hid, Hst, Hjid.
  assert (Hst' : Booking.status b' = status) by (rewrite Hst; by destruct b).
  assert (Hfind2 : find_by Booking.id bookingId (mockBookings w')
                   = Some (i, b')).
  { rewrite Hw'. simpl_world. eapply find_by_insert_same; [exact Hfind|].
    rewrite Hid, booking_id_set_status. eapply find_by_Some, Hfind. }
  pose proof (updateBookingStatus_same env2 w' bookingId i b' Hsim2 Hfind2)
    as H2.
  rewrite Hst' in H2. cbv zeta in H2. rewrite H2.
  assert (Hstamp : BookingService.stampMilestone env2 status b' = b').
  { rewrite Hb'. apply stampMilestone_idem. }
  rewrite Hstamp.
  rewrite (jobsAfterSync_idem env env2 status w w' b b');
    [| by rewrite Hw' | rewrite Hjid; by destruct b ].
  f_equal. rewrite Hw' at 2 3 4. simpl_world.
  rewrite list_insert_insert_eq. rewrite Hw'. by destruct w.
Qed.

(** The sample booking is moved to [sanitised] twice, the second time an
    hour later. *)
Lemma X5_update_status_repeatable_witness :
  exists b' w',
    BookingService.updateBookingStatusMock Sample.env
      (Sample.world (Sample.bookingAt BCollected) (Sample.jobAt JWarehouse))
      "booking-001" BSanitised = Returned b' w' /\
    errorSim (later 3600000 Sample.env) BookingService.SERVICE_NAME = None /\
    BookingService.updateBookingStatusMock (later 3600000 Sample.env) w'
      "booking-001" BSanitised = Returned b' w' /\
    Booking.sanitisedAt b' = Some (JS.toISOString (now Sample.env)).
Proof.
  eexists _, _.
  assert (H : BookingService.updateBookingStatusMock Sample.env
                (Sample.world (Sample.bookingAt BCollected)
                   (Sample.jobAt JWarehouse))
                "booking-001" BSanitised
              = Returned _ _) by (vm_compute; reflexivity).
  split; [exact H|]. split; [reflexivity|]. split; [|reflexivity].
  exact (X5_update_status_repeatable Sample.env (later 3600000 Sample.env)
           _ _ _ _ _ H eq_refl).
Defined.

(** ** What the operations on bookings never do *)

Lemma keeps_identities_refl (w : World) : keeps_identities w w.
Proof. unfold keeps_identities. split_and!; reflexivity. Qed.

Lemma ids_insert_booking (k : string) (l : list Booking.t) (i : nat)
    (b b' : Booking.t) :
  find_by Booking.id k l = Some (i, b) -> Booking.id b' = Booking.id b ->
  Booking.id <$> <[i := b']> l = Booking.id <$> l.
Proof.
  intros Hf Hid. rewrite list_fmap_insert, Hid. apply list_insert_id.
  rewrite list_lookup_fmap. apply find_by_Some in Hf as [-> _]. reflexivity.
Qed.

Lemma ids_insert_job (l : list Job.t) (k : nat) (j j' : Job.t) :
  l !! k = Some j -> Job.id j' = Job.id j ->
  Job.id <$> <[k := j']> l = Job.id <$> l.
Proof.
  intros Hk Hid. rewrite list_fmap_insert, Hid. apply list_insert_id.
  rewrite list_lookup_fmap, Hk. reflexivity.
Qed.

(** X6. [assignDriver], [completeBooking] and [updateBookingStatus] never
    delete or reorder anything, whatever their arguments and whether they
    return or throw: afterwards the bookings carry the same identifiers in
    the same order, the jobs that were there are still there under their
    identifiers, and commissions, invoices, sanitisation and grading records
    are the old ones followed by what was appended. *)
Theorem X6_operations_keep_identities (env : Env) (w : World) :
  (forall bookingId driverId actorId,
     keeps_identities w
       (final_world
          (BookingService.assignDriverMock env w bookingId driverId actorId)))
  /\
  (forall bookingId actorId,
     keeps_identities w
       (final_world
          (BookingService.completeBookingMock env w bookingId actorId)))
  /\
  (forall bookingId status,
     keeps_identities w
       (final_world
          (BookingService.updateBookingStatusMock env w bookingId status))).
Proof.
  split_and!.
  - intros.
    destruct (BookingService.assignDriverMock env w bookingId driverId actorId)
      as [b' w'|e w'] eqn:Hop; cbn [final_world].
    2: { revert Hop. unfold BookingService.assignDriverMock,
           BookingService.notFound.
         repeat case_match; intros; simplify_eq; apply keeps_identities_refl. }
    destruct (assignDriver_returned _ _ _ _ _ _ _ Hop)
      as (i & b & _ & Hf & _ & _ & Hid & Hb & Hj & Hc & Hi & Hs & Hg).
    unfold keeps_identities. rewrite Hb, Hc, Hi, Hs, Hg. split_and!; try done.
    + by eapply ids_insert_booking.
    + destruct Hj as [->|(_ & job & ->)]; [done|].
      rewrite fmap_app. by apply prefix_app_r.
  - intros. unfold BookingService.completeBookingMock, BookingService.notFound.
    destruct (simulated env _ _ _); [apply keeps_identities_refl|].
    destruct (find_by _ _ _) as [[i b]|] eqn:Hf; [|apply keeps_identities_refl].
    case_bool_decide; [apply keeps_identities_refl|]. cbv zeta.
    set (bc := Booking.set_completedAt _ _).
    assert (Hid : Booking.id bc = Booking.id b) by (by destruct b).
    destruct (BookingService.linkedJob _ bc) as [[k j]|] eqn:Hjob;
      [apply linkedJob_Some in Hjob; simpl_world; case_bool_decide|];
      destruct (JS.truthy _ && JS.truthy _);
      unfold keeps_identities; cbn [final_world]; simpl_world;
      split_and!;
      try reflexivity; try (by apply prefix_app_r);
      try (by eapply ids_insert_booking);
      by (erewrite ids_insert_job; [reflexivity|eassumption|reflexivity]).
  - intros.
    destruct (BookingService.updateBookingStatusMock env w bookingId status)
      as [b' w'|e w'] eqn:Hop; cbn [final_world].
    2: { revert Hop. unfold BookingService.updateBookingStatusMock,
           BookingService.notFound.
         repeat case_match; intros; simplify_eq; apply keeps_identities_refl. }
    destruct (updateBookingStatus_returned _ _ _ _ _ _ Hop)
      as (i & b & _ & Hf & Hb & ->).
    unfold keeps_identities, jobsAfterSync. simpl_world.
    split_and!; try reflexivity.
    + eapply ids_insert_booking; [exact Hf|]. rewrite Hb.
      by destruct (stampMilestone_keeps env status
                     (Booking.set_status status b)) as (-> & _).
    + destruct (BookingService.linkedJob w b) as [[k j]|] eqn:Hjob; [|done].
      erewrite ids_insert_job;
        [reflexivity|eapply linkedJob_Some, Hjob|apply syncJob_id].
Qed.

(** X23. [createSanitisationRecord] and [createGradingRecord], with the
    status cascade they trigger, never delete or reorder anything either,
    whatever their arguments and whether they return or throw: the bookings
    keep their identifiers and order, the jobs theirs, and the records are
    the old ones followed by what was appended. *)
Theorem X23_record_creation_keeps_identities (env : Env) (w : World) :
  (forall bookingId assetId method performedBy methodDetails notes,
     keeps_identities w
       (final_world
          (SanitisationService.createSanitisationRecordMock env w bookingId
             assetId method performedBy methodDetails notes)))
  /\
  (forall bookingId assetId assetCategory grade gradedBy condition notes,
     keeps_identities w
       (final_world
          (GradingService.createGradingRecordMock env w bookingId assetId
             assetCategory grade gradedBy condition notes))).
Proof.
  split_and!.
  - intros. unfold SanitisationService.createSanitisationRecordMock.
    destruct (simulated env _ _ _); [apply keeps_identities_refl|].
    cbv zeta. simpl_world.
    destruct (find_by _ _ _) as [[i b]|] eqn:Hf.
    2: { unfold keeps_identities; cbn [final_world]; simpl_world.
         split_and!; try reflexivity. by apply prefix_app_r. }
    destruct (_ && _).
    2: { unfold keeps_identities; cbn [final_world]; simpl_world.
         split_and!; try reflexivity. by apply prefix_app_r. }
    set (bs := Booking.set_sanitisedAt _ _).
    assert (Hid : Booking.id bs = Booking.id b) by (by destruct b).
    destruct (BookingService.linkedJob _ bs) as [[k j]|] eqn:Hjob;
      [apply linkedJob_Some in Hjob; simpl_world; case_bool_decide|];
      unfold keeps_identities; cbn [final_world]; simpl_world;
      split_and!;
      try reflexivity; try (by apply prefix_app_r);
      try (by eapply ids_insert_booking);
      by (erewrite ids_insert_job; [reflexivity|eassumption|reflexivity]).
  - intros. unfold GradingService.createGradingRecordMock.
    destruct (simulated env _ _ _); [apply keeps_identities_refl|].
    cbv zeta. simpl_world.
    destruct (find_by _ _ _) as [[i b]|] eqn:Hf.
    2: { unfold keeps_identities; cbn [final_world]; simpl_world.
         split_and!; try reflexivity. by apply prefix_app_r. }
    destruct (_ && _).
    2: { unfold keeps_identities; cbn [final_world]; simpl_world.
         split_and!; try reflexivity. by apply prefix_app_r. }
    set (bs := Booking.set_gradedAt _ _).
    assert (Hid : Booking.id bs = Booking.id b) by (by destruct b).
    destruct (BookingService.linkedJob _ bs) as [[k j]|] eqn:Hjob;
      [apply linkedJob_Some in Hjob; simpl_world; case_bool_decide|];
      unfold keeps_identities; cbn [final_world]; simpl_world;
      split_and!;
      try reflexivity; try (by apply prefix_app_r);
      try (by eapply ids_insert_booking);
      by (erewrite ids_insert_job; [reflexivity|eassumption|reflexivity]).
Qed.

(** ** Invoices: what a status update touches, the shortcuts, reading back *)

Lemma simulatedFetch_None (env : Env) (service m : string)
    (d : list (string * string)) (msg : string) :
  errorSim env service = None -> simulatedFetch env service m d msg = None.
Proof. unfold simulatedFetch. by intros ->. Qed.

(** What an accepted invoice status update leaves in the store. *)
Lemma updateInvoiceStatus_returned (env : Env) (w w' : World)
    (invoiceId : string) (status : InvoiceStatus) (inv' : Invoice.t) :
  InvoicesService.updateInvoiceStatusMock env w invoiceId status
  = Returned inv' w' ->
  exists i inv,
    errorSim env InvoicesService.SERVICE_NAME = None /\
    find_by Invoice.id invoiceId (mockInvoices w) = Some (i, inv) /\
    inv' = Invoice.set_status status inv /\
    w' = set_mockInvoices (<[i := inv']> (mockInvoices w)) w.
Proof.
  unfold InvoicesService.updateInvoiceStatusMock.
  destruct (simulated env _ _ _) eqn:Hs; [discriminate|].
  apply simulated_None in Hs.
  destruct (find_by _ _ _) as [[i inv]|] eqn:Hfind; [|discriminate].
  cbv zeta. case_bool_decide as Hc.
  - subst status. intros H. injection H as <- <-. by exists i, inv.
  - match goal with |- context [if ?c then _ else _] => destruct c end;
      [discriminate|].
    intros H. injection H as <- <-. by exists i, inv.
Qed.

(** A refused invoice status update leaves the store as it was. *)
Lemma updateInvoiceStatus_thrown (env : Env) (w w' : World)
    (invoiceId : string) (status : InvoiceStatus) (e : ApiError) :
  InvoicesService.updateInvoiceStatusMock env w invoiceId status
  = Thrown e w' -> w' = w.
Proof.
  unfold InvoicesService.updateInvoiceStatusMock.
  repeat case_match; intros; by simplify_eq.
Qed.

(** X7. An invoice status update, accepted or refused, touches nothing but
    the status of invoices carrying the requested identifier: bookings,
    jobs, commissions and records are left as they were, the invoices are
    the same up to their status (same order, identifiers, amounts, lines,
    dates), and every invoice with another identifier is unchanged. *)
Theorem X7_invoice_update_frame (env : Env) (w : World) (invoiceId : string)
    (status : InvoiceStatus) :
  let w' :=
    final_world
      (InvoicesService.updateInvoiceStatusMock env w invoiceId status) in
  mockBookings w' = mockBookings w /\
  mockJobs w' = mockJobs w /\
  mockCommissions w' = mockCommissions w /\
  mockSanitisationRecords w' = mockSanitisationRecords w /\
  mockGradingRecords w' = mockGradingRecords w /\
  Invoice.set_status IDraft <$> mockInvoices w'
  = Invoice.set_status IDraft <$> mockInvoices w /\
  (forall k inv, mockInvoices w !! k = Some inv ->
                 Invoice.id inv <> invoiceId ->
                 mockInvoices w' !! k = Some inv).
Proof.
  destruct (InvoicesService.updateInvoiceStatusMock env w invoiceId status)
    as [inv' w'|e w'] eqn:Hop; cbn [final_world].
  2: { apply updateInvoiceStatus_thrown in Hop as ->. by split_and!. }
  destruct (updateInvoiceStatus_returned _ _ _ _ _ _ Hop)
    as (i & inv & _ & Hf & -> & ->).
  apply find_by_Some in Hf as [Hi Hid]. simpl_world.
  split_and!; try reflexivity.
  - rewrite list_fmap_insert.
    replace (Invoice.set_status IDraft (Invoice.set_status status inv))
      with (Invoice.set_status IDraft inv) by (by destruct inv).
    apply list_insert_id. by rewrite list_lookup_fmap, Hi.
  - intros k inv0 Hk Hne. rewrite list_lookup_insert_ne; [exact Hk|].
    intros <-. congruence.
Qed.

(** X8. With error simulation off and the invoice found: [cancelInvoice]
    always returns; [sendInvoice] returns exactly when the invoice is
    [draft], [sent] or [cancelled]; [markAsPaid] returns exactly when it is
    [sent], [overdue], [paid] or [cancelled].  Whenever one of them returns,
    the invoice it returns has the status of that shortcut. *)
Theorem X8_invoice_shortcuts (env : Env) (w : World) (invoiceId : string)
    (i : nat) (inv : Invoice.t) :
  errorSim env InvoicesService.SERVICE_NAME = None ->
  find_by Invoice.id invoiceId (mockInvoices w) = Some (i, inv) ->
  returned (InvoicesService.cancelInvoice env w invoiceId) = true /\
  returned (InvoicesService.sendInvoice env w invoiceId)
  = bool_decide (Invoice.status inv ∈ [IDraft; ISent; ICancelled]) /\
  returned (InvoicesService.markAsPaid env w invoiceId)
  = bool_decide (Invoice.status inv ∈ [ISent; IOverdue; IPaid; ICancelled]) /\
  (forall inv' w',
     InvoicesService.cancelInvoice env w invoiceId = Returned inv' w' ->
     Invoice.status inv' = ICancelled) /\
  (forall inv' w',
     InvoicesService.sendInvoice env w invoiceId = Returned inv' w' ->
     Invoice.status inv' = ISent) /\
  (forall inv' w',
     InvoicesService.markAsPaid env w invoiceId = Returned inv' w' ->
     Invoice.status inv' = IPaid).
Proof.
  intros Hsim Hfind.
  unfold InvoicesService.cancelInvoice, InvoicesService.sendInvoice,
    InvoicesService.markAsPaid.
  split_and!.
  - unfold InvoicesService.updateInvoiceStatusMock, simulated.
    by rewrite Hsim, Hfind.
  - unfold InvoicesService.updateInvoiceStatusMock, simulated.
    rewrite Hsim, Hfind. by destruct (Invoice.status inv).
  - unfold InvoicesService.updateInvoiceStatusMock, simulated.
    rewrite Hsim, Hfind. by destruct (Invoice.status inv).
  - intros inv' w' H.
    destruct (updateInvoiceStatus_returned _ _ _ _ _ _ H)
      as (? & inv0 & _ & _ & -> & _). by destruct inv0.
  - intros inv' w' H.
    destruct (updateInvoiceStatus_returned _ _ _ _ _ _ H)
      as (? & inv0 & _ & _ & -> & _). by destruct inv0.
  - intros inv' w' H.
    destruct (updateInvoiceStatus_returned _ _ _ _ _ _ H)
      as (? & inv0 & _ & _ & -> & _). by destruct inv0.
Qed.

(** A paid invoice of the sample store: it can be cancelled, not sent. *)
Lemma X8_invoice_shortcuts_witness :
  errorSim Sample.env InvoicesService.SERVICE_NAME = None /\
  find_by Invoice.id "inv-001"
    (mockInvoices (set_mockInvoices [Sample.invoiceAt IPaid] Sample.empty))
  = Some (0%nat, Sample.invoiceAt IPaid) /\
  returned (InvoicesService.cancelInvoice Sample.env
              (set_mockInvoices [Sample.invoiceAt IPaid] Sample.empty)
              "inv-001") = true /\
  returned (InvoicesService.sendInvoice Sample.env
              (set_mockInvoices [Sample.invoiceAt IPaid] Sample.empty)
              "inv-001") = false.
Proof.
  split; [reflexivity|]. split; [vm_compute; reflexivity|].
  destruct (X8_invoice_shortcuts Sample.env
              (set_mockInvoices [Sample.invoiceAt IPaid] Sample.empty)
              "inv-001" 0%nat (Sample.invoiceAt IPaid) eq_refl
              ltac:(vm_compute; reflexivity)) as (H1 & H2 & _).
  split; [exact H1|]. rewrite H2. reflexivity.
Defined.

(** X9. Reading back what was written: after [assignDriver],
    [updateBookingStatus] or [completeBooking] has returned a booking,
    [getBookingById] for the same identifier (error simulation off) returns
    exactly that booking and changes nothing. *)
Theorem X9_read_back (env env2 : Env) (w w' : World) (id : string) :
  errorSim env2 BookingService.SERVICE_NAME = None ->
  (forall driverId actorId b',
     BookingService.assignDriverMock env w id driverId actorId
     = Returned b' w' ->
     BookingReads.getBookingByIdMock env2 w' id = Returned (Some b') w') /\
  (forall status b',
     BookingService.updateBookingStatusMock env w id status
     = Returned b' w' ->
     BookingReads.getBookingByIdMock env2 w' id = Returned (Some b') w') /\
  (forall actorId b',
     BookingService.completeBookingMock env w id actorId = Returned b' w' ->
     BookingReads.getBookingByIdMock env2 w' id = Returned (Some b') w').
Proof.
  intros Hb. split_and!.
  - intros driverId actorId b' H.
    destruct (assignDriver_returned _ _ _ _ _ _ _ H)
      as (i & b & _ & Hf & _ & _ & Hid & Hbook & _).
    unfold BookingReads.getBookingByIdMock.
    rewrite (simulatedFetch_None _ _ _ _ _ Hb), Hbook.
    erewrite find_by_insert_same; [reflexivity|exact Hf|].
    rewrite Hid. eapply find_by_Some, Hf.
  - intros status b' H.
    destruct (updateBookingStatus_returned _ _ _ _ _ _ H)
      as (i & b & _ & Hf & Hb' & ->).
    unfold BookingReads.getBookingByIdMock.
    rewrite (simulatedFetch_None _ _ _ _ _ Hb). simpl_world.
    erewrite find_by_insert_same; [reflexivity|exact Hf|].
    rewrite Hb'.
    destruct (stampMilestone_keeps env status (Booking.set_status status b))
      as (-> & _).
    rewrite booking_id_set_status. eapply find_by_Some, Hf.
  - intros actorId b' H.
    destruct (completeBooking_returned _ _ _ _ _ _ H)
      as (i & b & _ & Hf & _ & Hb' & Hbook).
    unfold BookingReads.getBookingByIdMock.
    rewrite (simulatedFetch_None _ _ _ _ _ Hb), Hbook.
    erewrite find_by_insert_same; [reflexivity|exact Hf|].
    rewrite Hb'. apply find_by_Some in Hf as [_ Hid]. by destruct b.
Qed.

(** The sample booking is moved to [sanitised] and read back. *)
Lemma X9_read_back_witness :
  errorSim Sample.env BookingService.SERVICE_NAME = None /\
  exists b' w',
    BookingService.updateBookingStatusMock Sample.env
      (Sample.world (Sample.bookingAt BCollected) (Sample.jobAt JWarehouse))
      "booking-001" BSanitised = Returned b' w' /\
    BookingReads.getBookingByIdMock Sample.env w' "booking-001"
    = Returned (Some b') w' /\
    Booking.status b' = BSanitised.
Proof.
  split; [reflexivity|]. eexists _, _.
  assert (H : BookingService.updateBookingStatusMock Sample.env
                (Sample.world (Sample.bookingAt BCollected)
                   (Sample.jobAt JWarehouse))
                "booking-001" BSanitised
              = Returned _ _) by (vm_compute; reflexivity).
  split; [exact H|]. split; [|reflexivity].
  exact (proj1 (proj2 (X9_read_back Sample.env Sample.env _ _ "booking-001"
                         eq_refl)) _ _ H).
Defined.

(** X24. Reading back an invoice: after [updateInvoiceStatus] has returned
    an invoice, [getInvoice] for the same identifier (error simulation off)
    returns exactly that invoice and changes nothing. *)
Theorem X24_invoice_read_back (env env2 : Env) (w w' : World) (id : string)
    (status : InvoiceStatus) (inv' : Invoice.t) :
  errorSim env2 InvoicesService.SERVICE_NAME = None ->
  InvoicesService.updateInvoiceStatusMock env w id status
  = Returned inv' w' ->
  InvoiceReads.getInvoiceMock env2 w' id = Returned (Some inv') w'.
Proof.
  intros Hi H.
  destruct (updateInvoiceStatus_returned _ _ _ _ _ _ H)
    as (i & inv & _ & Hf & Hinv & ->).
  unfold InvoiceReads.getInvoiceMock.
  rewrite (simulatedFetch_None _ _ _ _ _ Hi). simpl_world.
  erewrite find_by_insert_same; [reflexivity|exact Hf|].
  rewrite Hinv. apply find_by_Some in Hf as [_ Hid]. by destruct inv.
Qed.

(** A draft invoice of the sample store is sent and read back. *)
Lemma X24_invoice_read_back_witness :
  errorSim Sample.env InvoicesService.SERVICE_NAME = None /\
  exists inv' w',
    InvoicesService.updateInvoiceStatusMock Sample.env
      (set_mockInvoices [Sample.invoiceAt IDraft] Sample.empty)
      "inv-001" ISent = Returned inv' w' /\
    InvoiceReads.getInvoiceMock Sample.env w' "inv-001"
    = Returned (Some inv') w' /\
    Invoice.status inv' = ISent.
Proof.
  split; [reflexivity|]. eexists _, _.
  assert (H : InvoicesService.updateInvoiceStatusMock Sample.env
                (set_mockInvoices [Sample.invoiceAt IDraft] Sample.empty)
                "inv-001" ISent = Returned _ _) by (vm_compute; reflexivity).
  split; [exact H|]. split; [|reflexivity].
  exact (X24_invoice_read_back Sample.env Sample.env _ _ _ _ _ eq_refl H).
Defined.

(** ** Who sees what: the list reads *)

Lemma elem_of_filter_if {A} (c : bool) (P : A -> Prop)
    `{!forall x, Decision (P x)} (l : list A) (x : A) :
  x ∈ (if c then filter P l else l) <-> x ∈ l /\ (c = true -> P x).
Proof.
  destruct c.
  - rewrite list_elem_of_filter. split; intros [? ?]; auto.
  - split; [intros; split; [done|discriminate]|by intros [? _]].
Qed.

Lemma sublist_filter_if {A} (c : bool) (P : A -> Prop)
    `{!forall x, Decision (P x)} (l : list A) :
  (if c then filter P l else l) `sublist_of` l.
Proof. destruct c; [apply sublist_filter|reflexivity]. Qed.

Lemma truthy_Some (s : string) : JS.truthy (Some s) = true <-> s <> "".
Proof.
  unfold JS.truthy. rewrite negb_true_iff. apply String.eqb_neq.
Qed.

(** X10. [getBookings] with error simulation off returns, without changing
    the store, a selection of the stored bookings in their stored order.
    A client user only ever gets bookings of their own tenant and a reseller
    user only bookings carrying their reseller id, whatever the filter; a
    non-empty status or client filter is honoured by every booking
    returned; and without a filter a client (reseller) gets every booking of
    theirs, while an admin, a driver and an anonymous caller get all
    bookings. *)
Theorem X10_bookings_visibility (env : Env) (w : World)
    (user : option User.t) (flt : option BookingReads.Filter) :
  errorSim env BookingService.SERVICE_NAME = None ->
  exists l,
    BookingReads.getBookingsMock env w user flt = Returned l w /\
    l `sublist_of` mockBookings w /\
    (forall u b, user = Some u -> User.role u = Client -> b ∈ l ->
                 Booking.clientId b = User.tenantId u) /\
    (forall u b, user = Some u -> User.role u = Reseller -> b ∈ l ->
                 Booking.resellerId b = Some (User.tenantId u)) /\
    (forall f s b, flt = Some f -> BookingReads.status f = Some s ->
                   s <> "" -> b ∈ l ->
                   BookingStatus_str (Booking.status b) = s) /\
    (forall f c b, flt = Some f -> BookingReads.clientId f = Some c ->
                   c <> "" -> b ∈ l -> Booking.clientId b = c) /\
    (flt = None ->
     (forall u b, user = Some u -> User.role u = Client ->
                  b ∈ mockBookings w ->
                  Booking.clientId b = User.tenantId u -> b ∈ l) /\
     (forall u b, user = Some u -> User.role u = Reseller ->
                  b ∈ mockBookings w ->
                  Booking.resellerId b = Some (User.tenantId u) -> b ∈ l) /\
     ((forall u, user = Some u ->
                 User.role u = Admin \/ User.role u = DriverRole) ->
      l = mockBookings w)).
Proof.
  intros Hsim. unfold BookingReads.getBookingsMock, simulated. rewrite Hsim.
  cbv zeta. eexists. split; [reflexivity|].
  set (byRole := match user with Some u => _ | None => _ end).
  assert (Hrole : byRole `sublist_of` mockBookings w).
  { subst byRole. destruct user as [u|]; [|reflexivity].
    destruct (User.role u); try reflexivity; apply sublist_filter. }
  split_and!.
  - destruct flt as [f|]; [|exact Hrole].
    etrans; [apply sublist_filter_if|]. etrans; [apply sublist_filter_if|].
    exact Hrole.
  - intros u b -> Hr Hb. subst byRole. rewrite Hr in *.
    assert (Hin : b ∈ filter (fun b => Booking.clientId b = User.tenantId u)
                        (mockBookings w)).
    { destruct flt as [f|]; [|exact Hb].
      apply elem_of_filter_if in Hb as [Hb _].
      by apply elem_of_filter_if in Hb as [Hb _]. }
    by apply list_elem_of_filter in Hin as [? _].
  - intros u b -> Hr Hb. subst byRole. rewrite Hr in *.
    assert (Hin : b ∈ filter (fun b => Booking.resellerId b
                                       = Some (User.tenantId u))
                        (mockBookings w)).
    { destruct flt as [f|]; [|exact Hb].
      apply elem_of_filter_if in Hb as [Hb _].
      by apply elem_of_filter_if in Hb as [Hb _]. }
    by apply list_elem_of_filter in Hin as [? _].
  - intros f s b -> Hs Hne Hb.
    apply elem_of_filter_if in Hb as [Hb _].
    apply elem_of_filter_if in Hb as [_ Hb].
    rewrite Hs in Hb. specialize (Hb (proj2 (truthy_Some s) Hne)).
    congruence.
  - intros f c b -> Hc Hne Hb.
    apply elem_of_filter_if in Hb as [_ Hb].
    rewrite Hc in Hb. specialize (Hb (proj2 (truthy_Some c) Hne)).
    congruence.
  - intros ->. subst byRole. split_and!.
    + intros u b -> Hr Hb Hc. rewrite Hr. by apply list_elem_of_filter.
    + intros u b -> Hr Hb Hc. rewrite Hr. by apply list_elem_of_filter.
    + intros Hall. destruct user as [u|]; [|reflexivity].
      by destruct (Hall u eq_refl) as [-> | ->].
Qed.

(** A client user of another tenant asks for the bookings of the sample
    store. *)
Lemma X10_bookings_visibility_witness :
  errorSim Sample.env BookingService.SERVICE_NAME = None /\
  exists l,
    BookingReads.getBookingsMock Sample.env
      (Sample.world (Sample.bookingAt BGraded) (Sample.jobAt JGraded))
      (Some {| User.id := "user-2"; User.role := Client;
               User.tenantId := "tenant-9" |})
      None
    = Returned l
        (Sample.world (Sample.bookingAt BGraded) (Sample.jobAt JGraded)) /\
    l `sublist_of`
      mockBookings
        (Sample.world (Sample.bookingAt BGraded) (Sample.jobAt JGraded)).
Proof.
  split; [reflexivity|].
  destruct (X10_bookings_visibility Sample.env
              (Sample.world (Sample.bookingAt BGraded) (Sample.jobAt JGraded))
              (Some {| User.id := "user-2"; User.role := Client;
                       User.tenantId := "tenant-9" |})
              None eq_refl) as (l & H1 & H2 & _).
  exists l. split; assumption.
Defined.

(** X11. [getInvoices] with error simulation off returns, without changing
    the store, a selection of the stored invoices in their stored order.  A
    client user only gets invoices of their own tenant; a reseller user only
    invoices of a client that the client list attributes to them; a
    non-empty status filter is honoured by every invoice returned; without
    one, an admin, a driver and an anonymous caller get all invoices. *)
Theorem X11_invoices_visibility (env : Env) (w : World)
    (mockClients : list Client.t) (user : option User.t)
    (status : option string) :
  errorSim env InvoicesService.SERVICE_NAME = None ->
  exists l,
    InvoiceReads.getInvoicesMock env w mockClients user status
    = Returned l w /\
    l `sublist_of` mockInvoices w /\
    (forall u inv, user = Some u -> User.role u = Client -> inv ∈ l ->
                   Invoice.clientId inv = User.tenantId u) /\
    (forall u inv, user = Some u -> User.role u = Reseller -> inv ∈ l ->
                   exists c, c ∈ mockClients /\
                             Client.tenantId c = Invoice.clientId inv /\
                             Client.resellerId c = Some (User.tenantId u)) /\
    (forall s inv, status = Some s -> s <> "" -> inv ∈ l ->
                   InvoiceStatus_str (Invoice.status inv) = s) /\
    (JS.truthy status = false ->
     (forall u, user = Some u ->
                User.role u = Admin \/ User.role u = DriverRole) ->
     l = mockInvoices w).
Proof.
  intros Hsim. unfold InvoiceReads.getInvoicesMock, simulated. rewrite Hsim.
  cbv zeta. eexists. split; [reflexivity|].
  set (byRole := match user with Some u => _ | None => _ end).
  assert (Hrole : byRole `sublist_of` mockInvoices w).
  { subst byRole. destruct user as [u|]; [|reflexivity].
    destruct (User.role u); try reflexivity; apply sublist_filter. }
  split_and!.
  - etrans; [apply sublist_filter_if|]. exact Hrole.
  - intros u inv -> Hr Hin. subst byRole. rewrite Hr in *.
    apply elem_of_filter_if in Hin as [Hin _].
    by apply list_elem_of_filter in Hin as [? _].
  - intros u inv -> Hr Hin. subst byRole. rewrite Hr in *.
    apply elem_of_filter_if in Hin as [Hin _].
    apply list_elem_of_filter in Hin as [Hin _].
    apply list_elem_of_fmap in Hin as (c & Hc1 & Hc2).
    apply list_elem_of_filter in Hc2 as [Hc2 Hc3].
    exists c. by split_and!.
  - intros s inv -> Hne Hin.
    apply elem_of_filter_if in Hin as [_ Hin].
    specialize (Hin (proj2 (truthy_Some s) Hne)). congruence.
  - intros -> Hall. subst byRole. destruct user as [u|]; [|reflexivity].
    by destruct (Hall u eq_refl) as [-> | ->].
Qed.

(** A reseller without clients asks for the invoices of the sample
    store. *)
Lemma X11_invoices_visibility_witness :
  errorSim Sample.env InvoicesService.SERVICE_NAME = None /\
  exists l,
    InvoiceReads.getInvoicesMock Sample.env
      (set_mockInvoices [Sample.invoiceAt IPaid] Sample.empty)
      [{| Client.tenantId := "tenant-1"; Client.resellerId := Some "r1" |}]
      (Some {| User.id := "user-3"; User.role := Reseller;
               User.tenantId := "r2" |})
      None
    = Returned l (set_mockInvoices [Sample.invoiceAt IPaid] Sample.empty) /\
    l `sublist_of` [Sample.invoiceAt IPaid].
Proof.
  split; [reflexivity|].
  destruct (X11_invoices_visibility Sample.env
              (set_mockInvoices [Sample.invoiceAt IPaid] Sample.empty)
              [{| Client.tenantId := "tenant-1";
                  Client.resellerId := Some "r1" |}]
              (Some {| User.id := "user-3"; User.role := Reseller;
                       User.tenantId := "r2" |})
              None eq_refl) as (l & H1 & H2 & _).
  exists l. split; assumption.
Defined.

(** X12. [getCommissions] with error simulation off returns, without
    changing the store, a selection of the stored commissions in their
    stored order.  A client or driver user gets none, whatever the filter,
    and their summary is all zeros with no period; a reseller user only gets
    commissions carrying their reseller id; a non-empty status or period
    filter is honoured by every commission returned; without a filter an
    admin and an anonymous caller get all commissions. *)
Theorem X12_commissions_visibility (env : Env) (w : World)
    (user : option User.t) (flt : option CommissionService.Filter) :
  errorSim env CommissionService.SERVICE_NAME = None ->
  exists l,
    CommissionService.getCommissionsMock env w user flt = Returned l w /\
    l `sublist_of` mockCommissions w /\
    (forall u, user = Some u ->
               User.role u = Client \/ User.role u = DriverRole ->
               l = [] /\
               CommissionService.getCommissionSummaryMock env w user
               = Returned {| CommissionService.totalPending := 0;
                             CommissionService.totalApproved := 0;
                             CommissionService.totalPaid := 0;
                             CommissionService.totalAmount := 0;
                             CommissionService.byPeriod := ∅ |} w) /\
    (forall u c, user = Some u -> User.role u = Reseller -> c ∈ l ->
                 Commission.resellerId c = User.tenantId u) /\
    (forall f s c, flt = Some f -> CommissionService.status f = Some s ->
                   s <> "" -> c ∈ l ->
                   CommissionStatus_str (Commission.status c) = s) /\
    (forall f p c, flt = Some f -> CommissionService.period f = Some p ->
                   p <> "" -> c ∈ l -> Commission.period c = p) /\
    (flt = None ->
     (forall u, user = Some u -> User.role u = Admin) ->
     l = mockCommissions w).
Proof.
  intros Hsim.
  unfold CommissionService.getCommissionSummaryMock,
    CommissionService.getCommissionsMock, simulated.
  rewrite Hsim. cbv zeta. eexists. split; [reflexivity|].
  set (byRole := match user with Some u => _ | None => _ end).
  assert (Hrole : byRole `sublist_of` mockCommissions w).
  { subst byRole. destruct user as [u|]; [|reflexivity].
    destruct (User.role u); try reflexivity;
      try apply sublist_filter; apply sublist_nil_l. }
  split_and!.
  - destruct flt as [f|]; [|exact Hrole].
    etrans; [apply sublist_filter_if|]. etrans; [apply sublist_filter_if|].
    exact Hrole.
  - intros u -> Hr. subst byRole.
    destruct Hr as [Hr|Hr]; rewrite Hr; (split; [|reflexivity]);
      destruct flt as [f|]; try reflexivity;
      by destruct (JS.truthy (CommissionService.status f)),
                  (JS.truthy (CommissionService.period f)).
  - intros u c -> Hr Hin. subst byRole. rewrite Hr in *.
    assert (Hc : c ∈ filter (fun c => Commission.resellerId c
                                      = User.tenantId u)
                       (mockCommissions w)).
    { destruct flt as [f|]; [|exact Hin].
      apply elem_of_filter_if in Hin as [Hin _].
      by apply elem_of_filter_if in Hin as [Hin _]. }
    by apply list_elem_of_filter in Hc as [? _].
  - intros f s c -> Hs Hne Hin.
    apply elem_of_filter_if in Hin as [Hin _].
    apply elem_of_filter_if in Hin as [_ Hin].
    rewrite Hs in Hin. specialize (Hin (proj2 (truthy_Some s) Hne)).
    congruence.
  - intros f p c -> Hp Hne Hin.
    apply elem_of_filter_if in Hin as [_ Hin].
    rewrite Hp in Hin. specialize (Hin (proj2 (truthy_Some p) Hne)).
    congruence.
  - intros -> Hall. subst byRole. destruct user as [u|]; [|reflexivity].
    by rewrite (Hall u eq_refl).
Qed.

(** A driver asks for the commissions of a store holding one. *)
Lemma X12_commissions_visibility_witness :
  errorSim Sample.env CommissionService.SERVICE_NAME = None /\
  exists l,
    CommissionService.getCommissionsMock Sample.env
      (set_mockCommissions [Sample.commissionAt CPending None] Sample.empty)
      (Some {| User.id := "user-4"; User.role := DriverRole;
               User.tenantId := "tenant-1" |})
      None
    = Returned l
        (set_mockCommissions [Sample.commissionAt CPending None]
           Sample.empty) /\
    l = [].
Proof.
  split; [reflexivity|].
  destruct (X12_commissions_visibility Sample.env
              (set_mockCommissions [Sample.commissionAt CPending None]
                 Sample.empty)
              (Some {| User.id := "user-4"; User.role := DriverRole;
                       User.tenantId := "tenant-1" |})
              None eq_refl) as (l & H1 & _ & H3 & _).
  exists l. split; [exact H1|].
  exact (proj1 (H3 _ eq_refl (or_intror eq_refl))).
Defined.

(** ** The per-period figures of the commission summary *)

Lemma filter_period_nil (p : string) (l : list Commission.t) :
  p ∉ Commission.period <$> l ->
  filter (fun c => Commission.period c = p) l = [].
Proof.
  induction l as [|c l IH]; [done|].
  rewrite fmap_cons, not_elem_of_cons. intros [Hne Hl].
  rewrite filter_cons_False by congruence. by apply IH.
Qed.

Lemma string_app_assoc (a b c : string) :
  (a +:+ b) +:+ c = a +:+ (b +:+ c).
Proof.
  induction a as [|x a IH]; [reflexivity|].
  change (String x ((a +:+ b) +:+ c) = String x (a +:+ (b +:+ c))).
  by rewrite IH.
Qed.

Lemma string_app_empty_r (a : string) : a +:+ "" = a.
Proof.
  induction a as [|x a IH]; [reflexivity|].
  change (String x (a +:+ "") = String x a). by rewrite IH.
Qed.

Lemma pretty_N_go_nonempty (x : N) (s : string) :
  s <> "" -> pretty_N_go x s <> "".
Proof.
  revert s. induction (N.lt_wf_0 x) as [x _ IH]. intros s Hs.
  destruct (decide (x = 0)%N) as [->|Hx].
  - by rewrite pretty_N_go_0.
  - rewrite pretty_N_go_step by lia. apply IH; [|discriminate].
    apply N.div_lt; lia.
Qed.

(** The decimal text of an integer is never empty. *)
Lemma String_of_nonempty (z : Z) : JS.String_of z <> "".
Proof.
  assert (Hpos : forall p : positive, pretty p <> "").
  { intros p. change (pretty (N.pos p) <> "").
    unfold pretty, pretty_N. destruct (decide _) as [|Hne]; [discriminate|].
    rewrite pretty_N_go_step by lia.
    apply pretty_N_go_nonempty. discriminate. }
  destruct z as [|p|p]; [discriminate|apply Hpos|discriminate].
Qed.

Lemma elem_of_periods_cons_ne (p : string) (c : Commission.t)
    (l : list Commission.t) :
  Commission.period c <> p ->
  bool_decide (p ∈ Commission.period <$> c :: l)
  = bool_decide (p ∈ Commission.period <$> l).
Proof.
  intros Hp. apply bool_decide_ext. rewrite fmap_cons, elem_of_cons.
  split; [intros [?|?]; [congruence|done]|by right].
Qed.

(** A step of the grouping for another period leaves the entry of [p]. *)
Lemma addToPeriod_other (env : Env) (m : gmap string JS.NumOrStr)
    (c : Commission.t) (p : string) :
  Commission.period c <> p ->
  CommissionService.addToPeriod env m c !! p = m !! p.
Proof.
  intros Hp. unfold CommissionService.addToPeriod. cbv zeta.
  destruct (String.eqb _ "__proto__"); [reflexivity|].
  by rewrite lookup_insert_ne.
Qed.

(** The entry of a period that is no property name of [Object.prototype],
    after grouping [l] into [m], when the entry is a number or absent. *)
Lemma lookup_byPeriod (env : Env) (p : string) (l : list Commission.t)
    (m : gmap string JS.NumOrStr) (n : Z) :
  JS.inherited p = false ->
  m !! p = None /\ n = 0 \/ m !! p = Some (JS.Num n) ->
  foldl (CommissionService.addToPeriod env) m l !! p
  = if bool_decide (p ∈ Commission.period <$> l)
    then Some (JS.Num (n + CommissionService.sumAmounts
                             (filter (fun c => Commission.period c = p) l)))
    else m !! p.
Proof.
  intros Hp. revert m n. induction l as [|c l IH]; intros m n Hm.
  - rewrite bool_decide_eq_false_2 by apply not_elem_of_nil. reflexivity.
  - cbn [foldl].
    destruct (decide (Commission.period c = p)) as [Hc|Hc].
    + assert (Hstep : CommissionService.addToPeriod env m c !! p
                      = Some (JS.Num (n + Commission.commissionAmount c))).
      { unfold CommissionService.addToPeriod, CommissionService.periodEntry.
        rewrite Hc, (not_inherited_proto _ Hp), Hp. cbv zeta.
        rewrite lookup_insert_eq.
        by destruct Hm as [[-> ->]| ->]. }
      rewrite (IH _ (n + Commission.commissionAmount c)) by (by right).
      rewrite fmap_cons, Hc.
      rewrite (bool_decide_eq_true_2 (p ∈ p :: _)) by apply list_elem_of_here.
      rewrite filter_cons_True by exact Hc. rewrite sumAmounts_cons.
      case_bool_decide as Hin.
      * do 2 f_equal. lia.
      * rewrite Hstep, (filter_period_nil p l Hin).
        unfold CommissionService.sumAmounts at 1. cbn [foldl].
        do 2 f_equal. lia.
    + rewrite (IH _ n) by (by rewrite addToPeriod_other).
      rewrite elem_of_periods_cons_ne by exact Hc.
      rewrite filter_cons_False by exact Hc.
      by rewrite addToPeriod_other.
Qed.

(** [__proto__] never becomes an own property. *)
Lemma lookup_byPeriod_proto (env : Env) (l : list Commission.t)
    (m : gmap string JS.NumOrStr) :
  m !! "__proto__" = None ->
  foldl (CommissionService.addToPeriod env) m l !! "__proto__" = None.
Proof.
  revert m. induction l as [|c l IH]; intros m Hm; [exact Hm|].
  cbn [foldl]. apply IH. unfold CommissionService.addToPeriod. cbv zeta.
  destruct (String.eqb_spec (Commission.period c) "__proto__") as [He|Hne];
    [exact Hm|].
  by rewrite lookup_insert_ne.
Qed.

(** The digits appended for the commissions of a list, in their order. *)
Lemma lookup_byPeriod_text_own (env : Env) (p : string)
    (l : list Commission.t) (m : gmap string JS.NumOrStr) (t : string) :
  p <> "__proto__" -> t <> "" -> m !! p = Some (JS.Str t) ->
  foldl (CommissionService.addToPeriod env) m l !! p
  = Some (JS.Str
            (t +:+ foldr (fun c acc =>
                            JS.String_of (Commission.commissionAmount c)
                            +:+ acc) ""
                         (filter (fun c => Commission.period c = p) l))).
Proof.
  intros Hp. revert m t. induction l as [|c l IH]; intros m t Ht Hm.
  - cbn [foldl foldr]. rewrite filter_nil. cbn [foldr].
    by rewrite Hm, string_app_empty_r.
  - cbn [foldl].
    destruct (decide (Commission.period c = p)) as [Hc|Hc].
    + rewrite filter_cons_True by exact Hc. cbn [foldr].
      rewrite <- string_app_assoc. apply IH.
      * destruct t; [done|discriminate].
      * unfold CommissionService.addToPeriod, CommissionService.periodEntry.
        rewrite Hc, Hm. cbv zeta.
        rewrite (proj2 (String.eqb_neq p "__proto__") Hp).
        rewrite (proj2 (String.eqb_neq t "") Ht).
        apply lookup_insert_eq.
    + rewrite filter_cons_False by exact Hc. apply IH; [exact Ht|].
      by rewrite addToPeriod_other.
Qed.

Lemma lookup_byPeriod_text (env : Env) (p : string) (l : list Commission.t)
    (m : gmap string JS.NumOrStr) :
  JS.inherited p = true -> p <> "__proto__" -> m !! p = None ->
  foldl (CommissionService.addToPeriod env) m l !! p
  = if bool_decide (p ∈ Commission.period <$> l)
    then Some (JS.Str
                 (nativeText env p
                  +:+ foldr (fun c acc =>
                               JS.String_of (Commission.commissionAmount c)
                               +:+ acc) ""
                            (filter (fun c => Commission.period c = p) l)))
    else None.
Proof.
  intros Hi Hp. revert m. induction l as [|c l IH]; intros m Hm.
  - rewrite bool_decide_eq_false_2 by apply not_elem_of_nil. exact Hm.
  - cbn [foldl].
    destruct (decide (Commission.period c = p)) as [Hc|Hc].
    + rewrite fmap_cons, Hc.
      rewrite (bool_decide_eq_true_2 (p ∈ p :: _)) by apply list_elem_of_here.
      rewrite filter_cons_True by exact Hc. cbn [foldr].
      rewrite <- string_app_assoc.
      apply lookup_byPeriod_text_own; [exact Hp| |].
      * apply append_nonempty, String_of_nonempty.
      * unfold CommissionService.addToPeriod, CommissionService.periodEntry.
        rewrite Hc, Hm, Hi. cbv zeta.
        rewrite (proj2 (String.eqb_neq p "__proto__") Hp).
        apply lookup_insert_eq.
    + rewrite elem_of_periods_cons_ne by exact Hc.
      rewrite filter_cons_False by exact Hc. apply IH.
      by rewrite addToPeriod_other.
Qed.

(** X13. In the summary [getCommissionSummary] returns (error simulation
    off), [byPeriod] has no entry for a period no visible commission has.
    For a period of a visible commission that is no property name of
    [Object.prototype], the entry is the sum of the amounts of the visible
    commissions of that period.  For one that is the name of an inherited
    function, the entry is a string: the engine's text of that function
    followed by the digits of those amounts, in order.  For [__proto__]
    there is never an entry. *)
Theorem X13_summary_by_period (env : Env) (w : World) (user : option User.t) :
  errorSim env CommissionService.SERVICE_NAME = None ->
  exists visible s,
    CommissionService.getCommissionsMock env w user None
    = Returned visible w /\
    CommissionService.getCommissionSummaryMock env w user = Returned s w /\
    forall p,
      CommissionService.byPeriod s !! p
      = if bool_decide (p ∈ Commission.period <$> visible) then
          if JS.inherited p then
            if String.eqb p "__proto__" then None
            else
              Some (JS.Str
                      (nativeText env p
                       +:+ foldr (fun c acc =>
                                    JS.String_of (Commission.commissionAmount c)
                                    +:+ acc) ""
                                 (filter (fun c => Commission.period c = p)
                                         visible)))
          else
            Some (JS.Num
                    (CommissionService.sumAmounts
                       (filter (fun c => Commission.period c = p) visible)))
        else None.
Proof.
  intros Hsim.
  unfold CommissionService.getCommissionSummaryMock,
    CommissionService.getCommissionsMock, simulated.
  rewrite Hsim. cbv zeta. eexists _, _.
  split; [reflexivity|]. split; [reflexivity|].
  intros p. cbn [CommissionService.byPeriod].
  destruct (JS.inherited p) eqn:Hi.
  - destruct (String.eqb_spec p "__proto__") as [->|Hp].
    + rewrite lookup_byPeriod_proto by apply lookup_empty.
      by case_bool_decide.
    + by rewrite lookup_byPeriod_text by (done || apply lookup_empty).
  - rewrite (lookup_byPeriod env p _ ∅ 0 Hi)
      by (left; split; [apply lookup_empty|reflexivity]).
    rewrite lookup_empty. case_bool_decide; [|reflexivity].
    do 2 f_equal.
Qed.

(** Two sample commissions of December 2024 and one whose period is
    [toString], as the admin sees them. *)
Lemma X13_summary_by_period_witness :
  errorSim Sample.env CommissionService.SERVICE_NAME = None /\
  exists s,
    CommissionService.getCommissionSummaryMock Sample.env
      (set_mockCommissions
         [Sample.commissionAt CPending None;
          Sample.commissionIn "toString" 7;
          Sample.commissionAt CApproved None]
         Sample.empty)
      (Some Sample.admin)
    = Returned s
        (set_mockCommissions
           [Sample.commissionAt CPending None;
            Sample.commissionIn "toString" 7;
            Sample.commissionAt CApproved None]
           Sample.empty) /\
    CommissionService.byPeriod s !! "2024-12" = Some (JS.Num 100) /\
    CommissionService.byPeriod s !! "toString"
    = Some (JS.Str "function toString() { [native code] }7") /\
    CommissionService.byPeriod s !! "1999-01" = None.
Proof.
  split; [reflexivity|].
  destruct (X13_summary_by_period Sample.env
              (set_mockCommissions
                 [Sample.commissionAt CPending None;
                  Sample.commissionIn "toString" 7;
                  Sample.commissionAt CApproved None]
                 Sample.empty)
              (Some Sample.admin) eq_refl) as (l & s & H1 & H2 & H3).
  exists s. split; [exact H2|].
  rewrite !H3. injection H1 as <-. split_and!; vm_compute; reflexivity.
Defined.

(** ** Commission status updates and the money *)

(** What an accepted commission status update leaves in the store. *)
Lemma updateCommissionStatus_returned (env : Env) (w w' : World)
    (commissionId : string) (status : CommissionStatus) (c' : Commission.t) :
  CommissionService.updateCommissionStatusMock env w commissionId status
  = Returned c' w' ->
  exists i c,
    errorSim env CommissionService.SERVICE_NAME = None /\
    find_by Commission.id commissionId (mockCommissions w) = Some (i, c) /\
    c' = (if bool_decide (status = CPaid)
             && negb (JS.truthy (Commission.paidDate c))
          then Commission.set_paidDate (Some (JS.toISOString (now env)))
                 (Commission.set_status status c)
          else Commission.set_status status c) /\
    w' = set_mockCommissions (<[i := c']> (mockCommissions w)) w.
Proof.
  unfold CommissionService.updateCommissionStatusMock.
  destruct (simulated env _ _ _) eqn:Hs; [discriminate|].
  apply simulated_None in Hs.
  destruct (find_by _ _ _) as [[i c]|] eqn:Hfind; [|discriminate].
  cbv zeta.
  match goal with |- context [if ?c then Thrown _ _ else _] => destruct c end;
    [discriminate|].
  replace (Commission.paidDate (Commission.set_status status c))
    with (Commission.paidDate c) by (by destruct c).
  intros H. injection H as <- <-. by exists i, c.
Qed.

(** A refused commission status update leaves the store as it was. *)
Lemma updateCommissionStatus_thrown (env : Env) (w w' : World)
    (commissionId : string) (status : CommissionStatus) (e : ApiError) :
  CommissionService.updateCommissionStatusMock env w commissionId status
  = Thrown e w' -> w' = w.
Proof.
  unfold CommissionService.updateCommissionStatusMock.
  repeat case_match; intros; by simplify_eq.
Qed.

(** Whatever the outcome, the commissions afterwards are the ones before,
    up to status and paid date. *)
Lemma updateCommissionStatus_same_but_status (env : Env) (w : World)
    (commissionId : string) (status : CommissionStatus) :
  Forall2 same_but_status (mockCommissions w)
    (mockCommissions
       (final_world
          (CommissionService.updateCommissionStatusMock env w commissionId
             status))).
Proof.
  destruct (CommissionService.updateCommissionStatusMock env w commissionId
              status) as [c' w'|e w'] eqn:Hop; cbn [final_world].
  2: { apply updateCommissionStatus_thrown in Hop as ->.
       apply Forall2_same_length_lookup_2; [done|].
       intros k x y Hx Hy. by simplify_eq. }
  destruct (updateCommissionStatus_returned _ _ _ _ _ _ Hop)
    as (i & c & _ & Hf & Hc' & ->).
  apply find_by_Some in Hf as [Hi _]. simpl_world.
  apply Forall2_same_length_lookup_2; [by rewrite length_insert|].
  intros k x y Hx Hy.
  apply list_lookup_insert_Some in Hy as [(-> & <- & _)|[_ Hy]].
  - rewrite Hi in Hx. injection Hx as <-. rewrite Hc'.
    unfold same_but_status. destruct c.
    by destruct (_ && _).
  - by simplify_eq.
Qed.

Lemma same_but_status_fields (c c' : Commission.t) :
  same_but_status c c' ->
  Commission.resellerId c' = Commission.resellerId c /\
  Commission.period c' = Commission.period c /\
  Commission.commissionAmount c' = Commission.commissionAmount c.
Proof.
  unfold same_but_status. destruct c, c'. cbn. intros H.
  by injection H; intros; subst.
Qed.

Lemma sumAmounts_same_but_status (l l' : list Commission.t) :
  Forall2 same_but_status l l' ->
  CommissionService.sumAmounts l' = CommissionService.sumAmounts l.
Proof.
  induction 1 as [|c c' l l' Hc _ IH]; [reflexivity|].
  rewrite !sumAmounts_cons, IH.
  by destruct (same_but_status_fields c c' Hc) as (_ & _ & ->).
Qed.

Lemma byPeriod_same_but_status (env : Env) (l l' : list Commission.t) :
  Forall2 same_but_status l l' ->
  forall m, foldl (CommissionService.addToPeriod env) m l'
            = foldl (CommissionService.addToPeriod env) m l.
Proof.
  induction 1 as [|c c' l l' Hc _ IH]; intros m; [reflexivity|].
  cbn [foldl]. rewrite IH. unfold CommissionService.addToPeriod.
  by destruct (same_but_status_fields c c' Hc) as (_ & -> & ->).
Qed.

(** X14. Commission status updates move money between the status buckets
    but never change how much there is: whatever the request and its
    outcome, the summary every user gets afterwards (error simulation off)
    has the same [totalAmount] and the same [byPeriod] figures as the summary
    they would have got before, and the store holds as many commissions. *)
Theorem X14_commission_update_keeps_totals (env env2 : Env) (w : World)
    (commissionId : string) (status : CommissionStatus)
    (user : option User.t) :
  errorSim env2 CommissionService.SERVICE_NAME = None ->
  let w' :=
    final_world
      (CommissionService.updateCommissionStatusMock env w commissionId
         status) in
  exists s s',
    CommissionService.getCommissionSummaryMock env2 w user = Returned s w /\
    CommissionService.getCommissionSummaryMock env2 w' user = Returned s' w' /\
    CommissionService.totalAmount s' = CommissionService.totalAmount s /\
    CommissionService.byPeriod s' = CommissionService.byPeriod s /\
    length (mockCommissions w') = length (mockCommissions w).
Proof.
  intros Hsim w'.
  pose proof (updateCommissionStatus_same_but_status env w commissionId
                status) as Hall.
  fold w' in Hall.
  unfold CommissionService.getCommissionSummaryMock,
    CommissionService.getCommissionsMock, simulated.
  rewrite Hsim. cbv zeta. eexists _, _.
  split; [reflexivity|]. split; [reflexivity|].
  cbn [CommissionService.totalAmount CommissionService.byPeriod].
  assert (Hvis :
    Forall2 same_but_status
      match user with
      | Some u =>
          match User.role u with
          | Admin => mockCommissions w
          | Reseller =>
              filter (fun c => Commission.resellerId c = User.tenantId u)
                     (mockCommissions w)
          | _ => []
          end
      | None => mockCommissions w
      end
      match user with
      | Some u =>
          match User.role u with
          | Admin => mockCommissions w'
          | Reseller =>
              filter (fun c => Commission.resellerId c = User.tenantId u)
                     (mockCommissions w')
          | _ => []
          end
      | None => mockCommissions w'
      end).
  { destruct user as [u|]; [|exact Hall].
    destruct (User.role u); try exact Hall; try constructor.
    apply Forall2_filter; [|exact Hall].
    intros x y Hxy.
    by destruct (same_but_status_fields x y Hxy) as (-> & _). }
  split_and!.
  - by apply sumAmounts_same_but_status.
  - by apply byPeriod_same_but_status.
  - symmetry. by eapply Forall2_length.
Qed.

(** A pending commission is approved: the admin's total stays at its
    amount. *)
Lemma X14_commission_update_keeps_totals_witness :
  errorSim Sample.env CommissionService.SERVICE_NAME = None /\
  exists s s',
    CommissionService.getCommissionSummaryMock Sample.env
      (set_mockCommissions [Sample.commissionAt CPending None] Sample.empty)
      (Some Sample.admin)
    = Returned s
        (set_mockCommissions [Sample.commissionAt CPending None]
           Sample.empty) /\
    CommissionService.getCommissionSummaryMock Sample.env
      (final_world
         (CommissionService.updateCommissionStatusMock Sample.env
            (set_mockCommissions [Sample.commissionAt CPending None]
               Sample.empty)
            "comm-001" CApproved))
      (Some Sample.admin)
    = Returned s'
        (final_world
           (CommissionService.updateCommissionStatusMock Sample.env
              (set_mockCommissions [Sample.commissionAt CPending None]
                 Sample.empty)
              "comm-001" CApproved)) /\
    CommissionService.totalAmount s' = CommissionService.totalAmount s /\
    CommissionService.totalPending s' <> CommissionService.totalPending s.
Proof.
  split; [reflexivity|].
  destruct (X14_commission_update_keeps_totals Sample.env Sample.env
              (set_mockCommissions [Sample.commissionAt CPending None]
                 Sample.empty)
              "comm-001" CApproved (Some Sample.admin) eq_refl)
    as (s & s' & H1 & H2 & H3 & _).
  exists s, s'. split_and!; try assumption.
  vm_compute in H1, H2. injection H1 as <-. injection H2 as <-.
  vm_compute. discriminate.
Defined.

(** X15. An accepted commission status update changes, of the commission it
    finds, the status and at most the paid date, and of the store that
    commission only.  A paid date that is set is never overwritten or
    cleared, also when the commission leaves [paid]; a request for a status
    other than [paid] never sets one; a request for [paid] on a commission
    without paid date stamps the time of the call. *)
Theorem X15_paid_date_kept (env : Env) (w w' : World) (commissionId : string)
    (status : CommissionStatus) (c' : Commission.t) :
  CommissionService.updateCommissionStatusMock env w commissionId status
  = Returned c' w' ->
  exists i c,
    find_by Commission.id commissionId (mockCommissions w) = Some (i, c) /\
    w' = set_mockCommissions (<[i := c']> (mockCommissions w)) w /\
    Commission.status c' = status /\
    c' = Commission.set_paidDate (Commission.paidDate c')
           (Commission.set_status status c) /\
    (JS.truthy (Commission.paidDate c) = true ->
     Commission.paidDate c' = Commission.paidDate c) /\
    (status <> CPaid -> Commission.paidDate c' = Commission.paidDate c) /\
    (status = CPaid -> JS.truthy (Commission.paidDate c) = false ->
     Commission.paidDate c' = Some (JS.toISOString (now env))).
Proof.
  intros H.
  destruct (updateCommissionStatus_returned _ _ _ _ _ _ H)
    as (i & c & _ & Hf & Hc' & Hw').
  exists i, c. split; [exact Hf|]. split; [exact Hw'|].
  rewrite Hc'. clear.
  destruct c as [a1 a2 a3 a4 a5 a6 a7 a8 a9 a10 a11 a12 st a14 a15 pd].
  cbn [Commission.paidDate].
  case_bool_decide as Hp; destruct (JS.truthy pd) eqn:Hpd; cbn [andb negb];
    split_and!; try done.
Qed.

(** A paid commission of the sample store is moved back to [pending]: the
    paid date stays. *)
Lemma X15_paid_date_kept_witness :
  exists c' w',
    CommissionService.updateCommissionStatusMock Sample.env
      (set_mockCommissions
         [Sample.commissionAt CPaid (Some "2024-12-05T10:00:00.000Z")]
         Sample.empty)
      "comm-001" CPending = Returned c' w' /\
    Commission.status c' = CPending /\
    Commission.paidDate c' = Some "2024-12-05T10:00:00.000Z".
Proof.
  eexists _, _.
  assert (H : CommissionService.updateCommissionStatusMock Sample.env
                (set_mockCommissions
                   [Sample.commissionAt CPaid
                      (Some "2024-12-05T10:00:00.000Z")]
                   Sample.empty)
                "comm-001" CPending = Returned _ _)
    by (vm_compute; reflexivity).
  destruct (X15_paid_date_kept _ _ _ _ _ _ H)
    as (i & c & _ & _ & Hs & _).
  split; [exact H|]. split; [exact Hs|reflexivity].
Defined.

(** ** Records: creating, listing, verifying *)

Lemma filter_snoc_True {A} (P : A -> Prop) `{!forall x, Decision (P x)}
    (l : list A) (x : A) :
  P x -> filter P (l ++ [x])%list = (filter P l ++ [x])%list.
Proof. intros HP. by rewrite filter_app, filter_cons_True by exact HP. Qed.

Lemma filter_snoc_False {A} (P : A -> Prop) `{!forall x, Decision (P x)}
    (l : list A) (x : A) :
  ~ P x -> filter P (l ++ [x])%list = filter P l.
Proof.
  intros HP. rewrite filter_app, filter_cons_False by exact HP.
  by rewrite filter_nil, app_nil_r.
Qed.

(** X16. Creating a sanitisation record and listing: with error simulation
    off, [createSanitisationRecord] returns for every booking identifier
    (also one no booking carries), the record is unverified, and afterwards
    [getSanitisationRecords] for that (non-empty) booking identifier returns
    what it returned before followed by the new record, the unfiltered
    listing returns the old records followed by the new one, and the listing
    for any other non-empty booking identifier is what it was. *)
Theorem X16_sanitisation_record_listed (env env2 : Env) (w : World)
    (bookingId assetId method performedBy : string)
    (methodDetails notes : option string) :
  errorSim env SanitisationService.SERVICE_NAME = None ->
  errorSim env2 SanitisationService.SERVICE_NAME = None ->
  bookingId <> "" ->
  exists r w' old,
    SanitisationService.createSanitisationRecordMock env w bookingId assetId
      method performedBy methodDetails notes = Returned r w' /\
    SanitisationRecord.verified r = false /\
    SanitisationRecord.bookingId r = bookingId /\
    SanitisationRecord.assetId r = assetId /\
    SanitisationReads.getSanitisationRecordsMock env2 w (Some bookingId)
    = Returned old w /\
    SanitisationReads.getSanitisationRecordsMock env2 w' (Some bookingId)
    = Returned (old ++ [r])%list w' /\
    SanitisationReads.getSanitisationRecordsMock env2 w' None
    = Returned (mockSanitisationRecords w ++ [r])%list w' /\
    (forall other, other <> bookingId -> other <> "" ->
       exists l,
         SanitisationReads.getSanitisationRecordsMock env2 w (Some other)
         = Returned l w /\
         SanitisationReads.getSanitisationRecordsMock env2 w' (Some other)
         = Returned l w').
Proof.
  intros Hsim Hsim2 Hne.
  destruct (sanitisation_cascade env w bookingId assetId method performedBy
              methodDetails notes Hsim)
    as (r & w' & Hc & Hrec & Hb & Ha & _).
  assert (Hv : SanitisationRecord.verified r = false).
  { revert Hc. unfold SanitisationService.createSanitisationRecordMock,
      simulated. rewrite Hsim. cbv zeta. by intros [= <- _]. }
  exists r, w', (filter (fun r => Some (SanitisationRecord.bookingId r)
                                  = Some bookingId)
                   (mockSanitisationRecords w)).
  unfold SanitisationReads.getSanitisationRecordsMock, simulated.
  rewrite Hsim2. cbv zeta. rewrite Hrec.
  rewrite (proj2 (truthy_Some bookingId) Hne).
  split_and!; try done.
  - by rewrite filter_snoc_True by (by rewrite Hb).
  - intros other Ho Hoe. rewrite (proj2 (truthy_Some other) Hoe).
    eexists. split; [reflexivity|].
    rewrite filter_snoc_False; [reflexivity|]. rewrite Hb. congruence.
Qed.

(** A record for a booking the sample store does not hold. *)
Lemma X16_sanitisation_record_listed_witness :
  errorSim Sample.env SanitisationService.SERVICE_NAME = None /\
  "booking-404" <> "" /\
  exists r w',
    SanitisationService.createSanitisationRecordMock Sample.env Sample.empty
      "booking-404" "laptop" "wipe" "op-1" None None = Returned r w' /\
    SanitisationReads.getSanitisationRecordsMock Sample.env w'
      (Some "booking-404") = Returned [r] w'.
Proof.
  split; [reflexivity|]. split; [discriminate|].
  destruct (X16_sanitisation_record_listed Sample.env Sample.env Sample.empty
              "booking-404" "laptop" "wipe" "op-1" None None
              eq_refl eq_refl ltac:(discriminate))
    as (r & w' & old & H1 & _ & _ & _ & H5 & H6 & _).
  exists r, w'. split; [exact H1|].
  vm_compute in H5. injection H5 as <-. exact H6.
Defined.

(** X17. Creating a grading record and listing: with error simulation off,
    [createGradingRecord] returns for every booking identifier, the record
    carries the grade and, as resale value, the rounded product of the base
    value of the category and the multiplier of the grade (what
    [calculateResaleValue] gives for one unit); afterwards
    [getGradingRecords] for that (non-empty) booking identifier returns what
    it returned before followed by the new record, and the listing for any
    other non-empty booking identifier is what it was. *)
Theorem X17_grading_record_listed (env env2 : Env) (w : World)
    (bookingId assetId assetCategory : string) (grade : Grade)
    (gradedBy : string) (condition notes : option string) :
  errorSim env GradingService.SERVICE_NAME = None ->
  errorSim env2 GradingService.SERVICE_NAME = None ->
  bookingId <> "" ->
  exists r w' old,
    GradingService.createGradingRecordMock env w bookingId assetId
      assetCategory grade gradedBy condition notes = Returned r w' /\
    GradingRecord.grade r = grade /\
    GradingRecord.resaleValue r
    = GradingReads.calculateResaleValueMock assetCategory grade 1 /\
    GradingReads.getGradingRecordsMock env2 w (Some bookingId)
    = Returned old w /\
    GradingReads.getGradingRecordsMock env2 w' (Some bookingId)
    = Returned (old ++ [r])%list w' /\
    GradingReads.getGradingRecordsMock env2 w' None
    = Returned (mockGradingRecords w ++ [r])%list w' /\
    (forall other, other <> bookingId -> other <> "" ->
       exists l,
         GradingReads.getGradingRecordsMock env2 w (Some other)
         = Returned l w /\
         GradingReads.getGradingRecordsMock env2 w' (Some other)
         = Returned l w').
Proof.
  intros Hsim Hsim2 Hne.
  destruct (grading_cascade env w bookingId assetId assetCategory grade
              gradedBy condition notes Hsim)
    as (r & w' & Hc & Hrec & Hb & Ha & _).
  assert (Hv : GradingRecord.grade r = grade /\
               GradingRecord.resaleValue r
               = GradingService.resaleValueOf assetCategory grade).
  { revert Hc. unfold GradingService.createGradingRecordMock, simulated.
    rewrite Hsim. cbv zeta. by intros [= <- _]. }
  destruct Hv as [Hg Hv].
  exists r, w', (filter (fun r => Some (GradingRecord.bookingId r)
                                  = Some bookingId)
                   (mockGradingRecords w)).
  unfold GradingReads.getGradingRecordsMock, simulated.
  rewrite Hsim2. cbv zeta. rewrite Hrec.
  rewrite (proj2 (truthy_Some bookingId) Hne).
  split_and!; try done.
  - rewrite Hv. unfold GradingService.resaleValueOf,
      GradingReads.calculateResaleValueMock, GradingService.baseValueOf,
      GradingService.baseResaleValues.
    repeat match goal with
           | |- context [String.eqb ?a ?b] => destruct (String.eqb a b)
           end;
      try destruct (JS.inherited assetCategory); by destruct grade.
  - by rewrite filter_snoc_True by (by rewrite Hb).
  - intros other Ho Hoe. rewrite (proj2 (truthy_Some other) Hoe).
    eexists. split; [reflexivity|].
    rewrite filter_snoc_False; [reflexivity|]. rewrite Hb. congruence.
Qed.

(** A laptop of the sample booking is graded B. *)
Lemma X17_grading_record_listed_witness :
  errorSim Sample.env GradingService.SERVICE_NAME = None /\
  "booking-001" <> "" /\
  exists r w',
    GradingService.createGradingRecordMock Sample.env Sample.empty
      "booking-001" "laptop" "laptop" GradeB "op-1" None None
    = Returned r w' /\
    GradingRecord.resaleValue r = Some 59 /\
    GradingReads.getGradingRecordsMock Sample.env w' (Some "booking-001")
    = Returned [r] w'.
Proof.
  split; [reflexivity|]. split; [discriminate|].
  destruct (X17_grading_record_listed Sample.env Sample.env Sample.empty
              "booking-001" "laptop" "laptop" GradeB "op-1" None None
              eq_refl eq_refl ltac:(discriminate))
    as (r & w' & old & H1 & _ & H3 & H4 & H5 & _).
  exists r, w'. split; [exact H1|]. split; [rewrite H3; reflexivity|].
  vm_compute in H4. injection H4 as <-. exact H5.
Defined.

(** X18. [verifySanitisation] with error simulation off: an identifier no
    record carries gives [NOT_FOUND] (404) and leaves the store as it was;
    otherwise the first record with that identifier is returned with
    [verified] set and every other field as it was, no other record and
    nothing else in the store changes (no booking or job moves), and
    verifying again returns the same record and changes nothing. *)
Theorem X18_verify_sanitisation (env env2 : Env) (w : World)
    (recordId : string) :
  errorSim env SanitisationService.SERVICE_NAME = None ->
  errorSim env2 SanitisationService.SERVICE_NAME = None ->
  (find_by SanitisationRecord.id recordId (mockSanitisationRecords w) = None ->
   exists e,
     SanitisationReads.verifySanitisationMock env w recordId = Thrown e w /\
     etype e = NOT_FOUND /\ statusCode e = 404) /\
  (forall i r,
     find_by SanitisationRecord.id recordId (mockSanitisationRecords w)
     = Some (i, r) ->
     exists r' w',
       SanitisationReads.verifySanitisationMock env w recordId
       = Returned r' w' /\
       SanitisationRecord.verified r' = true /\
       r' = SanitisationReads.set_verified r /\
       w' = set_mockSanitisationRecords
              (<[i := r']> (mockSanitisationRecords w)) w /\
       (forall k x, k <> i -> mockSanitisationRecords w !! k = Some x ->
                    mockSanitisationRecords w' !! k = Some x) /\
       SanitisationReads.verifySanitisationMock env2 w' recordId
       = Returned r' w').
Proof.
  intros Hsim Hsim2.
  unfold SanitisationReads.verifySanitisationMock, simulated.
  rewrite Hsim, Hsim2. split.
  - intros ->. eexists. by split_and!.
  - intros i r Hf. rewrite Hf. cbv zeta. eexists _, _.
    split; [reflexivity|]. split_and!; try reflexivity.
    + intros k x Hk Hx. simpl_world.
      by rewrite list_lookup_insert_ne by congruence.
    + simpl_world.
      erewrite find_by_insert_same; [|exact Hf|].
      2: { apply find_by_Some in Hf as [_ Hid]. exact Hid. }
      f_equal. rewrite list_insert_insert_eq. by destruct w.
Qed.

(** A record is created in the empty sample store and verified. *)
Lemma X18_verify_sanitisation_witness :
  errorSim Sample.env SanitisationService.SERVICE_NAME = None /\
  exists r' w',
    SanitisationReads.verifySanitisationMock Sample.env
      (final_world
         (SanitisationService.createSanitisationRecordMock Sample.env
            Sample.empty "booking-001" "laptop" "wipe" "op-1" None None))
      ("sanit-" +:+ JS.String_of (now Sample.env))
    = Returned r' w' /\
    SanitisationRecord.verified r' = true.
Proof.
  split; [reflexivity|].
  destruct (proj2 (X18_verify_sanitisation Sample.env Sample.env
                     (final_world
                        (SanitisationService.createSanitisationRecordMock
                           Sample.env Sample.empty "booking-001" "laptop"
                           "wipe" "op-1" None None))
                     ("sanit-" +:+ JS.String_of (now Sample.env))
                     eq_refl eq_refl)
              0%nat _ ltac:(vm_compute; reflexivity))
    as (r' & w' & H1 & H2 & _).
  exists r', w'. split; assumption.
Defined.

(** ** The resale value table *)

(** X19. The per-unit resale value of a grading record, for every category
    string.  For a property name of [Object.prototype] ([constructor],
    [toString], ...) it is [NaN] for every grade, and so is
    [calculateResaleValue] for every quantity, also 0.  For every other
    string it is a number: 0 for grade [Recycled] and for a category the
    table does not list; it never increases from grade A down to D and is
    never negative; for grade A it is the base value of the category; and
    [calculateResaleValue] for a quantity of 0 is 0. *)
Theorem X19_resale_value_table (category : string) :
  if JS.inherited category then
    (forall g, GradingService.resaleValueOf category g = None) /\
    (forall g q, GradingReads.calculateResaleValueMock category g q = None)
  else
    exists a b c d,
      GradingService.resaleValueOf category GradeA = Some a /\
      GradingService.resaleValueOf category GradeB = Some b /\
      GradingService.resaleValueOf category GradeC = Some c /\
      GradingService.resaleValueOf category GradeD = Some d /\
      GradingService.resaleValueOf category GradeRecycled = Some 0 /\
      0 <= d /\ d <= c /\ c <= b /\ b <= a /\
      (GradingService.baseResaleValues category = JS.Missing ->
       a = 0) /\
      (forall base, GradingService.baseResaleValues category = JS.Own base ->
                    (inject_Z a == base)%Q) /\
      (forall g, GradingReads.calculateResaleValueMock category g 0 = Some 0).
Proof.
  unfold GradingService.resaleValueOf, GradingReads.calculateResaleValueMock,
    GradingService.baseValueOf.
  assert (Hown : forall v, GradingService.baseResaleValues category = JS.Own v
                           -> JS.inherited category = false).
  { unfold GradingService.baseResaleValues.
    repeat match goal with
           | |- context [String.eqb ?a ?b] =>
               destruct (String.eqb_spec a b) as [->|_]; [reflexivity|]
           end.
    destruct (JS.inherited category); discriminate. }
  destruct (GradingService.baseResaleValues category) as [v| |] eqn:Hbase.
  - rewrite (Hown v eq_refl). revert Hbase.
    unfold GradingService.baseResaleValues.
    repeat match goal with
           | |- context [String.eqb ?a ?b] => destruct (String.eqb a b)
           end;
      try (destruct (JS.inherited category); discriminate);
      intros [= <-]; eexists _, _, _, _;
      (split_and!;
       [ vm_compute; reflexivity | vm_compute; reflexivity
       | vm_compute; reflexivity | vm_compute; reflexivity
       | vm_compute; reflexivity
       | vm_compute; discriminate | vm_compute; discriminate
       | vm_compute; discriminate | vm_compute; discriminate
       | discriminate
       | intros base [= <-]; vm_compute; reflexivity
       | intros g; destruct g; vm_compute; reflexivity ]).
  - assert (Hi : JS.inherited category = true).
    { revert Hbase. unfold GradingService.baseResaleValues.
      repeat match goal with
             | |- context [String.eqb ?a ?b] => destruct (String.eqb a b)
             end; try discriminate.
      destruct (JS.inherited category); [reflexivity|discriminate]. }
    rewrite Hi. split; reflexivity.
  - assert (Hi : JS.inherited category = false).
    { revert Hbase. unfold GradingService.baseResaleValues.
      repeat match goal with
             | |- context [String.eqb ?a ?b] => destruct (String.eqb a b)
             end; try discriminate.
      destruct (JS.inherited category); [discriminate|reflexivity]. }
    rewrite Hi. exists 0, 0, 0, 0.
    split_and!; try lia; try discriminate;
      try (intros g; destruct g); vm_compute; reflexivity.
Qed.

(** ** The driver's gates on a job *)

(** X20. For a job in one of the nine workflow statuses:
    [canDriverAccessJob] holds exactly when the job exists and is not
    [finalised], [canDriverEditJob] holds exactly when it exists and is
    [routed], [en-route], [arrived] or [collected]; so whatever a driver can
    edit they can access, and a [booked] job can be seen but not edited. *)
Theorem X20_driver_job_gates (job : option Job.t) :
  (JobHelpers.canDriverAccessJob job = true
   <-> exists j, job = Some j /\ Job.status j <> JFinalised) /\
  (JobHelpers.canDriverEditJob job = true
   <-> exists j, job = Some j /\
                 Job.status j ∈ [JRouted; JEnRoute; JArrived; JCollected]) /\
  (JobHelpers.canDriverEditJob job = true ->
   JobHelpers.canDriverAccessJob job = true).
Proof.
  destruct job as [j|].
  2: { split_and!; [split|split|]; try discriminate;
       by intros (j & Hj & _). }
  assert (Ha : JobHelpers.canDriverAccessJob (Some j)
               = negb (bool_decide (Job.status j = JFinalised))).
  { unfold JobHelpers.canDriverAccessJob.
    by destruct (Job.status j). }
  assert (He : JobHelpers.canDriverEditJob (Some j)
               = bool_decide (Job.status j
                              ∈ [JRouted; JEnRoute; JArrived; JCollected])).
  { unfold JobHelpers.canDriverEditJob.
    by destruct (Job.status j). }
  rewrite Ha, He. split_and!.
  - rewrite negb_true_iff, bool_decide_eq_false. split.
    + intros H. by exists j.
    + by intros (j' & [= <-] & H).
  - rewrite bool_decide_eq_true. split.
    + intros H. by exists j.
    + by intros (j' & [= <-] & H).
  - by destruct (Job.status j).
Qed.

(** ** Simulated errors *)

(** X21. When error simulation is switched on for the booking, invoices or
    commission service, every operation of that service throws before it
    reads or changes the store: the store is left as it was, the error type
    is the configured one, or else [SERVER_ERROR] for the operations that
    write and [NETWORK_ERROR] for the list reads, and the status code is 0
    only when [NETWORK_ERROR] is configured, 500 otherwise (so a list read
    without a configured type throws [NETWORK_ERROR] with 500).  The reads
    of a single booking or invoice throw a 404 [NOT_FOUND] when that type is
    configured. *)
Theorem X21_simulated_errors (env : Env) (w : World)
    (c : option ApiErrorType) :
  (errorSim env BookingService.SERVICE_NAME = Some c ->
   (forall id d a,
      threw_simulated (BookingService.assignDriverMock env w id d a) w
        SERVER_ERROR c "Failed to assign driver. Please try again.") /\
   (forall id a,
      threw_simulated (BookingService.completeBookingMock env w id a) w
        SERVER_ERROR c "Failed to complete booking. Please try again.") /\
   (forall id s,
      threw_simulated (BookingService.updateBookingStatusMock env w id s) w
        SERVER_ERROR c "Failed to update booking status. Please try again.")
   /\
   (forall u f,
      threw_simulated (BookingReads.getBookingsMock env w u f) w
        NETWORK_ERROR c "Failed to fetch bookings. Please try again.") /\
   (forall id,
      if decide (c = Some NOT_FOUND)
      then exists e, BookingReads.getBookingByIdMock env w id = Thrown e w /\
                     etype e = NOT_FOUND /\ statusCode e = 404
      else threw_simulated (BookingReads.getBookingByIdMock env w id) w
             NETWORK_ERROR c "Failed to fetch booking. Please try again.")) /\
  (errorSim env InvoicesService.SERVICE_NAME = Some c ->
   (forall id s,
      threw_simulated (InvoicesService.updateInvoiceStatusMock env w id s) w
        SERVER_ERROR c "Failed to update invoice status. Please try again.")
   /\
   (forall cl u s,
      threw_simulated (InvoiceReads.getInvoicesMock env w cl u s) w
        NETWORK_ERROR c "Failed to fetch invoices. Please try again.") /\
   (forall id,
      if decide (c = Some NOT_FOUND)
      then exists e, InvoiceReads.getInvoiceMock env w id = Thrown e w /\
                     etype e = NOT_FOUND /\ statusCode e = 404
      else threw_simulated (InvoiceReads.getInvoiceMock env w id) w
             NETWORK_ERROR c "Failed to fetch invoice. Please try again.")) /\
  (errorSim env CommissionService.SERVICE_NAME = Some c ->
   (forall id s,
      threw_simulated
        (CommissionService.updateCommissionStatusMock env w id s) w
        SERVER_ERROR c
        "Failed to update commission status. Please try again.") /\
   (forall u f,
      threw_simulated (CommissionService.getCommissionsMock env w u f) w
        NETWORK_ERROR c
        "Failed to fetch commission records. Please try again.") /\
   (forall u,
      exists e,
        CommissionService.getCommissionSummaryMock env w u = Thrown e w /\
        etype e = default NETWORK_ERROR c)).
Proof.
  unfold threw_simulated.
  split_and!; intros Hsim; split_and!; intros;
    try (unfold BookingService.assignDriverMock,
           BookingService.completeBookingMock,
           BookingService.updateBookingStatusMock,
           BookingReads.getBookingsMock,
           InvoicesService.updateInvoiceStatusMock,
           InvoiceReads.getInvoicesMock,
           CommissionService.updateCommissionStatusMock,
           CommissionService.getCommissionSummaryMock,
           CommissionService.getCommissionsMock, simulated;
         rewrite Hsim; by eauto).
  - unfold BookingReads.getBookingByIdMock, simulatedFetch. rewrite Hsim.
    destruct (decide (c = Some NOT_FOUND)); [by eexists|reflexivity].
  - unfold InvoiceReads.getInvoiceMock, simulatedFetch. rewrite Hsim.
    destruct (decide (c = Some NOT_FOUND)); [by eexists|reflexivity].
Qed.

(** X22. When error simulation is switched on for the sanitisation or the
    grading service, creating a record, verifying one and listing records
    throw before anything is read or changed: no record is appended, no
    booking or job moves, the error type is the configured one, or else
    [SERVER_ERROR] for creating and verifying and [NETWORK_ERROR] for
    listing, and the status code is 0 only when [NETWORK_ERROR] is
    configured, 500 otherwise. *)
Theorem X22_simulated_errors_records (env : Env) (w : World)
    (c : option ApiErrorType) :
  (errorSim env SanitisationService.SERVICE_NAME = Some c ->
   (forall b a m p md n,
      threw_simulated
        (SanitisationService.createSanitisationRecordMock env w b a m p md n)
        w SERVER_ERROR c
        "Failed to create sanitisation record. Please try again.") /\
   (forall id,
      threw_simulated (SanitisationReads.verifySanitisationMock env w id) w
        SERVER_ERROR c "Failed to verify sanitisation. Please try again.") /\
   (forall b,
      threw_simulated (SanitisationReads.getSanitisationRecordsMock env w b)
        w NETWORK_ERROR c
        "Failed to fetch sanitisation records. Please try again.")) /\
  (errorSim env GradingService.SERVICE_NAME = Some c ->
   (forall b a ac g gb cd n,
      threw_simulated
        (GradingService.createGradingRecordMock env w b a ac g gb cd n)
        w SERVER_ERROR c
        "Failed to create grading record. Please try again.") /\
   (forall b,
      threw_simulated (GradingReads.getGradingRecordsMock env w b)
        w NETWORK_ERROR c
        "Failed to fetch grading records. Please try again.")).
Proof.
  unfold threw_simulated.
  split_and!; intros Hsim; split_and!; intros;
    unfold SanitisationService.createSanitisationRecordMock,
      SanitisationReads.verifySanitisationMock,
      SanitisationReads.getSanitisationRecordsMock,
      GradingService.createGradingRecordMock,
      GradingReads.getGradingRecordsMock, simulated;
    by rewrite Hsim.
Qed.
